(** * AI-Notebook: the document store, its persistence adapter and the
    chat command extractor

    A shallow embedding of
    - [notepadReducer] (the reducer of the notepad context),
    - [ExcelStorage] (the localStorage-backed persistence adapter), and
    - [processAICommands] (the chat-to-domain-action bridge of AIChat),
    together with the call sites that guard the adapter.

    JavaScript strings are modelled as Rocq strings, one character per
    code unit below 256; dates as their time value in milliseconds. *)

From Stdlib Require Import ZArith Lia Ascii String.
From stdpp Require Import base option list strings gmap pretty.

Local Open Scope string_scope.

(** ** JavaScript strings *)

Module JsString.

Definition code (c : ascii) : nat := nat_of_ascii c.

(** [String.prototype.toLowerCase] on one code unit: A-Z and the
    Latin-1 capitals (all of 0xC0-0xDE but the multiplication sign). *)
Definition lower_char (c : ascii) : ascii :=
  let n := code c in
  if ((65 <=? n) && (n <=? 90))%nat then ascii_of_nat (n + 32)
  else if ((192 <=? n) && (n <=? 222) && negb (n =? 215))%nat
       then ascii_of_nat (n + 32)
  else c.

Fixpoint toLowerCase (s : string) : string :=
  match s with
  | EmptyString => EmptyString
  | String c s' => String (lower_char c) (toLowerCase s')
  end.

(** [hay.includes(needle)] *)
Fixpoint includes (hay needle : string) : bool :=
  String.prefix needle hay ||
  match hay with
  | EmptyString => false
  | String _ hay' => includes hay' needle
  end.

(** White space and line terminators, as [trim] and the class [\s]
    see them (tab, LF, VT, FF, CR, space, no-break space). *)
Definition is_space (c : ascii) : bool :=
  let n := code c in
  (((9 <=? n) && (n <=? 13)) || (n =? 32) || (n =? 160))%nat.

Fixpoint trimStart (s : string) : string :=
  match s with
  | String c s' => if is_space c then trimStart s' else s
  | EmptyString => EmptyString
  end.

Fixpoint trimEnd (s : string) : string :=
  match s with
  | EmptyString => EmptyString
  | String c s' =>
      match trimEnd s' with
      | EmptyString => if is_space c then EmptyString else String c EmptyString
      | t => String c t
      end
  end.

Definition trim (s : string) : string := trimEnd (trimStart s).


(** The truthiness of a string: every string but the empty one. *)
Definition truthy (s : string) : bool :=
  match s with EmptyString => false | _ => true end.

End JsString.

(** ** Completions: a call returns a value or throws *)

Inductive JsError :=
| SyntaxError            (* JSON.parse on malformed text *)
| RangeError             (* toISOString on an invalid date *)
| TypeError              (* a property read on undefined *)
| DOMException (name : string). (* what the storage raises, e.g. QuotaExceededError *)

Inductive completion (A : Type) :=
| Returned (a : A)
| Thrown (e : JsError).
Arguments Returned {A} a.
Arguments Thrown {A} e.

(** State with exceptions; the state reached when an exception is thrown
    is kept, as a mutated object stays mutated. *)
Definition M (S A : Type) : Type := S -> completion A * S.

Definition ret {S A} (a : A) : M S A := fun s => (Returned a, s).
Definition throw {S A} (e : JsError) : M S A := fun s => (Thrown e, s).
Definition bind {S A B} (m : M S A) (k : A -> M S B) : M S B :=
  fun s => match m s with
           | (Returned a, s') => k a s'
           | (Thrown e, s') => (Thrown e, s')
           end.
Definition modify {S} (f : S -> S) : M S unit := fun s => (Returned tt, f s).

(** [try { m } catch (error) { h error }] *)
Definition try_catch {S A} (m : M S A) (h : JsError -> M S A) : M S A :=
  fun s => match m s with
           | (Returned a, s') => (Returned a, s')
           | (Thrown e, s') => h e s'
           end.

(** Running a computation of a component on its part of a larger state. *)
Definition zoom {S T A} (proj : S -> T) (upd : T -> S -> S) (m : M T A) : M S A :=
  fun s => let '(r, t') := m (proj s) in (r, upd t' s).

Declare Scope js_scope.
Delimit Scope js_scope with js.
Notation "x <- m ;; k" := (bind m (fun x => k))
  (at level 100, m at next level, right associativity) : js_scope.
Notation "m ;;; k" := (bind m (fun _ => k))
  (at level 100, right associativity) : js_scope.

(** ** Dates *)

(** A date is its time value, milliseconds since the epoch; [None] is the
    NaN time value of an invalid date. *)
Definition Date : Type := option Z.

(** [a >= b] on dates: false as soon as one side is NaN. *)
Definition Date_ge (a b : Date) : bool :=
  match a, b with
  | Some x, Some y => (y <=? x)%Z
  | _, _ => false
  end.

(** ** The entities (interfaces Document and TodoItem of types/index.ts) *)

Record Document := mkDocument {
  doc_id : string;
  doc_title : string;
  doc_content : string;
  doc_createdAt : Date;
  doc_updatedAt : Date;
  doc_tags : list string
}.

Inductive TodoStatus := pending | in_progress | completed.
Inductive TodoPriority := high | medium | low.

Record TodoItem := mkTodoItem {
  todo_id : string;
  todo_content : string;
  todo_status : TodoStatus;
  todo_priority : TodoPriority;
  todo_createdAt : Date;
  todo_updatedAt : Date
}.

(** ** The notepad context: state, actions and [notepadReducer] *)

Module Notepad.

Record NotepadState := mkState {
  documents : list Document;
  activeDocumentId : option string;
  isPreviewMode : bool;
  searchQuery : string
}.

Inductive NotepadAction :=
| SET_DOCUMENTS (payload : list Document)
| ADD_DOCUMENT (payload : Document)
| UPDATE_DOCUMENT (id content title : string)
| DELETE_DOCUMENT (payload : string)
| SET_ACTIVE_DOCUMENT (payload : option string)
| TOGGLE_PREVIEW_MODE
| SET_SEARCH_QUERY (payload : string).

Definition initialState : NotepadState :=
  {| documents := []; activeDocumentId := None;
     isPreviewMode := false; searchQuery := "" |}.

(** [state.activeDocumentId === action.payload], a [string | null]
    against a string. *)
Definition active_is (a : option string) (id : string) : bool :=
  match a with
  | Some x => String.eqb x id
  | None => false
  end.

(** The reducer; [now] is the time value [new Date()] reads. *)
Definition notepadReducer (now : Z) (state : NotepadState)
    (action : NotepadAction) : NotepadState :=
  match action with
  | SET_DOCUMENTS payload =>
      {| documents := payload;
         activeDocumentId := activeDocumentId state;
         isPreviewMode := isPreviewMode state;
         searchQuery := searchQuery state |}
  | ADD_DOCUMENT payload =>
      {| documents := documents state ++ [payload];
         activeDocumentId := activeDocumentId state;
         isPreviewMode := isPreviewMode state;
         searchQuery := searchQuery state |}
  | UPDATE_DOCUMENT id content title =>
      {| documents :=
           map (fun doc =>
                  if String.eqb (doc_id doc) id
                  then {| doc_id := doc_id doc;
                          doc_title := title;
                          doc_content := content;
                          doc_createdAt := doc_createdAt doc;
                          doc_updatedAt := Some now;
                          doc_tags := doc_tags doc |}
                  else doc)
               (documents state);
         activeDocumentId := activeDocumentId state;
         isPreviewMode := isPreviewMode state;
         searchQuery := searchQuery state |}
  | DELETE_DOCUMENT payload =>
      {| documents :=
           List.filter (fun doc => negb (String.eqb (doc_id doc) payload))
                       (documents state);
         activeDocumentId :=
           if active_is (activeDocumentId state) payload then None
           else activeDocumentId state;
         isPreviewMode := isPreviewMode state;
         searchQuery := searchQuery state |}
  | SET_ACTIVE_DOCUMENT payload =>
      {| documents := documents state;
         activeDocumentId := payload;
         isPreviewMode := isPreviewMode state;
         searchQuery := searchQuery state |}
  | TOGGLE_PREVIEW_MODE =>
      {| documents := documents state;
         activeDocumentId := activeDocumentId state;
         isPreviewMode := negb (isPreviewMode state);
         searchQuery := searchQuery state |}
  | SET_SEARCH_QUERY payload =>
      {| documents := documents state;
         activeDocumentId := activeDocumentId state;
         isPreviewMode := isPreviewMode state;
         searchQuery := payload |}
  end.

End Notepad.

(** ** Arrays *)

Module JsArray.

Fixpoint find_index {A} (p : A -> bool) (l : list A) : option nat :=
  match l with
  | [] => None
  | x :: l' => if p x then Some 0%nat else S <$> find_index p l'
  end.

(** [l.findIndex(p)]: the first index at which [p] holds, or -1. *)
Definition findIndex {A} (p : A -> bool) (l : list A) : Z :=
  match find_index p l with
  | Some i => Z.of_nat i
  | None => (-1)%Z
  end.

(** [l[i] = x] for an index the caller has tested to be non-negative. *)
Definition set_at {A} (i : Z) (x : A) (l : list A) : list A :=
  <[Z.to_nat i := x]> l.

(** [l.push(x)] *)
Definition push {A} (x : A) (l : list A) : list A := l ++ [x].

End JsArray.

(** ** The persistence adapter: class [ExcelStorage] *)

Module ExcelStorage.

(** The plain records of the blob: dates are ISO-8601 strings. *)
Record DocRow := mkDocRow {
  row_id : string;
  row_title : string;
  row_content : string;
  row_tags : list string;
  row_createdAt : string;
  row_updatedAt : string
}.

Record TodoRow := mkTodoRow {
  trow_id : string;
  trow_content : string;
  trow_status : TodoStatus;
  trow_priority : TodoPriority;
  trow_createdAt : string;
  trow_updatedAt : string
}.

Record StoreData := mkData {
  documents : list DocRow;
  todos : list TodoRow
}.

(** What the adapter takes from the browser: the JSON codec at the type
    of the adapter's record set ([JSON_parse] gives [None] where
    [JSON.parse] throws), the two date conversions, and the write of the
    Web Storage, which may throw. *)
Class Platform := {
  JSON_parse : string -> option StoreData;
  JSON_stringify : StoreData -> string;
  toISOString : Z -> string;
  Date_parse : string -> Date;
  setItem : string -> string -> gmap string string ->
            completion (gmap string string)
}.

(** The adapter object with the storage it talks to: [this_data] is the
    field [this.data], [localStorage] the browser's store. *)
Record Env := mkEnv {
  this_data : StoreData;
  localStorage : gmap string string
}.

Definition STORAGE_KEY : string := "notepad_excel_data".

Definition empty_data : StoreData := {| documents := []; todos := [] |}.

(** The adapter as constructed, over a given storage. *)
Definition fresh (ls : gmap string string) : Env :=
  {| this_data := empty_data; localStorage := ls |}.

Definition set_documents (ds : list DocRow) (e : Env) : Env :=
  {| this_data := {| documents := ds; todos := todos (this_data e) |};
     localStorage := localStorage e |}.

Definition set_todos (ts : list TodoRow) (e : Env) : Env :=
  {| this_data := {| documents := documents (this_data e); todos := ts |};
     localStorage := localStorage e |}.

Section Adapter.
Context `{Platform}.
Local Open Scope js_scope.

(** [date.toISOString()] throws a RangeError on an invalid date. *)
Definition Date_toISOString {S} (d : Date) : M S string :=
  match d with
  | Some t => ret (toISOString t)
  | None => throw RangeError
  end.

Definition loadData : M Env StoreData := fun e =>
  match localStorage e !! STORAGE_KEY with
  | Some stored =>
      if JsString.truthy stored then
        match JSON_parse stored with
        | Some d => (Returned d, {| this_data := d; localStorage := localStorage e |})
        | None => (Thrown SyntaxError, e)
        end
      else (Returned (this_data e), e)
  | None => (Returned (this_data e), e)
  end.

Definition saveData : M Env unit := fun e =>
  match setItem STORAGE_KEY (JSON_stringify (this_data e)) (localStorage e) with
  | Returned ls => (Returned tt, {| this_data := this_data e; localStorage := ls |})
  | Thrown err => (Thrown err, e)
  end.

Definition init : M Env unit := loadData ;;; ret tt.

(** The local [data] is the object [this.data] itself, so the writes to
    [data.documents] are writes to the adapter's field. *)
Definition saveDocument (document : Document) : M Env unit :=
  data <- loadData ;;
  let existingIndex :=
    JsArray.findIndex (fun doc => String.eqb (row_id doc) (doc_id document))
                      (documents data) in
  createdAt <- Date_toISOString (doc_createdAt document) ;;
  updatedAt <- Date_toISOString (doc_updatedAt document) ;;
  let docData :=
    {| row_id := doc_id document;
       row_title := doc_title document;
       row_content := doc_content document;
       row_tags := doc_tags document;
       row_createdAt := createdAt;
       row_updatedAt := updatedAt |} in
  (if (0 <=? existingIndex)%Z
   then modify (fun e => set_documents
                  (JsArray.set_at existingIndex docData (documents (this_data e))) e)
   else modify (fun e => set_documents
                  (JsArray.push docData (documents (this_data e))) e)) ;;;
  saveData.

Definition document_of_row (doc : DocRow) : Document :=
  {| doc_id := row_id doc;
     doc_title := row_title doc;
     doc_content := row_content doc;
     doc_tags := row_tags doc;
     doc_createdAt := Date_parse (row_createdAt doc);
     doc_updatedAt := Date_parse (row_updatedAt doc) |}.

Definition getDocument (id : string) : M Env (option Document) :=
  data <- loadData ;;
  match List.find (fun doc => String.eqb (row_id doc) id) (documents data) with
  | None => ret None
  | Some doc => ret (Some (document_of_row doc))
  end.

Definition getAllDocuments : M Env (list Document) :=
  data <- loadData ;;
  ret (map document_of_row (documents data)).

Definition deleteDocument (id : string) : M Env unit :=
  data <- loadData ;;
  modify (set_documents
            (List.filter (fun doc => negb (String.eqb (row_id doc) id))
                         (documents data))) ;;;
  saveData.

Definition searchDocuments (query : string) : M Env (list Document) :=
  allDocs <- getAllDocuments ;;
  let lowerQuery := JsString.toLowerCase query in
  ret (List.filter
         (fun doc =>
            JsString.includes (JsString.toLowerCase (doc_title doc)) lowerQuery
            || JsString.includes (JsString.toLowerCase (doc_content doc)) lowerQuery
            || existsb (fun tag => JsString.includes (JsString.toLowerCase tag) lowerQuery)
                       (doc_tags doc))
         allDocs).

Definition saveTodo (todo : TodoItem) : M Env unit :=
  data <- loadData ;;
  let existingIndex :=
    JsArray.findIndex (fun t => String.eqb (trow_id t) (todo_id todo))
                      (todos data) in
  createdAt <- Date_toISOString (todo_createdAt todo) ;;
  updatedAt <- Date_toISOString (todo_updatedAt todo) ;;
  let todoData :=
    {| trow_id := todo_id todo;
       trow_content := todo_content todo;
       trow_status := todo_status todo;
       trow_priority := todo_priority todo;
       trow_createdAt := createdAt;
       trow_updatedAt := updatedAt |} in
  (if (0 <=? existingIndex)%Z
   then modify (fun e => set_todos
                  (JsArray.set_at existingIndex todoData (todos (this_data e))) e)
   else modify (fun e => set_todos
                  (JsArray.push todoData (todos (this_data e))) e)) ;;;
  saveData.

Definition todo_of_row (todo : TodoRow) : TodoItem :=
  {| todo_id := trow_id todo;
     todo_content := trow_content todo;
     todo_status := trow_status todo;
     todo_priority := trow_priority todo;
     todo_createdAt := Date_parse (trow_createdAt todo);
     todo_updatedAt := Date_parse (trow_updatedAt todo) |}.

Definition getAllTodos : M Env (list TodoItem) :=
  data <- loadData ;;
  ret (map todo_of_row (todos data)).

Definition deleteTodo (id : string) : M Env unit :=
  data <- loadData ;;
  modify (set_todos
            (List.filter (fun todo => negb (String.eqb (trow_id todo) id))
                         (todos data))) ;;;
  saveData.

Definition updateTodo (todo : TodoItem) : M Env unit :=
  saveTodo todo.

(** *** What the properties ask of the platform *)

(** The record set as the adapter reads it: the stored blob when there
    is one, else the field [this.data]; nothing when the blob cannot be
    parsed. *)
Definition persisted (e : Env) : option StoreData :=
  match fst (loadData e) with
  | Returned d => Some d
  | Thrown _ => None
  end.

(** The record set held in the serialized blob: what [JSON.parse] reads
    from the text stored under the key; none when no text is stored
    there, or when the text is empty or cannot be parsed. The field
    [this.data] plays no part in it. *)
Definition blob (e : Env) : option StoreData :=
  match localStorage e !! STORAGE_KEY with
  | Some stored => if JsString.truthy stored then JSON_parse stored else None
  | None => None
  end.

(** [JSON.stringify] writes [d] as a text, not empty, that [JSON.parse]
    reads back as [d]. *)
Definition json_faithful (d : StoreData) : Prop :=
  JsString.truthy (JSON_stringify d) = true
  /\ JSON_parse (JSON_stringify d) = Some d.

(** The date is valid and [new Date] reads its ISO string back as the
    same instant. *)
Definition iso_faithful (d : Date) : Prop :=
  exists t, d = Some t /\ Date_parse (toISOString t) = Some t.

(** A write that returns has stored the value under the key. *)
Definition lawful_storage : Prop :=
  forall k v ls ls', setItem k v ls = Returned ls' -> ls' = <[k:=v]> ls.

(** The storage takes the blob of the record set [d]. *)
Definition accepts (d : StoreData) (ls : gmap string string) : Prop :=
  setItem STORAGE_KEY (JSON_stringify d) ls
  = Returned (<[STORAGE_KEY := JSON_stringify d]> ls).

(** Following the spec, save-with-overwrite: replace the record with the
    matching id if present, else append. *)
Fixpoint save_with_overwrite (r : TodoRow) (l : list TodoRow) : list TodoRow :=
  match l with
  | [] => [r]
  | x :: l' =>
      if String.eqb (trow_id x) (trow_id r) then r :: l'
      else x :: save_with_overwrite r l'
  end.

(** The row [saveTodo] writes for a todo whose dates are valid. *)
Definition row_of_todo (todo : TodoItem) (createdAt updatedAt : Z) : TodoRow :=
  {| trow_id := todo_id todo;
     trow_content := todo_content todo;
     trow_status := todo_status todo;
     trow_priority := todo_priority todo;
     trow_createdAt := toISOString createdAt;
     trow_updatedAt := toISOString updatedAt |}.

(** The record set [saveDocument] builds from the one it loaded, for a
    document whose dates are valid; [with_todo] likewise. *)
Definition with_document (doc : Document) (c u : Z) (d : StoreData) : StoreData :=
  let p := fun r => String.eqb (row_id r) (doc_id doc) in
  let docData :=
    {| row_id := doc_id doc; row_title := doc_title doc;
       row_content := doc_content doc; row_tags := doc_tags doc;
       row_createdAt := toISOString c; row_updatedAt := toISOString u |} in
  {| documents :=
       if (0 <=? JsArray.findIndex p (documents d))%Z
       then JsArray.set_at (JsArray.findIndex p (documents d)) docData (documents d)
       else JsArray.push docData (documents d);
     todos := todos d |}.

Definition with_todo (todo : TodoItem) (c u : Z) (d : StoreData) : StoreData :=
  let p := fun r => String.eqb (trow_id r) (todo_id todo) in
  {| documents := documents d;
     todos :=
       if (0 <=? JsArray.findIndex p (todos d))%Z
       then JsArray.set_at (JsArray.findIndex p (todos d)) (row_of_todo todo c u) (todos d)
       else JsArray.push (row_of_todo todo c u) (todos d) |}.

(** The end of every write: [this.data] holds [d], the storage decides. *)
Definition written (d : StoreData) (ls : gmap string string) : completion unit * Env :=
  match setItem STORAGE_KEY (JSON_stringify d) ls with
  | Returned ls' => (Returned tt, {| this_data := d; localStorage := ls' |})
  | Thrown err => (Thrown err, {| this_data := d; localStorage := ls |})
  end.

End Adapter.

End ExcelStorage.

(** ** Regular expressions, as the chat uses them

    A backtracking matcher for the fragment the two patterns are written
    in: literals under the flag [i], character classes, ordered
    alternatives, greedy [?], greedy [*] and [+] over a class, and one
    capture group. *)

Module RegExp.

Inductive re :=
| Lit (s : string)
| Class (p : ascii -> bool)
| Alt (r1 r2 : re)
| Seq (r1 r2 : re)
| Opt (r : re)
| Star (p : ascii -> bool)
| Plus (p : ascii -> bool)
| Group (r : re).

(** The text [s] read up to its suffix [rest]. *)
Definition consumed (s rest : string) : string :=
  String.substring 0 (String.length s - String.length rest) s.

Section Exec.
Context {R : Type}.

(** A literal at the head of the input, ignoring case. *)
Fixpoint lit (l s : string) (k : string -> option R) : option R :=
  match l with
  | EmptyString => k s
  | String a l' =>
      match s with
      | String c s' =>
          if Ascii.eqb (JsString.lower_char a) (JsString.lower_char c)
          then lit l' s' k else None
      | EmptyString => None
      end
  end.

(** Greedy repetition of a class: the longest run first, then shorter. *)
Fixpoint star (p : ascii -> bool) (s : string) (k : string -> option R)
    : option R :=
  match s with
  | String c s' =>
      if p c then
        match star p s' k with
        | Some x => Some x
        | None => k s
        end
      else k s
  | EmptyString => k s
  end.

Definition plus (p : ascii -> bool) (s : string) (k : string -> option R)
    : option R :=
  match s with
  | String c s' => if p c then star p s' k else None
  | EmptyString => None
  end.

(** [exec r s cap k]: match [r] at the head of [s] with group 1 holding
    [cap], and continue with [k] on what is left; the first success in
    backtracking order. *)
Fixpoint exec (r : re) (s : string) (cap : option string)
    (k : string -> option string -> option R) : option R :=
  match r with
  | Lit l => lit l s (fun s' => k s' cap)
  | Class p =>
      match s with
      | String c s' => if p c then k s' cap else None
      | EmptyString => None
      end
  | Alt r1 r2 =>
      match exec r1 s cap k with
      | Some x => Some x
      | None => exec r2 s cap k
      end
  | Seq r1 r2 => exec r1 s cap (fun s' cap' => exec r2 s' cap' k)
  | Opt r1 =>
      match exec r1 s cap k with
      | Some x => Some x
      | None => k s cap
      end
  | Star p => star p s (fun s' => k s' cap)
  | Plus p => plus p s (fun s' => k s' cap)
  | Group r1 => exec r1 s cap (fun s' _ => k s' (Some (consumed s s')))
  end.

End Exec.

(** [s.match(r)] for a pattern without the flag [g]: the leftmost
    position at which the pattern matches; the result is entry 1 of the
    match array, group 1 ([None] inside: the group took no part). *)
Fixpoint match_ (r : re) (s : string) : option (option string) :=
  match exec r s None (fun _ cap => Some cap) with
  | Some cap => Some cap
  | None =>
      match s with
      | String _ s' => match_ r s'
      | EmptyString => None
      end
  end.

(** *** What a match is

    [Matches r m cap cap']: the pattern [r] can read exactly the text
    [m], taking group 1 from [cap] to [cap']. *)

Fixpoint all_chars (p : ascii -> bool) (s : string) : bool :=
  match s with
  | EmptyString => true
  | String c s' => p c && all_chars p s'
  end.

Inductive Matches : re -> string -> option string -> option string -> Prop :=
| M_Lit l m cap :
    JsString.toLowerCase m = JsString.toLowerCase l ->
    Matches (Lit l) m cap cap
| M_Class p c cap :
    p c = true -> Matches (Class p) (String c EmptyString) cap cap
| M_Alt_l r1 r2 m cap cap' :
    Matches r1 m cap cap' -> Matches (Alt r1 r2) m cap cap'
| M_Alt_r r1 r2 m cap cap' :
    Matches r2 m cap cap' -> Matches (Alt r1 r2) m cap cap'
| M_Seq r1 r2 m1 m2 cap cap1 cap2 :
    Matches r1 m1 cap cap1 -> Matches r2 m2 cap1 cap2 ->
    Matches (Seq r1 r2) (m1 ++ m2) cap cap2
| M_Opt_none r cap : Matches (Opt r) EmptyString cap cap
| M_Opt_some r m cap cap' :
    Matches r m cap cap' -> Matches (Opt r) m cap cap'
| M_Star p m cap :
    all_chars p m = true -> Matches (Star p) m cap cap
| M_Plus p m cap :
    m <> EmptyString -> all_chars p m = true -> Matches (Plus p) m cap cap
| M_Group r m cap cap' :
    Matches r m cap cap' -> Matches (Group r) m cap (Some m).

Notation "a >> b" := (Seq a b) (at level 60, right associativity).

Definition is_quote (c : ascii) : bool :=
  Ascii.eqb c "034"%char || Ascii.eqb c "'"%char.

(** The class that excludes both quote characters and the line feed *)
Definition not_quote_nl (c : ascii) : bool :=
  negb (is_quote c || Ascii.eqb c "010"%char).

(** The class that excludes the line feed *)
Definition not_nl (c : ascii) : bool := negb (Ascii.eqb c "010"%char).

Definition ws : ascii -> bool := JsString.is_space.

(** *** Where the first match stands *)





End RegExp.

(** ** The application: what the components share *)

Module App.

Import RegExp.

Record World := mkWorld {
  notepad : Notepad.NotepadState;        (* the reducer's state *)
  storageService : ExcelStorage.Env;      (* the adapter and localStorage *)
  clock : Z;                              (* what Date.now() reads *)
  console : list (string * JsError)       (* console.error *)
}.

Definition set_notepad (n : Notepad.NotepadState) (w : World) : World :=
  {| notepad := n; storageService := storageService w;
     clock := clock w; console := console w |}.

Definition set_storage (e : ExcelStorage.Env) (w : World) : World :=
  {| notepad := notepad w; storageService := e;
     clock := clock w; console := console w |}.

Definition Date_now : M World Z := fun w => (Returned (clock w), w).

Definition dispatch (action : Notepad.NotepadAction) : M World unit :=
  fun w => (Returned tt,
            set_notepad (Notepad.notepadReducer (clock w) (notepad w) action) w).

Definition console_error (msg : string) (error : JsError) : M World unit :=
  modify (fun w => {| notepad := notepad w; storageService := storageService w;
                      clock := clock w; console := console w ++ [(msg, error)] |}).

(** A call of the adapter from a component. *)
Definition storage {A} (m : M ExcelStorage.Env A) : M World A :=
  zoom storageService set_storage m.

(** [n.toString()] of an integer *)
Definition toString (n : Z) : string := pretty n.

Definition dquote : string := String "034"%char EmptyString.

(** The check mark U+2705 that opens the confirmations, in UTF-8. *)
Definition check_mark : string :=
  String "226"%char (String "156"%char (String "133"%char EmptyString)).

Section Components.
Context `{ExcelStorage.Platform}.
Local Open Scope js_scope.

(** *** The chat component (AIChat) *)

Definition createDocument (title content : string) : M World Document :=
  now <- Date_now ;;
  let newDocument :=
    {| doc_id := toString now;
       doc_title := title;
       doc_content := content;
       doc_createdAt := Some now;
       doc_updatedAt := Some now;
       doc_tags := [] |} in
  dispatch (Notepad.ADD_DOCUMENT newDocument) ;;;
  storage (ExcelStorage.saveDocument newDocument) ;;;
  ret newDocument.

Definition createTodo (text : string) (priority : TodoPriority) : M World TodoItem :=
  now <- Date_now ;;
  let newTodo :=
    {| todo_id := toString now;
       todo_content := text;
       todo_status := pending;
       todo_priority := priority;
       todo_createdAt := Some now;
       todo_updatedAt := Some now |} in
  storage (ExcelStorage.saveTodo newTodo) ;;;
  ret newTodo.

(** [/(?:create|new|add)\s+document\s+(?:titled|called|named)?\s*Q?([^Q\n]+)Q?/i],
    writing Q for the class of the two quote characters *)
Definition document_pattern : re :=
  Alt (Lit "create") (Alt (Lit "new") (Lit "add")) >> Plus ws >>
  Lit "document" >> Plus ws >>
  Opt (Alt (Lit "titled") (Alt (Lit "called") (Lit "named"))) >> Star ws >>
  Opt (Class is_quote) >> Group (Plus not_quote_nl) >> Opt (Class is_quote).

(** [/(?:create|add|new)\s+todo\s+Q?([^Q\n]+)Q?/i] *)
Definition todo_pattern : re :=
  Alt (Lit "create") (Alt (Lit "add") (Lit "new")) >> Plus ws >>
  Lit "todo" >> Plus ws >>
  Opt (Class is_quote) >> Group (Plus not_quote_nl) >> Opt (Class is_quote).

(** [/remind me to\s+([^\n]+)/i] *)
Definition remind_pattern : re :=
  Lit "remind me to" >> Plus ws >> Group (Plus not_nl).






(** [a || b] on two match results *)
Definition or_else {A} (a b : option A) : option A :=
  match a with Some x => Some x | None => b end.

Definition priority_name (p : TodoPriority) : string :=
  match p with high => "high" | medium => "medium" | low => "low" end.

Definition document_reply (title : string) : string :=
  check_mark ++ " I've created a new document titled " ++ dquote ++ title
  ++ dquote ++ " for you! You can find it in your documents list.".

Definition todo_reply (todoText : string) (priority : TodoPriority) : string :=
  check_mark ++ " I've added " ++ dquote ++ todoText ++ dquote
  ++ " to your todo list with " ++ priority_name priority
  ++ " priority! You can view it in the Todo section.".

(** [m[1].trim()]; reading a group that took no part is a TypeError. *)
Definition group1_trim {S} (m : option string) : M S string :=
  match m with
  | Some t => ret (JsString.trim t)
  | None => throw TypeError
  end.

(** The condition that opens the document intent. *)
Definition document_trigger (lowerInput : string) : bool :=
  JsString.includes lowerInput "create document"
  || JsString.includes lowerInput "new document"
  || JsString.includes lowerInput "add document".

(** The condition that opens the todo intent. *)
Definition todo_trigger (lowerInput : string) : bool :=
  JsString.includes lowerInput "create todo"
  || JsString.includes lowerInput "add todo"
  || JsString.includes lowerInput "new todo"
  || JsString.includes lowerInput "remind me".

(** The document intent; [Some reply] is the early return. *)
Definition document_intent (userInput lowerInput : string)
    : M World (option string) :=
  if document_trigger lowerInput
  then
    match match_ document_pattern userInput with
    | Some titleMatch =>
        title <- group1_trim titleMatch ;;
        createDocument title "" ;;;
        ret (Some (document_reply title))
    | None => ret None
    end
  else ret None.

Definition infer_priority (lowerInput : string) : TodoPriority :=
  if JsString.includes lowerInput "urgent"
     || JsString.includes lowerInput "important" then high
  else if JsString.includes lowerInput "low priority" then low
  else medium.

(** The todo intent; [Some reply] is the early return. *)
Definition todo_intent (userInput lowerInput : string)
    : M World (option string) :=
  if todo_trigger lowerInput
  then
    match or_else (match_ todo_pattern userInput)
                  (match_ remind_pattern userInput) with
    | Some todoMatch =>
        todoText <- group1_trim todoMatch ;;
        let priority := infer_priority lowerInput in
        createTodo todoText priority ;;;
        ret (Some (todo_reply todoText priority))
    | None => ret None
    end
  else ret None.

Definition processAICommands (userInput aiResponse : string) : M World string :=
  let lowerInput := JsString.toLowerCase userInput in
  r <- document_intent userInput lowerInput ;;
  match r with
  | Some reply => ret reply
  | None =>
      r <- todo_intent userInput lowerInput ;;
      match r with
      | Some reply => ret reply
      | None => ret aiResponse
      end
  end.

(** *** The layout component: the initial load *)

(** [!state.activeDocumentId] on a [string | null] *)
Definition falsy_id (a : option string) : bool :=
  match a with
  | Some x => negb (JsString.truthy x)
  | None => true
  end.

Definition loadDocuments : M World unit :=
  state <- (fun w => (Returned (notepad w), w)) ;;
  try_catch
    (documents <- storage ExcelStorage.getAllDocuments ;;
     dispatch (Notepad.SET_DOCUMENTS documents) ;;;
     match documents with
     | first :: _ =>
         if falsy_id (Notepad.activeDocumentId state)
         then dispatch (Notepad.SET_ACTIVE_DOCUMENT (Some (doc_id first)))
         else ret tt
     | [] => ret tt
     end)
    (fun error => console_error "Failed to load documents:" error).

(** *** The sidebar (components/Sidebar.tsx) *)

Definition handleCreateDocument : M World unit :=
  now <- Date_now ;;
  let newDoc :=
    {| doc_id := toString now;
       doc_title := "Untitled Document";
       doc_content := "";
       doc_createdAt := Some now;
       doc_updatedAt := Some now;
       doc_tags := [] |} in
  try_catch
    (storage (ExcelStorage.saveDocument newDoc) ;;;
     dispatch (Notepad.ADD_DOCUMENT newDoc) ;;;
     dispatch (Notepad.SET_ACTIVE_DOCUMENT (Some (doc_id newDoc))))
    (fun error => console_error "Failed to create document:" error).

Definition handleDeleteDocument (id : string) : M World unit :=
  try_catch
    (storage (ExcelStorage.deleteDocument id) ;;;
     dispatch (Notepad.DELETE_DOCUMENT id))
    (fun error => console_error "Failed to delete document:" error).

(** *** The editor (components/Editor.tsx): the debounced save of the
    active document *)

Definition handleSave (activeDocument : option Document) (title content : string)
    : M World unit :=
  match activeDocument with
  | None => ret tt
  | Some activeDocument =>
      try_catch
        (now <- Date_now ;;
         let updatedDoc :=
           {| doc_id := doc_id activeDocument;
              doc_title := title;
              doc_content := content;
              doc_createdAt := doc_createdAt activeDocument;
              doc_updatedAt := Some now;
              doc_tags := doc_tags activeDocument |} in
         storage (ExcelStorage.saveDocument updatedDoc) ;;;
         dispatch (Notepad.UPDATE_DOCUMENT (doc_id activeDocument) content title))
        (fun error => console_error "Failed to save document:" error)
  end.

End Components.

End App.

(** ** A browser to run the adapter in

    A concrete [Platform]: a JSON printer and parser for the values the
    blob is made of (objects, arrays and strings; text holding numbers,
    booleans or null cannot be read at the adapter's type and is refused
    like malformed text), [toISOString] with the parser of the format it
    writes, and a storage that accepts every write. *)

Module Browser.

Import ExcelStorage.

#[local] Unset Elimination Schemes.
Inductive json :=
| JString (s : string)
| JArray (l : list json)
| JObject (l : list (string * json)).
#[local] Set Elimination Schemes.

Definition dq : ascii := "034"%char.
Definition backslash : ascii := "\"%char.

Definition hex_digit (n : nat) : ascii :=
  if (n <? 10)%nat then ascii_of_nat (48 + n) else ascii_of_nat (87 + n).

Definition str1 (c : ascii) : string := String c EmptyString.

(** One character inside a JSON string literal. *)
Definition escape (c : ascii) : string :=
  let n := nat_of_ascii c in
  if Ascii.eqb c dq then String backslash (str1 dq)
  else if Ascii.eqb c backslash then String backslash (str1 backslash)
  else if (n =? 8)%nat then "\b"
  else if (n =? 9)%nat then "\t"
  else if (n =? 10)%nat then "\n"
  else if (n =? 12)%nat then "\f"
  else if (n =? 13)%nat then "\r"
  else if (n <? 32)%nat
       then "\u00" ++ String (hex_digit (n / 16)) (str1 (hex_digit (n mod 16)))
  else str1 c.

Fixpoint escape_all (s : string) : string :=
  match s with
  | EmptyString => EmptyString
  | String c s' => escape c ++ escape_all s'
  end.

Definition quote (s : string) : string :=
  String dq (escape_all s ++ str1 dq).

Fixpoint print (j : json) : string :=
  match j with
  | JString s => quote s
  | JArray l =>
      "[" ++ (fix items (first : bool) (l : list json) : string :=
                match l with
                | [] => ""
                | x :: l' =>
                    (if first then "" else ",") ++ print x ++ items false l'
                end) true l ++ "]"
  | JObject l =>
      "{" ++ (fix members (first : bool) (l : list (string * json)) : string :=
                match l with
                | [] => ""
                | (k, x) :: l' =>
                    (if first then "" else ",") ++ quote k ++ ":" ++ print x
                    ++ members false l'
                end) true l ++ "}"
  end.

Definition json_space (c : ascii) : bool :=
  let n := nat_of_ascii c in
  ((n =? 32) || (n =? 9) || (n =? 10) || (n =? 13))%nat.

Fixpoint skip_ws (s : string) : string :=
  match s with
  | String c s' => if json_space c then skip_ws s' else s
  | EmptyString => EmptyString
  end.

Definition hex_value (c : ascii) : option nat :=
  let n := nat_of_ascii c in
  if ((48 <=? n) && (n <=? 57))%nat then Some (n - 48)%nat
  else if ((97 <=? n) && (n <=? 102))%nat then Some (n - 87)%nat
  else if ((65 <=? n) && (n <=? 70))%nat then Some (n - 55)%nat
  else None.

(** The code unit a [\uXXXX] escape stands for, when it is below 256. *)
Definition unicode_escape (a b c d : ascii) : option ascii :=
  match hex_value a, hex_value b, hex_value c, hex_value d with
  | Some 0%nat, Some 0%nat, Some x, Some y => Some (ascii_of_nat (16 * x + y))
  | _, _, _, _ => None
  end.

Definition simple_escape (c : ascii) : option ascii :=
  if Ascii.eqb c dq then Some dq
  else if Ascii.eqb c backslash then Some backslash
  else if Ascii.eqb c "/"%char then Some "/"%char
  else if Ascii.eqb c "b"%char then Some "008"%char
  else if Ascii.eqb c "t"%char then Some "009"%char
  else if Ascii.eqb c "n"%char then Some "010"%char
  else if Ascii.eqb c "f"%char then Some "012"%char
  else if Ascii.eqb c "r"%char then Some "013"%char
  else None.

(** The body of a string literal, after its opening quote: the text and
    what follows the closing quote. *)
Fixpoint string_body (s : string) : option (string * string) :=
  match s with
  | EmptyString => None
  | String c s1 =>
      if Ascii.eqb c dq then Some (EmptyString, s1)
      else if Ascii.eqb c backslash then
        match s1 with
        | String e s2 =>
            if Ascii.eqb e "u"%char then
              match s2 with
              | String h1 (String h2 (String h3 (String h4 s3))) =>
                  match unicode_escape h1 h2 h3 h4, string_body s3 with
                  | Some x, Some (t, r) => Some (String x t, r)
                  | _, _ => None
                  end
              | _ => None
              end
            else
              match simple_escape e, string_body s2 with
              | Some x, Some (t, r) => Some (String x t, r)
              | _, _ => None
              end
        | EmptyString => None
        end
      else if (nat_of_ascii c <? 32)%nat then None
      else
        match string_body s1 with
        | Some (t, r) => Some (String c t, r)
        | None => None
        end
  end.

(** Recursive descent on fuel: a value; the elements of an array after
    its bracket or a comma; the members of an object likewise. *)
Fixpoint value (n : nat) (s : string) : option (json * string) :=
  match n with
  | O => None
  | S n =>
      match skip_ws s with
      | String c s1 =>
          if Ascii.eqb c dq then
            match string_body s1 with
            | Some (t, r) => Some (JString t, r)
            | None => None
            end
          else if Ascii.eqb c "["%char then
            match skip_ws s1 with
            | String c' r =>
                if Ascii.eqb c' "]"%char then Some (JArray [], r)
                else match elements n s1 with
                     | Some (l, r') => Some (JArray l, r')
                     | None => None
                     end
            | EmptyString => None
            end
          else if Ascii.eqb c "{"%char then
            match skip_ws s1 with
            | String c' r =>
                if Ascii.eqb c' "}"%char then Some (JObject [], r)
                else match members n s1 with
                     | Some (l, r') => Some (JObject l, r')
                     | None => None
                     end
            | EmptyString => None
            end
          else None
      | EmptyString => None
      end
  end
with elements (n : nat) (s : string) : option (list json * string) :=
  match n with
  | O => None
  | S n =>
      match value n s with
      | Some (v, r) =>
          match skip_ws r with
          | String c r' =>
              if Ascii.eqb c ","%char then
                match elements n r' with
                | Some (l, r'') => Some (v :: l, r'')
                | None => None
                end
              else if Ascii.eqb c "]"%char then Some ([v], r')
              else None
          | EmptyString => None
          end
      | None => None
      end
  end
with members (n : nat) (s : string) : option (list (string * json) * string) :=
  match n with
  | O => None
  | S n =>
      match skip_ws s with
      | String c s1 =>
          if Ascii.eqb c dq then
            match string_body s1 with
            | Some (k, r) =>
                match skip_ws r with
                | String c1 r1 =>
                    if Ascii.eqb c1 ":"%char then
                      match value n r1 with
                      | Some (v, r2) =>
                          match skip_ws r2 with
                          | String c2 r3 =>
                              if Ascii.eqb c2 ","%char then
                                match members n r3 with
                                | Some (l, r4) => Some ((k, v) :: l, r4)
                                | None => None
                                end
                              else if Ascii.eqb c2 "}"%char then Some ([(k, v)], r3)
                              else None
                          | EmptyString => None
                          end
                      | None => None
                      end
                    else None
                | EmptyString => None
                end
            | None => None
            end
          else None
      | EmptyString => None
      end
  end.

Definition parse (s : string) : option json :=
  match value (2 * String.length s + 2) s with
  | Some (v, r) =>
      match skip_ws r with
      | EmptyString => Some v
      | _ => None
      end
  | None => None
  end.

(** *** The record set as JSON *)

Definition status_name (s : TodoStatus) : string :=
  match s with
  | pending => "pending"
  | in_progress => "in_progress"
  | completed => "completed"
  end.

Definition encode_doc (r : DocRow) : json :=
  JObject [("id", JString (row_id r));
           ("title", JString (row_title r));
           ("content", JString (row_content r));
           ("tags", JArray (map JString (row_tags r)));
           ("createdAt", JString (row_createdAt r));
           ("updatedAt", JString (row_updatedAt r))].

Definition encode_todo (r : TodoRow) : json :=
  JObject [("id", JString (trow_id r));
           ("content", JString (trow_content r));
           ("status", JString (status_name (trow_status r)));
           ("priority", JString (App.priority_name (trow_priority r)));
           ("createdAt", JString (trow_createdAt r));
           ("updatedAt", JString (trow_updatedAt r))].

Definition encode (d : StoreData) : json :=
  JObject [("documents", JArray (map encode_doc (documents d)));
           ("todos", JArray (map encode_todo (todos d)))].

Fixpoint field (k : string) (o : list (string * json)) : option json :=
  match o with
  | [] => None
  | (k', v) :: o' => if String.eqb k k' then Some v else field k o'
  end.

Definition as_string (j : json) : option string :=
  match j with JString s => Some s | _ => None end.

(** An object of exactly [n] members. *)
Definition as_object (n : nat) (j : json) : option (list (string * json)) :=
  match j with
  | JObject o => if (length o =? n)%nat then Some o else None
  | _ => None
  end.

(** Every element read by [f], or nothing. *)
Fixpoint traverse {A B} (f : A -> option B) (l : list A) : option (list B) :=
  match l with
  | [] => Some []
  | x :: l' =>
      match f x, traverse f l' with
      | Some y, Some ys => Some (y :: ys)
      | _, _ => None
      end
  end.

Definition string_field (k : string) (o : list (string * json)) : option string :=
  field k o ≫= as_string.

(** The array under key [k], each element read by [f]. *)
Definition array_field {A} (k : string) (f : json -> option A)
    (o : list (string * json)) : option (list A) :=
  match field k o with
  | Some (JArray l) => traverse f l
  | _ => None
  end.

Definition status_of_name (s : string) : option TodoStatus :=
  if String.eqb s "pending" then Some pending
  else if String.eqb s "in_progress" then Some in_progress
  else if String.eqb s "completed" then Some completed
  else None.

Definition priority_of_name (s : string) : option TodoPriority :=
  if String.eqb s "high" then Some high
  else if String.eqb s "medium" then Some medium
  else if String.eqb s "low" then Some low
  else None.

Definition decode_doc (j : json) : option DocRow :=
  o ← as_object 6 j;
  id ← string_field "id" o;
  title ← string_field "title" o;
  content ← string_field "content" o;
  tags ← array_field "tags" as_string o;
  createdAt ← string_field "createdAt" o;
  updatedAt ← string_field "updatedAt" o;
  Some {| row_id := id; row_title := title; row_content := content;
          row_tags := tags; row_createdAt := createdAt;
          row_updatedAt := updatedAt |}.

Definition decode_todo (j : json) : option TodoRow :=
  o ← as_object 6 j;
  id ← string_field "id" o;
  content ← string_field "content" o;
  status ← (string_field "status" o) ≫= status_of_name;
  priority ← (string_field "priority" o) ≫= priority_of_name;
  createdAt ← string_field "createdAt" o;
  updatedAt ← string_field "updatedAt" o;
  Some {| trow_id := id; trow_content := content; trow_status := status;
          trow_priority := priority; trow_createdAt := createdAt;
          trow_updatedAt := updatedAt |}.

Definition decode (j : json) : option StoreData :=
  o ← as_object 2 j;
  ds ← array_field "documents" decode_doc o;
  ts ← array_field "todos" decode_todo o;
  Some {| documents := ds; todos := ts |}.

(** *** Dates in the ISO format *)

Local Open Scope Z_scope.

Definition ms_per_day : Z := 86400000.

(** Proleptic Gregorian date of a day number counted from 1970-01-01. *)
Definition civil_from_days (z : Z) : Z * Z * Z :=
  let z := z + 719468 in
  let era := z / 146097 in
  let doe := z - era * 146097 in
  let yoe := (doe - doe / 1460 + doe / 36524 - doe / 146096) / 365 in
  let doy := doe - (365 * yoe + yoe / 4 - yoe / 100) in
  let mp := (5 * doy + 2) / 153 in
  let d := doy - (153 * mp + 2) / 5 + 1 in
  let m := if (mp <? 10)%Z then mp + 3 else mp - 9 in
  let y := yoe + era * 400 in
  (if (m <=? 2)%Z then y + 1 else y, m, d).

Definition days_from_civil (y m d : Z) : Z :=
  let y := if (m <=? 2)%Z then y - 1 else y in
  let era := y / 400 in
  let yoe := y - era * 400 in
  let doy := (153 * (if (2 <? m)%Z then m - 3 else m + 9) + 2) / 5 + d - 1 in
  let doe := yoe * 365 + yoe / 4 - yoe / 100 + doy in
  era * 146097 + doe - 719468.

Definition digit (d : Z) : ascii := ascii_of_nat (48 + Z.to_nat d).

(** [n] in decimal on [width] digits. *)
Fixpoint digits (width : nat) (n : Z) : string :=
  match width with
  | O => EmptyString
  | S w => (digits w (n / 10) ++ str1 (digit (n mod 10)))%string
  end.

Definition iso_year (y : Z) : string :=
  if ((0 <=? y)%Z && (y <=? 9999)%Z)%bool then digits 4 y
  else ((if (y <? 0)%Z then "-" else "+") ++ digits 6 (Z.abs y))%string.

Definition Date_toISOString (t : Z) : string :=
  let '(y, m, d) := civil_from_days (t / ms_per_day) in
  let ms := t mod ms_per_day in
  (iso_year y ++ "-" ++ digits 2 m ++ "-" ++ digits 2 d ++ "T"
   ++ digits 2 (ms / 3600000) ++ ":" ++ digits 2 (ms / 60000 mod 60) ++ ":"
   ++ digits 2 (ms / 1000 mod 60) ++ "." ++ digits 3 (ms mod 1000) ++ "Z")%string.

Definition digit_value (c : ascii) : option Z :=
  let n := nat_of_ascii c in
  if ((48 <=? n) && (n <=? 57))%nat then Some (Z.of_nat n - 48) else None.

(** Exactly [width] digits at the head of [s], added to [acc]. *)
Fixpoint read_digits (width : nat) (acc : Z) (s : string) : option (Z * string) :=
  match width with
  | O => Some (acc, s)
  | S w =>
      match s with
      | String c s' =>
          match digit_value c with
          | Some v => read_digits w (10 * acc + v) s'
          | None => None
          end
      | EmptyString => None
      end
  end.

Definition expect (c : ascii) (s : string) : option string :=
  match s with
  | String c' s' => if Ascii.eqb c c' then Some s' else None
  | EmptyString => None
  end.

Definition read_year (s : string) : option (Z * string) :=
  match s with
  | String c s' =>
      if Ascii.eqb c "+"%char then read_digits 6 0 s'
      else if Ascii.eqb c "-"%char then
        '(y, r) ← read_digits 6 0 s';
        if (y =? 0)%Z then None else Some (- y, r)
      else read_digits 4 0 s
  | EmptyString => None
  end.

Definition days_in_month (y m : Z) : Z :=
  days_from_civil (if (m =? 12)%Z then y + 1 else y)
                  (if (m =? 12)%Z then 1 else m + 1) 1
  - days_from_civil y m 1.

(** [new Date(s)] on the format [toISOString] writes; any other text
    gives the invalid date. *)
Definition Date_ofString (s : string) : Date :=
  '(y, s) ← read_year s;
  s ← expect "-" s;
  '(m, s) ← read_digits 2 0 s;
  s ← expect "-" s;
  '(d, s) ← read_digits 2 0 s;
  s ← expect "T" s;
  '(hh, s) ← read_digits 2 0 s;
  s ← expect ":" s;
  '(mm, s) ← read_digits 2 0 s;
  s ← expect ":" s;
  '(ss, s) ← read_digits 2 0 s;
  s ← expect "." s;
  '(ms, s) ← read_digits 3 0 s;
  s ← expect "Z" s;
  if JsString.truthy s then None
  else if ((1 <=? m)%Z && (m <=? 12)%Z && (1 <=? d)%Z
           && (d <=? days_in_month y m)%Z
           && (hh <=? 23)%Z && (mm <=? 59)%Z && (ss <=? 59)%Z)%bool
  then
    let t := days_from_civil y m d * ms_per_day
             + hh * 3600000 + mm * 60000 + ss * 1000 + ms in
    if (Z.abs t <=? 8640000000000000)%Z then Some t else None
  else None.

Local Close Scope Z_scope.

(** *** The platforms *)

(** A storage that accepts every write. *)
Definition platform : Platform :=
  {| JSON_parse := fun s => parse s ≫= decode;
     JSON_stringify := fun d => print (encode d);
     toISOString := Date_toISOString;
     Date_parse := Date_ofString;
     setItem := fun k v ls => Returned (<[k:=v]> ls) |}.

(** A storage that is full: every write throws. *)
Definition full_storage : Platform :=
  {| JSON_parse := fun s => parse s ≫= decode;
     JSON_stringify := fun d => print (encode d);
     toISOString := Date_toISOString;
     Date_parse := Date_ofString;
     setItem := fun k v ls => Thrown (DOMException "QuotaExceededError") |}.

End Browser.


(** ** Invariants of the notepad state *)

Module NotepadInv.

Import Notepad.

(** The ids of the collection, in its order. *)
Definition ids (state : NotepadState) : list string :=
  map doc_id (documents state).

(** The active id, when there is one, is the id of a document of the
    collection. *)
Definition active_in_collection (state : NotepadState) : Prop :=
  forall a, activeDocumentId state = Some a -> In a (ids state).

(** What an action must bring for the ids to stay distinct: a document
    added has an id not yet in use, a collection set has distinct ids. *)
Definition brings_distinct_ids (state : NotepadState) (action : NotepadAction)
    : Prop :=
  match action with
  | ADD_DOCUMENT doc => ~ In (doc_id doc) (ids state)
  | SET_DOCUMENTS l => NoDup (map doc_id l)
  | _ => True
  end.

(** What an action must bring for the active id to stay in the
    collection: an id selected is one of the collection, a collection set
    holds the active id. *)
Definition brings_active_id (state : NotepadState) (action : NotepadAction)
    : Prop :=
  match action with
  | SET_ACTIVE_DOCUMENT (Some a) => In a (ids state)
  | SET_DOCUMENTS l =>
      forall a, activeDocumentId state = Some a -> In a (map doc_id l)
  | _ => True
  end.

End NotepadInv.

(** ** What the components compute from the state *)

Module Views.

(** [filteredDocuments] of the sidebar: the documents whose title or
    content contains the search term, case ignored. *)
Definition filteredDocuments (state : Notepad.NotepadState) (searchTerm : string)
    : list Document :=
  List.filter
    (fun doc =>
       JsString.includes (JsString.toLowerCase (doc_title doc))
                         (JsString.toLowerCase searchTerm)
       || JsString.includes (JsString.toLowerCase (doc_content doc))
                            (JsString.toLowerCase searchTerm))
    (Notepad.documents state).

(** [activeDocument] of the editor: the first document whose id is the
    active id. *)
Definition activeDocument (state : Notepad.NotepadState) : option Document :=
  List.find (fun doc => Notepad.active_is (Notepad.activeDocumentId state) (doc_id doc))
            (Notepad.documents state).

(** [handleSelectDocument] of the sidebar. *)
Definition handleSelectDocument (id : string) : M App.World unit :=
  App.dispatch (Notepad.SET_ACTIVE_DOCUMENT (Some id)).

Section Editor.
Context `{ExcelStorage.Platform}.

(** The save the editor's timer runs: [handleSave] on the active
    document of the state, with the title and content of the form. *)
Definition saveActiveDocument (title content : string) : M App.World unit :=
  fun w => App.handleSave (activeDocument (App.notepad w)) title content w.

End Editor.

End Views.

(** ** The todo list component *)

Module TodoList.

Import App.

(** The component's own state with the application around it. *)
Record State := mkState {
  todos : list TodoItem;
  newTodo : string;
  selectedPriority : TodoPriority;
  app : World
}.

Definition initial (w : World) : State :=
  {| todos := []; newTodo := ""; selectedPriority := medium; app := w |}.

Definition setTodos (l : list TodoItem) : M State unit :=
  modify (fun s => {| todos := l; newTodo := newTodo s;
                      selectedPriority := selectedPriority s; app := app s |}).

Definition setNewTodo (t : string) : M State unit :=
  modify (fun s => {| todos := todos s; newTodo := t;
                      selectedPriority := selectedPriority s; app := app s |}).

(** A computation of the application, run from the component. *)
Definition in_app {A} (m : M World A) : M State A :=
  zoom app (fun w s => {| todos := todos s; newTodo := newTodo s;
                          selectedPriority := selectedPriority s; app := w |}) m.

(** The state as the handler sees it. *)
Definition current : M State State := fun s => (Returned s, s).

Section Handlers.
Context `{ExcelStorage.Platform}.
Local Open Scope js_scope.

Definition loadTodos : M State unit :=
  try_catch
    (savedTodos <- in_app (storage ExcelStorage.getAllTodos) ;;
     setTodos savedTodos)
    (fun error => in_app (console_error "Failed to load todos:" error)).

Definition addTodo : M State unit :=
  s <- current ;;
  if JsString.truthy (JsString.trim (newTodo s)) then
    now <- in_app Date_now ;;
    let todo :=
      {| todo_id := toString now;
         todo_content := JsString.trim (newTodo s);
         todo_status := pending;
         todo_priority := selectedPriority s;
         todo_createdAt := Some now;
         todo_updatedAt := Some now |} in
    try_catch
      (in_app (storage (ExcelStorage.saveTodo todo)) ;;;
       setTodos (todos s ++ [todo]) ;;;
       setNewTodo "")
      (fun error => in_app (console_error "Failed to save todo:" error))
  else ret tt.

Definition updateStatus (id : string) (status : TodoStatus) : M State unit :=
  s <- current ;;
  match List.find (fun todo => String.eqb (todo_id todo) id) (todos s) with
  | Some updatedTodo =>
      now <- in_app Date_now ;;
      let newTodo :=
        {| todo_id := todo_id updatedTodo;
           todo_content := todo_content updatedTodo;
           todo_status := status;
           todo_priority := todo_priority updatedTodo;
           todo_createdAt := todo_createdAt updatedTodo;
           todo_updatedAt := Some now |} in
      try_catch
        (in_app (storage (ExcelStorage.updateTodo newTodo)) ;;;
         setTodos (map (fun todo => if String.eqb (todo_id todo) id
                                    then newTodo else todo) (todos s)))
        (fun error => in_app (console_error "Failed to update todo:" error))
  | None => ret tt
  end.

Definition deleteTodo (id : string) : M State unit :=
  s <- current ;;
  try_catch
    (in_app (storage (ExcelStorage.deleteTodo id)) ;;;
     setTodos (List.filter (fun todo => negb (String.eqb (todo_id todo) id))
                           (todos s)))
    (fun error => in_app (console_error "Failed to delete todo:" error)).

(** The list shown is the list stored: what getAllTodos would return. *)
Definition in_sync (s : State) : Prop :=
  fst (ExcelStorage.getAllTodos (storageService (app s))) = Returned (todos s).

End Handlers.

End TodoList.

(** ** Where a captured title stands *)

Module Phrases.

Import RegExp.

(** [c] stands in [msg] right after create, new or add, white space, the
    word document, white space, at most one of titled, called and named,
    white space if any, and at most one quote character; and it is a run,
    not empty, free of quote characters and line feeds. *)
Definition follows_document_phrase (msg c : string) : Prop :=
  exists pre verb sp1 noun sp2 connector sp3 q rest,
    msg = pre ++ verb ++ sp1 ++ noun ++ sp2 ++ connector ++ sp3 ++ q ++ c ++ rest
    /\ (JsString.toLowerCase verb = "create"
        \/ JsString.toLowerCase verb = "new"
        \/ JsString.toLowerCase verb = "add")
    /\ sp1 <> "" /\ all_chars ws sp1 = true
    /\ JsString.toLowerCase noun = "document"
    /\ sp2 <> "" /\ all_chars ws sp2 = true
    /\ (connector = ""
        \/ JsString.toLowerCase connector = "titled"
        \/ JsString.toLowerCase connector = "called"
        \/ JsString.toLowerCase connector = "named")
    /\ all_chars ws sp3 = true
    /\ (q = "" \/ q = App.dquote \/ q = "'")
    /\ c <> "" /\ all_chars not_quote_nl c = true.

(** A text that does not open with white space. *)
Definition opens_clean (s : string) : Prop :=
  match s with
  | String c _ => JsString.is_space c = false
  | EmptyString => True
  end.

(** A text as [trim] leaves it: trimming it again changes nothing. *)
Definition trimmed (t : string) : Prop := JsString.trim t = t.

(** A text that does not close with white space. *)
Fixpoint closes_clean (s : string) : Prop :=
  match s with
  | EmptyString => True
  | String c EmptyString => JsString.is_space c = false
  | String _ s' => closes_clean s'
  end.

End Phrases.

(** ** The chat: its history under localStorage, its error texts *)

Module ChatHistory.

Import App.

Inductive Role := user | assistant.

Record Message := mkMessage {
  msg_id : string;
  msg_content : string;
  msg_role : Role;
  msg_timestamp : Date;
  msg_images : option (list string);
  msg_formatted : option bool
}.

(** A message as JSON.parse gives it back: the timestamp is the text the
    blob holds, or null. *)
Record StoredMessage := mkStoredMessage {
  stored_id : string;
  stored_content : string;
  stored_role : Role;
  stored_timestamp : option string;
  stored_images : option (list string);
  stored_formatted : option bool
}.

(** The JSON codec at the type of the history: [parse_history] ends as
    [JSON.parse] followed by the walk over the parsed array does. *)
Class Codec := {
  parse_history : string -> completion (list StoredMessage);
  stringify_history : list Message -> string
}.

Record State := mkState {
  messages : list Message;
  app : World
}.

Definition CHAT_HISTORY_KEY : string := "ai_chat_history".

Definition setMessages (l : list Message) (s : State) : State :=
  {| messages := l; app := app s |}.

(** The browser's store, as the chat reaches it. *)
Definition storage_of (s : State) : gmap string string :=
  ExcelStorage.localStorage (storageService (app s)).

Definition set_storage_of (ls : gmap string string) (s : State) : State :=
  {| messages := messages s;
     app := set_storage
              {| ExcelStorage.this_data := ExcelStorage.this_data (storageService (app s));
                 ExcelStorage.localStorage := ls |} (app s) |}.

Section Effects.
Context `{ExcelStorage.Platform} `{Codec}.

(** [{...msg, timestamp: new Date(msg.timestamp)}]; [new Date(null)] is
    the epoch. *)
Definition with_date (msg : StoredMessage) : Message :=
  {| msg_id := stored_id msg;
     msg_content := stored_content msg;
     msg_role := stored_role msg;
     msg_timestamp :=
       match stored_timestamp msg with
       | Some text => ExcelStorage.Date_parse text
       | None => Some 0%Z
       end;
     msg_images := stored_images msg;
     msg_formatted := stored_formatted msg |}.

(** The effect run on mount. *)
Definition loadHistory : M State unit := fun s =>
  match storage_of s !! CHAT_HISTORY_KEY with
  | Some savedHistory =>
      if JsString.truthy savedHistory then
        match parse_history savedHistory with
        | Returned parsedHistory =>
            (Returned tt, setMessages (map with_date parsedHistory) s)
        | Thrown error =>
            zoom app (fun w s => {| messages := messages s; app := w |})
                 (console_error "Failed to load chat history:" error) s
        end
      else (Returned tt, s)
  | None => (Returned tt, s)
  end.

(** The effect run whenever the messages change; its write is not
    guarded. *)
Definition saveHistory : M State unit := fun s =>
  if (0 <? length (messages s))%nat then
    match ExcelStorage.setItem CHAT_HISTORY_KEY (stringify_history (messages s))
                               (storage_of s) with
    | Returned ls => (Returned tt, set_storage_of ls s)
    | Thrown error => (Thrown error, s)
    end
  else (Returned tt, s).

Definition clearChatHistory : M State unit := fun s =>
  (Returned tt,
   set_storage_of (delete CHAT_HISTORY_KEY (storage_of s)) (setMessages [] s)).

End Effects.

(** What [sendMessage] catches: an Error with its message, or a value
    that is no Error. *)
Inductive Caught :=
| ErrorWith (message : string)
| OtherValue.

(** The text of the assistant message shown for what was caught. *)
Definition errorContent (error : Caught) : string :=
  match error with
  | ErrorWith message =>
      if JsString.includes message "Failed to fetch" then
        "Network error: Unable to connect to AI service. Please check your internet connection."
      else if JsString.includes message "401" then
        "Authentication error: Invalid API key."
      else if JsString.includes message "429" then
        "Rate limit exceeded. Please try again later."
      else if JsString.includes message "CORS" then
        "CORS error: Please check browser console for details."
      else "Sorry, I encountered an error. Please try again."
  | OtherValue => "Sorry, I encountered an error. Please try again."
  end.

(** The Error [sendMessage] throws on a response that is not ok. *)
Definition api_error (status : Z) (errorText : string) : Caught :=
  ErrorWith ("API Error: " ++ toString status ++ " - " ++ errorText).

End ChatHistory.

(** ** Saving several documents in a row *)

Module Batch.

Import ExcelStorage.

Section Batch.
Context `{Platform}.
Local Open Scope js_scope.

(** Successive calls of [saveDocument], one for each document of [docs]
    in order, on the same adapter: the components call it once for each
    document created or saved. *)
Fixpoint saveAll (docs : list Document) : M Env unit :=
  match docs with
  | [] => ret tt
  | doc :: rest => saveDocument doc ;;; saveAll rest
  end.

(** The ISO text of a date, the empty text for an invalid one. *)
Definition iso_text (d : Date) : string :=
  match d with
  | Some t => toISOString t
  | None => ""
  end.

(** The row [saveDocument] writes for a document whose dates are valid. *)
Definition row_of_document (doc : Document) : DocRow :=
  {| row_id := doc_id doc;
     row_title := doc_title doc;
     row_content := doc_content doc;
     row_tags := doc_tags doc;
     row_createdAt := iso_text (doc_createdAt doc);
     row_updatedAt := iso_text (doc_updatedAt doc) |}.

(** The record set [d] with the rows of [docs] after its documents. *)
Definition extended (d : StoreData) (docs : list Document) : StoreData :=
  {| documents := documents d ++ map row_of_document docs; todos := todos d |}.

End Batch.

End Batch.

(** ** Concrete states and inputs the properties are run on *)

(** The state the claim on UPDATE_DOCUMENT fails in: a document stamped
    six minutes after the instant the clock will read at its update. *)
Definition stamped_later : Notepad.NotepadState :=
  {| Notepad.documents := [ {| doc_id := "1"; doc_title := "old"; doc_content := "";
                       doc_createdAt := Some 1700000000123%Z;
                       doc_updatedAt := Some 1700000360000%Z;
                       doc_tags := [] |} ];
     Notepad.activeDocumentId := None; Notepad.isPreviewMode := false;
     Notepad.searchQuery := "" |}.


(** A storage whose blob is not JSON. *)
Definition corrupt_env : ExcelStorage.Env :=
  ExcelStorage.fresh {[ ExcelStorage.STORAGE_KEY := "{not json" ]}.

(** A note with quotes, a line break and a backslash in its text. *)
Definition quoted_note : Document :=
  {| doc_id := "1700000000123";
     doc_title := "Plan " ++ App.dquote ++ "A" ++ App.dquote;
     doc_content := "first line" ++ String "010"%char "second\line";
     doc_createdAt := Some 1700000000123%Z;
     doc_updatedAt := Some 1700000360000%Z;
     doc_tags := ["work"; "it's urgent"] |}.

Definition call_dentist : TodoItem :=
  {| todo_id := "1700000000500";
     todo_content := "call the dentist";
     todo_status := pending;
     todo_priority := medium;
     todo_createdAt := Some 1700000000500%Z;
     todo_updatedAt := Some 1700000000500%Z |}.

(** The adapter after [quoted_note] and [call_dentist] were saved. *)
Definition stocked_env : ExcelStorage.Env :=
  snd (@ExcelStorage.saveTodo Browser.platform call_dentist
         (snd (@ExcelStorage.saveDocument Browser.platform quoted_note
                 (ExcelStorage.fresh ∅)))).

(** The application at start-up over a given adapter. *)
Definition world_of (e : ExcelStorage.Env) (now : Z) : App.World :=
  {| App.notepad := Notepad.initialState; App.storageService := e;
     App.clock := now; App.console := [] |}.

(** [quoted_note] after an edit in the editor. *)
Definition edited_note : Document :=
  {| doc_id := "1700000000123";
     doc_title := "Plan B";
     doc_content := "rewritten";
     doc_createdAt := Some 1700000000123%Z;
     doc_updatedAt := Some 1700000999000%Z;
     doc_tags := ["work"; "it's urgent"] |}.

(** [call_dentist] once done. *)
Definition dentist_called : TodoItem :=
  {| todo_id := "1700000000500";
     todo_content := "call the dentist";
     todo_status := completed;
     todo_priority := medium;
     todo_createdAt := Some 1700000000500%Z;
     todo_updatedAt := Some 1700000777000%Z |}.

(** A second note, as the sidebar creates it. *)
Definition untitled_note : Document :=
  {| doc_id := "1700000500000";
     doc_title := "Untitled Document";
     doc_content := "";
     doc_createdAt := Some 1700000500000%Z;
     doc_updatedAt := Some 1700000500000%Z;
     doc_tags := [] |}.

(** A third note, with an id of its own. *)
Definition third_note : Document :=
  {| doc_id := "1700000900000";
     doc_title := "Groceries";
     doc_content := "milk";
     doc_createdAt := Some 1700000900000%Z;
     doc_updatedAt := Some 1700000900000%Z;
     doc_tags := ["home"] |}.

(** The reducer with two notes, the first one active. *)
Definition two_notes : Notepad.NotepadState :=
  {| Notepad.documents := [quoted_note; untitled_note];
     Notepad.activeDocumentId := Some "1700000000123";
     Notepad.isPreviewMode := false;
     Notepad.searchQuery := "" |}.

(** The application after the initial load of the stocked store. *)
Definition loaded_world : App.World :=
  snd (@App.loadDocuments Browser.platform (world_of stocked_env 1700001000000)).

(** A store whose only document has a creation date no Date can read. *)
Definition undated_data : ExcelStorage.StoreData :=
  {| ExcelStorage.documents :=
       [ {| ExcelStorage.row_id := "7"; ExcelStorage.row_title := "Old";
            ExcelStorage.row_content := "imported";
            ExcelStorage.row_tags := [];
            ExcelStorage.row_createdAt := "yesterday";
            ExcelStorage.row_updatedAt := "2023-11-14T22:13:20.123Z" |} ];
     ExcelStorage.todos := [] |}.

Definition undated_env : ExcelStorage.Env :=
  ExcelStorage.fresh
    {[ ExcelStorage.STORAGE_KEY := Browser.print (Browser.encode undated_data) ]}.

(** The todo list after its first load of the stocked store, a text
    typed in. *)
Definition todo_list_ready : TodoList.State :=
  let s := snd (@TodoList.loadTodos Browser.platform
                  (TodoList.initial (world_of stocked_env 1700001000000))) in
  {| TodoList.todos := TodoList.todos s;
     TodoList.newTodo := "  buy milk ";
     TodoList.selectedPriority := high;
     TodoList.app := TodoList.app s |}.

(** A stand-in for the JSON codec of the chat history, enough to run its
    effects: it writes the contents of the messages, one per line, and
    reads nothing back. *)
Definition lines_codec : ChatHistory.Codec :=
  {| ChatHistory.parse_history := fun _ => Thrown SyntaxError;
     ChatHistory.stringify_history :=
       fun l => String.concat (String "010"%char EmptyString)
                              (map ChatHistory.msg_content l) |}.

(** A chat with one message over the stocked store. *)
Definition chatting : ChatHistory.State :=
  {| ChatHistory.messages :=
       [ {| ChatHistory.msg_id := "1700001000001";
            ChatHistory.msg_content := "remind me to call the dentist";
            ChatHistory.msg_role := ChatHistory.user;
            ChatHistory.msg_timestamp := Some 1700001000001%Z;
            ChatHistory.msg_images := None;
            ChatHistory.msg_formatted := None |} ];
     ChatHistory.app := world_of stocked_env 1700001000000 |}.

(** * Properties *)

(** ** The reducer *)

Section ReducerFacts.
Import Notepad.

Lemma filter_keeps_order {A} (p : A -> bool) (l : list A) :
  sublist (List.filter p l) l.
Proof.
  induction l as [|x l IH]; simpl.
  - constructor.
  - destruct (p x); [by apply sublist_skip | by apply sublist_cons].
Qed.

Lemma active_is_spec (a : option string) (id : string) :
  active_is a id = true <-> a = Some id.
Proof.
  destruct a as [x|]; simpl.
  - rewrite String.eqb_eq. split; [by intros -> | by intros [= ->]].
  - split; discriminate.
Qed.

(** C7. DELETE_DOCUMENT(id) removes the documents whose id is [id] and
    keeps the others in their order; the active id becomes null when it
    was [id] and is unchanged otherwise. *)
Theorem delete_document_removes_and_clears
    (now : Z) (state : NotepadState) (id : string) :
  let state' := notepadReducer now state (DELETE_DOCUMENT id) in
  (forall d, In d (documents state') <-> In d (documents state) /\ doc_id d <> id)
  /\ sublist (documents state') (documents state)
  /\ (activeDocumentId state = Some id -> activeDocumentId state' = None)
  /\ (activeDocumentId state <> Some id ->
      activeDocumentId state' = activeDocumentId state)
  /\ isPreviewMode state' = isPreviewMode state
  /\ searchQuery state' = searchQuery state.
Proof.
  simpl. split; [|split; [|split; [|split; [|done]]]].
  - intros d. rewrite List.filter_In, negb_true_iff, String.eqb_neq. tauto.
  - apply filter_keeps_order.
  - intros Hact. apply active_is_spec in Hact. by rewrite Hact.
  - intros Hact. destruct (active_is (activeDocumentId state) id) eqn:E; [|done].
    apply active_is_spec in E. contradiction.
Qed.

(** C6, as stated, fails: the new updatedAt is the clock reading, which
    the reducer does not compare with the prior one. *)
Lemma update_document_counterexample :
  ~ (forall (now : Z) (state : NotepadState) (id title content : string)
            (i : nat) (d d' : Document),
        documents state !! i = Some d ->
        doc_id d = id ->
        documents (notepadReducer now state (UPDATE_DOCUMENT id content title)) !! i
          = Some d' ->
        doc_title d' = title /\ doc_content d' = content
        /\ Date_ge (doc_updatedAt d') (doc_updatedAt d) = true).
Proof.
  intros Hclaim.
  destruct (Hclaim 1700000000000%Z stamped_later "1" "new" "text" 0%nat _ _
              eq_refl eq_refl eq_refl) as (_ & _ & Hge).
  discriminate Hge.
Qed.

Lemma update_map_id (now : Z) (id title content : string) (l : list Document) :
  (forall d, In d l -> doc_id d <> id) ->
  map (fun doc =>
         if String.eqb (doc_id doc) id
         then {| doc_id := doc_id doc; doc_title := title; doc_content := content;
                 doc_createdAt := doc_createdAt doc; doc_updatedAt := Some now;
                 doc_tags := doc_tags doc |}
         else doc) l = l.
Proof.
  induction l as [|x l IH]; intros Hno; simpl; [done|].
  rewrite IH by (intros d Hd; apply Hno; by right).
  destruct (String.eqb_spec (doc_id x) id) as [Heq|_]; [|done].
  exfalso. apply (Hno x); [by left | done].
Qed.

(** C6, amended. UPDATE_DOCUMENT(id, title, content) rewrites, in place,
    every document whose id is [id]: its title and content are the given
    ones and its updatedAt is the clock reading of the transition, which
    is at or after the prior updatedAt whenever that prior value is an
    instant the clock has reached; the other documents, and a state
    without such a document, are unchanged. *)
Theorem update_document_sets_fields
    (now : Z) (state : NotepadState) (id title content : string) :
  let state' := notepadReducer now state (UPDATE_DOCUMENT id content title) in
  length (documents state') = length (documents state)
  /\ (forall (i : nat) (d : Document),
        documents state !! i = Some d ->
        exists d', documents state' !! i = Some d'
          /\ (doc_id d = id ->
                doc_id d' = id
                /\ doc_title d' = title
                /\ doc_content d' = content
                /\ doc_updatedAt d' = Some now
                /\ doc_createdAt d' = doc_createdAt d
                /\ doc_tags d' = doc_tags d
                /\ (forall t, doc_updatedAt d = Some t -> (t <= now)%Z ->
                      Date_ge (doc_updatedAt d') (doc_updatedAt d) = true))
          /\ (doc_id d <> id -> d' = d))
  /\ ((forall d, In d (documents state) -> doc_id d <> id) -> state' = state)
  /\ activeDocumentId state' = activeDocumentId state
  /\ isPreviewMode state' = isPreviewMode state
  /\ searchQuery state' = searchQuery state.
Proof.
  simpl. split; [by rewrite length_map|]. split; [|split; [|done]].
  - intros i d Hi. rewrite list_lookup_fmap, Hi. simpl.
    eexists. split; [reflexivity|]. split.
    + intros Hid. apply String.eqb_eq in Hid as Heqb. rewrite Heqb. simpl.
      repeat split; try done.
      intros t Ht Hle. rewrite Ht. simpl. by apply Z.leb_le.
    + intros Hne. apply String.eqb_neq in Hne. by rewrite Hne.
  - intros Hno. rewrite update_map_id by exact Hno. by destruct state.
Qed.

End ReducerFacts.

(** ** Arrays: findIndex against find *)

Section ArrayFacts.
Context {A : Type} (p : A -> bool).

Lemma find_index_replace (l : list A) (i : nat) (y : A) :
  JsArray.find_index p l = Some i -> p y = true ->
  List.find p (<[i:=y]> l) = Some y.
Proof.
  revert i. induction l as [|x l IH]; intros i Hi Hy; simpl in *; [done|].
  destruct (p x) eqn:Hx.
  - injection Hi as <-. simpl. by rewrite Hy.
  - destruct (JsArray.find_index p l) as [j|] eqn:Hj; [|done].
    injection Hi as <-. simpl. rewrite Hx. by apply IH.
Qed.

Lemma find_index_append (l : list A) (y : A) :
  JsArray.find_index p l = None -> p y = true ->
  List.find p (l ++ [y]) = Some y.
Proof.
  induction l as [|x l IH]; intros Hi Hy; simpl in *.
  - by rewrite Hy.
  - destruct (p x); [done|].
    destruct (JsArray.find_index p l); [done|]. by apply IH.
Qed.

(** The array after [if (i >= 0) l[i] = y else l.push(y)] with
    [i = l.findIndex(p)] has [y] as its first element satisfying [p]. *)
Lemma find_after_upsert (l : list A) (y : A) :
  p y = true ->
  List.find p
    (if (0 <=? JsArray.findIndex p l)%Z
     then JsArray.set_at (JsArray.findIndex p l) y l
     else JsArray.push y l) = Some y.
Proof.
  intros Hy. unfold JsArray.findIndex, JsArray.set_at, JsArray.push.
  destruct (JsArray.find_index p l) as [i|] eqn:Hi.
  - replace (0 <=? Z.of_nat i)%Z with true by (symmetry; apply Z.leb_le; lia).
    rewrite Nat2Z.id. by apply find_index_replace.
  - simpl. by apply find_index_append.
Qed.

End ArrayFacts.

(** ** The adapter *)

Section AdapterFacts.
Import ExcelStorage.
Context `{Platform}.

(** How a load ends: the parse error with nothing changed, or the record
    set now held in [this.data]. *)
Lemma loadData_inv (e : Env) :
  (loadData e = (Thrown SyntaxError, e) /\ persisted e = None)
  \/ (exists d, loadData e = (Returned d, {| this_data := d;
                                            localStorage := localStorage e |})
               /\ persisted e = Some d).
Proof.
  unfold persisted, loadData.
  destruct (localStorage e !! STORAGE_KEY) as [stored|].
  - destruct (JsString.truthy stored).
    + destruct (JSON_parse stored) as [d|]; [right; by exists d | by left].
    + right. exists (this_data e). by destruct e.
  - right. exists (this_data e). by destruct e.
Qed.

Lemma loadData_persisted (e : Env) (d : StoreData) :
  persisted e = Some d ->
  loadData e = (Returned d, {| this_data := d; localStorage := localStorage e |}).
Proof.
  intros Hp. destruct (loadData_inv e) as [[_ Hn]|(d' & Hl & Hp')]; congruence.
Qed.

Lemma loadData_corrupt (e : Env) :
  persisted e = None -> loadData e = (Thrown SyntaxError, e).
Proof.
  intros Hp. destruct (loadData_inv e) as [[Hl _]|(d' & _ & Hp')]; congruence.
Qed.

(** A blob that does not parse is what makes [persisted] fail. *)
Lemma persisted_corrupt (e : Env) (stored : string) :
  localStorage e !! STORAGE_KEY = Some stored ->
  JsString.truthy stored = true ->
  JSON_parse stored = None ->
  persisted e = None.
Proof.
  intros Hs Ht Hp. unfold persisted, loadData. by rewrite Hs, Ht, Hp.
Qed.

(** After a faithful blob of [d] is in place, the adapter reads [d]. *)
Lemma persisted_written (d d0 : StoreData) (ls : gmap string string) :
  json_faithful d ->
  persisted {| this_data := d0;
               localStorage := <[STORAGE_KEY := JSON_stringify d]> ls |} = Some d.
Proof.
  intros [Ht Hp]. unfold persisted, loadData. simpl.
  by rewrite lookup_insert_eq, Ht, Hp.
Qed.

Lemma saveDocument_run (e : Env) (doc : Document) (d : StoreData) (c u : Z) :
  persisted e = Some d ->
  doc_createdAt doc = Some c -> doc_updatedAt doc = Some u ->
  saveDocument doc e = written (with_document doc c u d) (localStorage e).
Proof.
  intros Hp Hc Hu. unfold saveDocument, bind, written, with_document.
  rewrite (loadData_persisted _ _ Hp), Hc, Hu. simpl.
  destruct (0 <=? _)%Z; simpl; unfold saveData; simpl;
    by destruct (setItem _ _ _).
Qed.

Lemma saveTodo_run (e : Env) (todo : TodoItem) (d : StoreData) (c u : Z) :
  persisted e = Some d ->
  todo_createdAt todo = Some c -> todo_updatedAt todo = Some u ->
  saveTodo todo e = written (with_todo todo c u d) (localStorage e).
Proof.
  intros Hp Hc Hu. unfold saveTodo, bind, written, with_todo, row_of_todo.
  rewrite (loadData_persisted _ _ Hp), Hc, Hu. simpl.
  destruct (0 <=? _)%Z; simpl; unfold saveData; simpl;
    by destruct (setItem _ _ _).
Qed.

Lemma deleteDocument_run (e : Env) (id : string) (d : StoreData) :
  persisted e = Some d ->
  deleteDocument id e =
    written {| documents := List.filter (fun doc => negb (String.eqb (row_id doc) id))
                                        (documents d);
               todos := todos d |} (localStorage e).
Proof.
  intros Hp. unfold deleteDocument, bind, written.
  rewrite (loadData_persisted _ _ Hp). simpl. unfold saveData. simpl.
  by destruct (setItem _ _ _).
Qed.

Lemma deleteTodo_run (e : Env) (id : string) (d : StoreData) :
  persisted e = Some d ->
  deleteTodo id e =
    written {| documents := documents d;
               todos := List.filter (fun todo => negb (String.eqb (trow_id todo) id))
                                    (todos d) |} (localStorage e).
Proof.
  intros Hp. unfold deleteTodo, bind, written.
  rewrite (loadData_persisted _ _ Hp). simpl. unfold saveData. simpl.
  by destruct (setItem _ _ _).
Qed.

Lemma written_data (d : StoreData) (ls : gmap string string) :
  this_data (snd (written d ls)) = d.
Proof. unfold written. by destruct (setItem _ _ _). Qed.

End AdapterFacts.

Section RoundTrip.
Import ExcelStorage.
Context `{Platform}.

(** C3. saveDocument(doc) followed by getDocument(doc.id) returns the
    document, equal in every field, the dates as instants: for a store
    that can be read and takes the write, dates that are valid, and a
    JSON codec and an ISO date format that read back what they wrote. *)
Theorem saveDocument_then_getDocument (e : Env) (doc : Document) :
  is_Some (persisted e) ->
  iso_faithful (doc_createdAt doc) ->
  iso_faithful (doc_updatedAt doc) ->
  json_faithful (this_data (snd (saveDocument doc e))) ->
  accepts (this_data (snd (saveDocument doc e))) (localStorage e) ->
  exists e',
    saveDocument doc e = (Returned tt, e')
    /\ getDocument (doc_id doc) e' = (Returned (Some doc), e').
Proof.
  intros [d Hd] (c & Hc & Hci) (u & Hu & Hui).
  rewrite (saveDocument_run e doc d c u Hd Hc Hu), written_data.
  intros Hjson Hacc. unfold written. rewrite Hacc.
  eexists. split; [reflexivity|].
  unfold getDocument, bind.
  rewrite (loadData_persisted _ (with_document doc c u d))
    by (by apply persisted_written).
  unfold with_document at 1. cbn [documents].
  rewrite find_after_upsert by (simpl; apply String.eqb_refl).
  unfold ret, document_of_row. simpl. rewrite Hci, Hui.
  destruct doc; simpl in *; subst. reflexivity.
Qed.

End RoundTrip.

(** ** Failures of the storage *)

Section Failures.
Import ExcelStorage App.
Context `{Platform}.

(** C1, as stated, fails: on a blob that is not JSON the reads throw. *)
Lemma read_of_corrupt_blob_counterexample :
  ~ (forall (P : Platform) (e : Env) (stored id query : string),
        localStorage e !! STORAGE_KEY = Some stored ->
        JSON_parse stored = None ->
        fst (getDocument id e) = Returned None
        /\ fst (getAllDocuments e) = Returned []
        /\ fst (getAllTodos e) = Returned []
        /\ fst (searchDocuments query e) = Returned []).
Proof.
  intros Hclaim.
  destruct (Hclaim Browser.platform corrupt_env "{not json" "1" "plan"
              eq_refl eq_refl) as (_ & Hall & _).
  vm_compute in Hall. discriminate Hall.
Qed.

(** C1, amended. On a stored blob that is not empty and that JSON.parse
    rejects, each read of the adapter throws the SyntaxError to its
    caller and leaves [this.data] and the blob as they were; the guard is
    at the call site: [loadDocuments] catches the error, logs it and
    leaves the document collection as it was. *)
Theorem read_of_corrupt_blob_throws (w : World) (stored id query : string) :
  localStorage (storageService w) !! STORAGE_KEY = Some stored ->
  JsString.truthy stored = true ->
  JSON_parse stored = None ->
  let e := storageService w in
  getDocument id e = (Thrown SyntaxError, e)
  /\ getAllDocuments e = (Thrown SyntaxError, e)
  /\ getAllTodos e = (Thrown SyntaxError, e)
  /\ searchDocuments query e = (Thrown SyntaxError, e)
  /\ loadDocuments w =
       (Returned tt,
        {| notepad := notepad w; storageService := e; clock := clock w;
           console := (console w ++ [("Failed to load documents:", SyntaxError)])%list |}).
Proof.
  intros Hs Ht Hp e.
  assert (Hl : loadData e = (Thrown SyntaxError, e))
    by (apply loadData_corrupt; by eapply persisted_corrupt).
  assert (Hall : getAllDocuments e = (Thrown SyntaxError, e))
    by (unfold getAllDocuments, bind; by rewrite Hl).
  repeat split.
  - unfold getDocument, bind. by rewrite Hl.
  - exact Hall.
  - unfold getAllTodos, bind. by rewrite Hl.
  - unfold searchDocuments, bind. by rewrite Hall.
  - unfold loadDocuments, bind, try_catch, storage, zoom. simpl.
    fold e. rewrite Hall. simpl. unfold console_error, modify, set_storage.
    simpl. by destruct w.
Qed.




End Failures.

(** ** Todos: update is save; the two kinds of record do not interfere *)

Section Todos.
Import ExcelStorage.
Context `{Platform}.

(** The index assignment after findIndex is the overwrite-or-append of
    the specification. *)
Lemma upsert_is_save_with_overwrite (r : TodoRow) (l : list TodoRow) :
  let p := fun t => String.eqb (trow_id t) (trow_id r) in
  (if (0 <=? JsArray.findIndex p l)%Z
   then JsArray.set_at (JsArray.findIndex p l) r l
   else JsArray.push r l) = save_with_overwrite r l.
Proof.
  simpl. unfold JsArray.findIndex, JsArray.set_at, JsArray.push.
  induction l as [|x l IH]; simpl; [done|].
  destruct (String.eqb (trow_id x) (trow_id r)); simpl; [done|].
  destruct (JsArray.find_index _ l) as [i|]; simpl in *.
  - replace (0 <=? Z.of_nat i)%Z with true in IH
      by (symmetry; apply Z.leb_le; lia).
    rewrite Nat2Z.id in IH.
    replace (0 <=? Z.of_nat (S i))%Z with true
      by (symmetry; apply Z.leb_le; lia).
    rewrite Nat2Z.id. simpl. by rewrite IH.
  - by rewrite <- IH.
Qed.

(** C9. updateTodo(todo) ends in the same completion and the same state,
    cache and blob, as saveTodo(todo); and what it saves is the todos
    with the record of that id replaced if there is one, else with the
    record appended, the documents as they were. *)
Theorem updateTodo_is_saveTodo (todo : TodoItem) (e : Env) :
  updateTodo todo e = saveTodo todo e
  /\ (forall d c u,
        persisted e = Some d ->
        todo_createdAt todo = Some c -> todo_updatedAt todo = Some u ->
        todos (this_data (snd (updateTodo todo e)))
          = save_with_overwrite (row_of_todo todo c u) (todos d)
        /\ documents (this_data (snd (updateTodo todo e))) = documents d).
Proof.
  split; [reflexivity|].
  intros d c u Hd Hc Hu. unfold updateTodo.
  rewrite (saveTodo_run e todo d c u Hd Hc Hu), written_data.
  split; [|done]. unfold with_todo. cbn [todos].
  apply (upsert_is_save_with_overwrite (row_of_todo todo c u)).
Qed.

Lemma persisted_unfold (e : Env) :
  persisted e =
    match localStorage e !! STORAGE_KEY with
    | Some stored =>
        if JsString.truthy stored then JSON_parse stored else Some (this_data e)
    | None => Some (this_data e)
    end.
Proof.
  unfold persisted, loadData.
  destruct (localStorage e !! STORAGE_KEY) as [stored|]; [|done].
  destruct (JsString.truthy stored); [|done].
  by destruct (JSON_parse stored).
Qed.

(** Loading does not change what is read. *)
Lemma persisted_loaded (e : Env) (d : StoreData) :
  persisted e = Some d ->
  persisted {| this_data := d; localStorage := localStorage e |} = Some d.
Proof.
  rewrite !persisted_unfold. simpl.
  destruct (localStorage e !! STORAGE_KEY) as [stored|]; [|done].
  by destruct (JsString.truthy stored).
Qed.

(** After the write of a record set that agrees with the loaded one on
    a component, the adapter still reads that component, whether the
    storage took the write or threw. *)
Lemma persisted_after_written {B} (proj : StoreData -> B)
    (e : Env) (d d1 : StoreData) :
  lawful_storage -> persisted e = Some d ->
  json_faithful d1 -> proj d1 = proj d ->
  proj <$> persisted (snd (written d1 (localStorage e))) = Some (proj d).
Proof.
  intros Hlaw Hd Hjson Hproj. unfold written.
  destruct (setItem _ _ _) as [ls'|err] eqn:Hset; simpl.
  - apply Hlaw in Hset as ->. rewrite persisted_written by done.
    simpl. by rewrite Hproj.
  - rewrite persisted_unfold in Hd |- *. simpl.
    destruct (localStorage e !! STORAGE_KEY) as [stored|].
    + destruct (JsString.truthy stored).
      * by rewrite Hd.
      * simpl. by rewrite Hproj.
    + simpl. by rewrite Hproj.
Qed.



Lemma deleteDocument_frame (e : Env) (id : string) :
  lawful_storage ->
  json_faithful (this_data (snd (deleteDocument id e))) ->
  todos <$> persisted (snd (deleteDocument id e)) = todos <$> persisted e.
Proof.
  intros Hlaw. destruct (persisted e) as [d|] eqn:Hd.
  - rewrite (deleteDocument_run e id d Hd), written_data.
    intros Hjson. by apply persisted_after_written.
  - intros _. unfold deleteDocument, bind.
    rewrite (loadData_corrupt _ Hd). simpl. by rewrite Hd.
Qed.

Lemma deleteTodo_frame (e : Env) (id : string) :
  lawful_storage ->
  json_faithful (this_data (snd (deleteTodo id e))) ->
  documents <$> persisted (snd (deleteTodo id e)) = documents <$> persisted e.
Proof.
  intros Hlaw. destruct (persisted e) as [d|] eqn:Hd.
  - rewrite (deleteTodo_run e id d Hd), written_data.
    intros Hjson. by apply persisted_after_written.
  - intros _. unfold deleteTodo, bind.
    rewrite (loadData_corrupt _ Hd). simpl. by rewrite Hd.
Qed.

(** With a blob stored, the adapter reads the blob. *)
Lemma blob_persisted (e : Env) (d : StoreData) :
  blob e = Some d -> persisted e = Some d.
Proof.
  rewrite persisted_unfold. unfold blob.
  destruct (localStorage e !! STORAGE_KEY) as [stored|]; [|done].
  by destruct (JsString.truthy stored).
Qed.

(** With no blob stored, the adapter reads its field, unless a text is
    stored that does not parse. *)
Lemma no_blob_persisted (e : Env) (d : StoreData) :
  blob e = None -> persisted e = Some d -> d = this_data e.
Proof.
  rewrite persisted_unfold. unfold blob.
  destruct (localStorage e !! STORAGE_KEY) as [stored|]; [|congruence].
  destruct (JsString.truthy stored); congruence.
Qed.

(** The blob after the write of a record set that agrees with the blob
    on a component: that component is as it was, whether the storage
    took the write or threw. *)
Lemma blob_after_written {B} (proj : StoreData -> B)
    (e : Env) (d d1 : StoreData) :
  lawful_storage -> blob e = Some d ->
  json_faithful d1 -> proj d1 = proj d ->
  proj <$> blob (snd (written d1 (localStorage e))) = Some (proj d).
Proof.
  intros Hlaw Hd [Ht Hp] Hproj. unfold written.
  destruct (setItem _ _ _) as [ls'|err] eqn:Hset; simpl.
  - apply Hlaw in Hset as ->. unfold blob. simpl.
    rewrite lookup_insert_eq, Ht, Hp. simpl. by rewrite Hproj.
  - unfold blob in Hd |- *. simpl. by rewrite Hd.
Qed.

(** The blob after a write the storage took. *)
Lemma blob_of_written (d1 : StoreData) (ls : gmap string string) :
  lawful_storage -> json_faithful d1 ->
  fst (written d1 ls) = Returned tt ->
  blob (snd (written d1 ls)) = Some d1.
Proof.
  intros Hlaw [Ht Hp]. unfold written.
  destruct (setItem _ _ _) as [ls'|err] eqn:Hset; simpl; [|done].
  intros _. apply Hlaw in Hset as ->. unfold blob. simpl.
  by rewrite lookup_insert_eq, Ht.
Qed.

Lemma saveDocument_blob_frame (e : Env) (doc : Document) (d : StoreData) :
  lawful_storage -> blob e = Some d ->
  json_faithful (this_data (snd (saveDocument doc e))) ->
  todos <$> blob (snd (saveDocument doc e)) = Some (todos d).
Proof.
  intros Hlaw Hb. pose proof (blob_persisted _ _ Hb) as Hd.
  destruct (doc_createdAt doc) as [c|] eqn:Hc;
    [destruct (doc_updatedAt doc) as [u|] eqn:Hu|].
  - rewrite (saveDocument_run e doc d c u Hd Hc Hu), written_data.
    intros Hjson. by apply blob_after_written.
  - intros _. unfold saveDocument, bind.
    rewrite (loadData_persisted _ _ Hd), Hc, Hu. simpl.
    unfold blob in Hb |- *. simpl. by rewrite Hb.
  - intros _. unfold saveDocument, bind.
    rewrite (loadData_persisted _ _ Hd), Hc. simpl.
    unfold blob in Hb |- *. simpl. by rewrite Hb.
Qed.

Lemma saveTodo_blob_frame (e : Env) (todo : TodoItem) (d : StoreData) :
  lawful_storage -> blob e = Some d ->
  json_faithful (this_data (snd (saveTodo todo e))) ->
  documents <$> blob (snd (saveTodo todo e)) = Some (documents d).
Proof.
  intros Hlaw Hb. pose proof (blob_persisted _ _ Hb) as Hd.
  destruct (todo_createdAt todo) as [c|] eqn:Hc;
    [destruct (todo_updatedAt todo) as [u|] eqn:Hu|].
  - rewrite (saveTodo_run e todo d c u Hd Hc Hu), written_data.
    intros Hjson. by apply blob_after_written.
  - intros _. unfold saveTodo, bind.
    rewrite (loadData_persisted _ _ Hd), Hc, Hu. simpl.
    unfold blob in Hb |- *. simpl. by rewrite Hb.
  - intros _. unfold saveTodo, bind.
    rewrite (loadData_persisted _ _ Hd), Hc. simpl.
    unfold blob in Hb |- *. simpl. by rewrite Hb.
Qed.

(** With no blob stored, a save that returns writes the first blob from
    the field [this.data]. *)
Lemma saveDocument_first_blob (e : Env) (doc : Document) :
  lawful_storage -> blob e = None ->
  json_faithful (this_data (snd (saveDocument doc e))) ->
  fst (saveDocument doc e) = Returned tt ->
  todos <$> blob (snd (saveDocument doc e)) = Some (todos (this_data e)).
Proof.
  intros Hlaw Hb. destruct (persisted e) as [d|] eqn:Hd.
  - pose proof (no_blob_persisted _ _ Hb Hd) as ->.
    destruct (doc_createdAt doc) as [c|] eqn:Hc;
      [destruct (doc_updatedAt doc) as [u|] eqn:Hu|].
    + rewrite (saveDocument_run e doc _ c u Hd Hc Hu), written_data.
      intros Hjson Hret. by rewrite (blob_of_written _ _ Hlaw Hjson Hret).
    + intros _. unfold saveDocument, bind.
      by rewrite (loadData_persisted _ _ Hd), Hc, Hu.
    + intros _. unfold saveDocument, bind.
      by rewrite (loadData_persisted _ _ Hd), Hc.
  - intros _. unfold saveDocument, bind. by rewrite (loadData_corrupt _ Hd).
Qed.

Lemma saveTodo_first_blob (e : Env) (todo : TodoItem) :
  lawful_storage -> blob e = None ->
  json_faithful (this_data (snd (saveTodo todo e))) ->
  fst (saveTodo todo e) = Returned tt ->
  documents <$> blob (snd (saveTodo todo e)) = Some (documents (this_data e)).
Proof.
  intros Hlaw Hb. destruct (persisted e) as [d|] eqn:Hd.
  - pose proof (no_blob_persisted _ _ Hb Hd) as ->.
    destruct (todo_createdAt todo) as [c|] eqn:Hc;
      [destruct (todo_updatedAt todo) as [u|] eqn:Hu|].
    + rewrite (saveTodo_run e todo _ c u Hd Hc Hu), written_data.
      intros Hjson Hret. by rewrite (blob_of_written _ _ Hlaw Hjson Hret).
    + intros _. unfold saveTodo, bind.
      by rewrite (loadData_persisted _ _ Hd), Hc, Hu.
    + intros _. unfold saveTodo, bind.
      by rewrite (loadData_persisted _ _ Hd), Hc.
  - intros _. unfold saveTodo, bind. by rewrite (loadData_corrupt _ Hd).
Qed.

Lemma delete_blob_frame (e : Env) (id : string) (d : StoreData) :
  lawful_storage -> blob e = Some d ->
  (json_faithful (this_data (snd (deleteDocument id e))) ->
   todos <$> blob (snd (deleteDocument id e)) = Some (todos d))
  /\ (json_faithful (this_data (snd (deleteTodo id e))) ->
      documents <$> blob (snd (deleteTodo id e)) = Some (documents d)).
Proof.
  intros Hlaw Hb. pose proof (blob_persisted _ _ Hb) as Hd.
  rewrite (deleteDocument_run e id d Hd), (deleteTodo_run e id d Hd), !written_data.
  split; intros Hjson; by apply blob_after_written.
Qed.

Lemma delete_first_blob (e : Env) (id : string) :
  lawful_storage -> blob e = None ->
  (json_faithful (this_data (snd (deleteDocument id e))) ->
   fst (deleteDocument id e) = Returned tt ->
   todos <$> blob (snd (deleteDocument id e)) = Some (todos (this_data e)))
  /\ (json_faithful (this_data (snd (deleteTodo id e))) ->
      fst (deleteTodo id e) = Returned tt ->
      documents <$> blob (snd (deleteTodo id e)) = Some (documents (this_data e))).
Proof.
  intros Hlaw Hb. destruct (persisted e) as [d|] eqn:Hd.
  - pose proof (no_blob_persisted _ _ Hb Hd) as ->.
    rewrite (deleteDocument_run e id _ Hd), (deleteTodo_run e id _ Hd), !written_data.
    split; intros Hjson Hret; by rewrite (blob_of_written _ _ Hlaw Hjson Hret).
  - unfold deleteDocument, deleteTodo, bind. rewrite (loadData_corrupt _ Hd).
    by split.
Qed.

(** C10, as stated, fails. A saveTodo whose write throws on an empty
    storage leaves the todo in the field this.data and no blob; the next
    saveDocument, a document operation, writes the first blob from that
    field, so the todos held in the blob go from none to that todo. *)
Lemma blob_frame_counterexample :
  let e1 := snd (@saveTodo Browser.full_storage call_dentist (fresh ∅)) in
  let e2 := snd (@saveDocument Browser.platform quoted_note e1) in
  fst (@saveTodo Browser.full_storage call_dentist (fresh ∅))
    = Thrown (DOMException "QuotaExceededError")
  /\ localStorage e1 !! STORAGE_KEY = None
  /\ fst (@saveDocument Browser.platform quoted_note e1) = Returned tt
  /\ todos <$> @blob Browser.platform e1 = None
  /\ map trow_content <$> (todos <$> @blob Browser.platform e2)
     = Some ["call the dentist"]
  /\ todos <$> @blob Browser.platform e2 <> todos <$> @blob Browser.platform e1.
Proof. vm_compute. repeat split. discriminate. Qed.

(** C10, amended. On a storage whose writes store what they are given
    and a JSON codec that reads back the record sets written: in every
    state in which a readable blob is stored, saveDocument and
    deleteDocument leave the todos held in the blob unchanged, and
    saveTodo and deleteTodo leave the documents held in the blob
    unchanged, whether the call returns or throws. In a state with no
    blob stored, an operation that returns writes the first blob, and
    the untouched kind of record in it is the one of the adapter's field
    this.data. *)
Theorem document_and_todo_operations_frame
    (e : Env) (doc : Document) (todo : TodoItem) (id id' : string) :
  lawful_storage ->
  json_faithful (this_data (snd (saveDocument doc e))) ->
  json_faithful (this_data (snd (deleteDocument id e))) ->
  json_faithful (this_data (snd (saveTodo todo e))) ->
  json_faithful (this_data (snd (deleteTodo id' e))) ->
  (is_Some (blob e) ->
   todos <$> blob (snd (saveDocument doc e)) = todos <$> blob e
   /\ todos <$> blob (snd (deleteDocument id e)) = todos <$> blob e
   /\ documents <$> blob (snd (saveTodo todo e)) = documents <$> blob e
   /\ documents <$> blob (snd (deleteTodo id' e)) = documents <$> blob e)
  /\ (blob e = None ->
      (fst (saveDocument doc e) = Returned tt ->
       todos <$> blob (snd (saveDocument doc e)) = Some (todos (this_data e)))
      /\ (fst (deleteDocument id e) = Returned tt ->
          todos <$> blob (snd (deleteDocument id e)) = Some (todos (this_data e)))
      /\ (fst (saveTodo todo e) = Returned tt ->
          documents <$> blob (snd (saveTodo todo e))
          = Some (documents (this_data e)))
      /\ (fst (deleteTodo id' e) = Returned tt ->
          documents <$> blob (snd (deleteTodo id' e))
          = Some (documents (this_data e)))).
Proof.
  intros Hlaw H1 H2 H3 H4. split.
  - intros [d Hb]. rewrite Hb. simpl.
    split; [by apply saveDocument_blob_frame|].
    split; [by apply (delete_blob_frame e id d)|].
    split; [by apply saveTodo_blob_frame|].
    by apply (delete_blob_frame e id' d).
  - intros Hb.
    split; [by apply saveDocument_first_blob|].
    split; [by apply (delete_first_blob e id)|].
    split; [by apply saveTodo_first_blob|].
    by apply (delete_first_blob e id').
Qed.

End Todos.

(** ** The matcher finds only matches *)

Section RegExpFacts.
Import RegExp.

Lemma str_app_nil (b : string) : "" ++ b = b.
Proof. reflexivity. Qed.

Lemma str_app_cons (x : ascii) (a b : string) :
  String x a ++ b = String x (a ++ b).
Proof. reflexivity. Qed.

Lemma str_app_assoc (a b c : string) : (a ++ b) ++ c = a ++ b ++ c.
Proof.
  induction a as [|x a IH]; [done|].
  by rewrite !str_app_cons, IH.
Qed.

Lemma str_app_length (a b : string) :
  String.length (a ++ b) = (String.length a + String.length b)%nat.
Proof.
  induction a as [|x a IH]; [done|].
  rewrite str_app_cons. simpl. by rewrite IH.
Qed.

Lemma substring_prefix (m s : string) :
  String.substring 0 (String.length m) (m ++ s) = m.
Proof.
  induction m as [|x m IH].
  - rewrite str_app_nil. by destruct s.
  - rewrite str_app_cons. simpl. by rewrite IH.
Qed.

Lemma consumed_app (m s : string) : consumed (m ++ s) s = m.
Proof.
  unfold consumed. rewrite str_app_length.
  replace (String.length m + String.length s - String.length s)%nat
    with (String.length m) by lia.
  apply substring_prefix.
Qed.

Context {R : Type}.

Lemma lit_sound (l s : string) (k : string -> option R) (x : R) :
  lit l s k = Some x ->
  exists m s', s = m ++ s'
    /\ JsString.toLowerCase m = JsString.toLowerCase l /\ k s' = Some x.
Proof.
  revert s. induction l as [|a l IH]; intros s Hx; simpl in Hx.
  - by exists "", s.
  - destruct s as [|c s]; [done|].
    destruct (Ascii.eqb_spec (JsString.lower_char a) (JsString.lower_char c))
      as [Heq|]; [|done].
    destruct (IH _ Hx) as (m & s' & -> & Hm & Hk).
    exists (String c m), s'. simpl. by rewrite Hm, Heq.
Qed.

Lemma star_sound (p : ascii -> bool) (s : string) (k : string -> option R) (x : R) :
  star p s k = Some x ->
  exists m s', s = m ++ s' /\ all_chars p m = true /\ k s' = Some x.
Proof.
  induction s as [|c s IH]; intros Hx; simpl in Hx.
  - by exists "", "".
  - destruct (p c) eqn:Hc; [|by exists "", (String c s)].
    destruct (star p s k) as [y|] eqn:Hs.
    + injection Hx as ->. destruct (IH eq_refl) as (m & s' & -> & Hm & Hk).
      exists (String c m), s'. simpl. by rewrite Hc, Hm.
    + by exists "", (String c s).
Qed.

Lemma plus_sound (p : ascii -> bool) (s : string) (k : string -> option R) (x : R) :
  plus p s k = Some x ->
  exists m s', s = m ++ s' /\ m <> "" /\ all_chars p m = true /\ k s' = Some x.
Proof.
  destruct s as [|c s]; simpl; [done|].
  destruct (p c) eqn:Hc; [|done]. intros Hx.
  destruct (star_sound _ _ _ _ Hx) as (m & s' & -> & Hm & Hk).
  exists (String c m), s'. simpl. by rewrite Hc, Hm.
Qed.

Lemma exec_sound (r : re) :
  forall (s : string) (cap : option string)
         (k : string -> option string -> option R) (x : R),
    exec r s cap k = Some x ->
    exists m s' cap', s = m ++ s' /\ Matches r m cap cap' /\ k s' cap' = Some x.
Proof.
  induction r as [l|p|r1 IH1 r2 IH2|r1 IH1 r2 IH2|r1 IH1|p|p|r1 IH1];
    intros s cap k x Hx; simpl in Hx.
  - destruct (lit_sound _ _ _ _ Hx) as (m & s' & -> & Hm & Hk).
    exists m, s', cap. eauto using Matches.
  - destruct s as [|c s]; [done|]. destruct (p c) eqn:Hc; [|done].
    exists (String c ""), s, cap. eauto using Matches.
  - destruct (exec r1 s cap k) as [y|] eqn:H1.
    + injection Hx as ->. destruct (IH1 _ _ _ _ H1) as (m & s' & cap' & -> & Hm & Hk).
      exists m, s', cap'. eauto using Matches.
    + destruct (IH2 _ _ _ _ Hx) as (m & s' & cap' & -> & Hm & Hk).
      exists m, s', cap'. eauto using Matches.
  - destruct (IH1 _ _ _ _ Hx) as (m1 & s1 & cap1 & -> & Hm1 & Hk1).
    destruct (IH2 _ _ _ _ Hk1) as (m2 & s2 & cap2 & -> & Hm2 & Hk2).
    exists (m1 ++ m2), s2, cap2. rewrite str_app_assoc. eauto using Matches.
  - destruct (exec r1 s cap k) as [y|] eqn:H1.
    + injection Hx as ->. destruct (IH1 _ _ _ _ H1) as (m & s' & cap' & -> & Hm & Hk).
      exists m, s', cap'. eauto using Matches.
    + exists "", s, cap. eauto using Matches.
  - destruct (star_sound _ _ _ _ Hx) as (m & s' & -> & Hm & Hk).
    exists m, s', cap. eauto using Matches.
  - destruct (plus_sound _ _ _ _ Hx) as (m & s' & -> & Hne & Hm & Hk).
    exists m, s', cap. eauto using Matches.
  - destruct (IH1 _ _ _ _ Hx) as (m & s' & cap' & -> & Hm & Hk).
    rewrite consumed_app in Hk.
    exists m, s', (Some m). eauto using Matches.
Qed.

(** *** The matcher finds every match it is asked for *)







End RegExpFacts.

Section MatchFacts.
Import RegExp.

Lemma match_sound (r : re) (s : string) (cap : option string) :
  match_ r s = Some cap ->
  exists pre m post, s = pre ++ m ++ post /\ Matches r m None cap.
Proof.
  induction s as [|c s IH]; simpl.
  - destruct (exec r "" None _) as [cap'|] eqn:Hx; [|done].
    intros [= <-]. destruct (exec_sound _ _ _ _ _ Hx) as (m & s' & cap'' & Hs & Hm & [= <-]).
    by exists "", m, s'.
  - destruct (exec r (String c s) None _) as [cap'|] eqn:Hx.
    + intros [= <-].
      destruct (exec_sound _ _ _ _ _ Hx) as (m & s' & cap'' & Hs & Hm & [= <-]).
      by exists "", m, s'.
    + intros Hrec. destruct (IH Hrec) as (pre & m & post & -> & Hm).
      by exists (String c pre), m, post.
Qed.







End MatchFacts.

(** ** The command extractor *)

Section PatternFacts.
Import RegExp App.

Lemma is_quote_inv (c : ascii) :
  is_quote c = true ->
  String c "" = dquote \/ String c "" = "'".
Proof.
  unfold is_quote. intros Hq. apply orb_true_iff in Hq as [Hq|Hq];
    apply Ascii.eqb_eq in Hq as ->; [by left | by right].
Qed.

Ltac invert_match :=
  repeat match goal with
         | H : Matches (Seq _ _) _ _ _ |- _ => inversion H; subst; clear H
         | H : Matches (Alt _ _) _ _ _ |- _ => inversion H; subst; clear H
         | H : Matches (Opt _) _ _ _ |- _ => inversion H; subst; clear H
         | H : Matches (Group _) _ _ _ |- _ => inversion H; subst; clear H
         | H : Matches (Lit _) _ _ _ |- _ => inversion H; subst; clear H
         | H : Matches (Class _) _ _ _ |- _ => inversion H; subst; clear H
         | H : Matches (Plus _) _ _ _ |- _ => inversion H; subst; clear H
         | H : Matches (Star _) _ _ _ |- _ => inversion H; subst; clear H
         end.

Lemma todo_pattern_shape (m : string) (cap : option string) :
  Matches todo_pattern m None cap ->
  exists verb sp1 noun sp2 q c q',
    m = verb ++ sp1 ++ noun ++ sp2 ++ q ++ c ++ q'
    /\ cap = Some c
    /\ (JsString.toLowerCase verb = "create"
        \/ JsString.toLowerCase verb = "add"
        \/ JsString.toLowerCase verb = "new")
    /\ sp1 <> "" /\ all_chars ws sp1 = true
    /\ JsString.toLowerCase noun = "todo"
    /\ sp2 <> "" /\ all_chars ws sp2 = true
    /\ (q = "" \/ q = dquote \/ q = "'")
    /\ c <> "" /\ all_chars not_quote_nl c = true.
Proof.
  unfold todo_pattern. intros Hm. invert_match;
    (eexists _, _, _, _, _, _, _; split; [reflexivity|]; split; [reflexivity|];
     repeat match goal with
            | H : is_quote _ = true |- _ => apply is_quote_inv in H
            end;
     intuition eauto).
Qed.

Lemma remind_pattern_shape (m : string) (cap : option string) :
  Matches remind_pattern m None cap ->
  exists phrase sp c,
    m = phrase ++ sp ++ c
    /\ cap = Some c
    /\ JsString.toLowerCase phrase = "remind me to"
    /\ sp <> "" /\ all_chars ws sp = true
    /\ c <> "" /\ all_chars not_nl c = true.
Proof.
  unfold remind_pattern. intros Hm. invert_match.
  eexists _, _, _. intuition eauto.
Qed.

(** What either todo pattern captures. *)
Lemma todo_match_shape (msg : string) (todoMatch : option string) :
  or_else (match_ todo_pattern msg) (match_ remind_pattern msg) = Some todoMatch ->
  exists c, todoMatch = Some c
    /\ all_chars not_nl c = true
    /\ (match_ todo_pattern msg <> None -> all_chars not_quote_nl c = true).
Proof.
  unfold or_else. destruct (match_ todo_pattern msg) as [cap|] eqn:Ht.
  - intros [= <-].
    destruct (match_sound _ _ _ Ht) as (pre & m & post & -> & Hm).
    destruct (todo_pattern_shape _ _ Hm)
      as (verb & sp1 & noun & sp2 & q & c & q' & -> & -> & Hshape).
    assert (Hclean : all_chars not_quote_nl c = true) by tauto.
    exists c. split; [done|]. split; [|done].
    revert Hclean. clear. induction c as [|x c IH]; simpl; [done|].
    intros Hall. apply andb_true_iff in Hall as [Hx Hc].
    rewrite (IH Hc), andb_true_r. unfold not_quote_nl, not_nl in *.
    apply negb_true_iff, orb_false_iff in Hx as [_ ->]. done.
  - intros Hr.
    destruct (match_sound _ _ _ Hr) as (pre & m & post & -> & Hm).
    destruct (remind_pattern_shape _ _ Hm) as (phrase & sp & c & -> & -> & Hshape).
    exists c. split; [done|]. split; [tauto | done].
Qed.

(** *** The text the patterns take from a message of the described form *)














End PatternFacts.

Section Extractor.
Import RegExp ExcelStorage App.
Context `{Platform}.
Local Open Scope js_scope.

(** The todo the extractor builds from a text and a priority. *)
Lemma createTodo_run (text : string) (priority : TodoPriority) (w : World) :
  createTodo text priority w =
    (storage (saveTodo {| todo_id := toString (clock w);
                          todo_content := text;
                          todo_status := pending;
                          todo_priority := priority;
                          todo_createdAt := Some (clock w);
                          todo_updatedAt := Some (clock w) |}) ;;;
     ret {| todo_id := toString (clock w);
            todo_content := text;
            todo_status := pending;
            todo_priority := priority;
            todo_createdAt := Some (clock w);
            todo_updatedAt := Some (clock w) |}) w.
Proof. reflexivity. Qed.

Lemma todo_intent_keeps_notepad (msg lower : string) (w : World) :
  notepad (snd (todo_intent msg lower w)) = notepad w.
Proof.
  unfold todo_intent. destruct (todo_trigger lower); [|done].
  destruct (or_else _ _) as [[c|]|]; [|done|done].
  cbv beta iota zeta delta [bind group1_trim ret createTodo Date_now storage zoom].
  by destruct (saveTodo _ (storageService w)) as [[[]|err] e'].
Qed.

(** With no document created, the chat turn is the todo intent's. *)
Lemma processAICommands_without_document (msg a : string) (w : World) :
  document_trigger (JsString.toLowerCase msg) = false
  \/ match_ document_pattern msg = None ->
  processAICommands msg a w =
    (r <- todo_intent msg (JsString.toLowerCase msg) ;;
     match r with
     | Some reply => ret reply
     | None => ret a
     end) w.
Proof.
  intros Hdoc. unfold processAICommands, document_intent.
  destruct Hdoc as [-> | ->]; [done|].
  by destruct (document_trigger _).
Qed.

Lemma processAICommands_no_intent (msg a : string) (w : World) :
  document_trigger (JsString.toLowerCase msg) = false
  \/ match_ document_pattern msg = None ->
  todo_trigger (JsString.toLowerCase msg) = false
  \/ or_else (match_ todo_pattern msg) (match_ remind_pattern msg) = None ->
  processAICommands msg a w = (Returned a, w).
Proof.
  intros Hdoc Htodo. rewrite processAICommands_without_document by done.
  unfold todo_intent, bind.
  destruct Htodo as [-> | ->]; [done|].
  by destruct (todo_trigger _).
Qed.

(** C4, as stated, fails: with the document trigger present and no title
    captured, the todo intent still runs. *)
Lemma document_fallback_counterexample :
  ~ (forall (P : Platform) (msg a : string) (w : World),
        document_trigger (JsString.toLowerCase msg) = true ->
        match_ document_pattern msg = None ->
        processAICommands msg a w = (Returned a, w)).
Proof.
  intros Hclaim.
  specialize (Hclaim Browser.platform "remind me to create document" "Sure."
                (world_of (fresh ∅) 1700000000000) eq_refl eq_refl).
  apply (f_equal fst) in Hclaim. vm_compute in Hclaim. discriminate Hclaim.
Qed.

(** C4, amended. When the message holds a document trigger phrase and
    the title pattern does not match, no document is created: nothing is
    dispatched to the reducer and the turn goes on to the todo intent,
    whose result it returns; only when the todo intent does not fire
    either is the AI reply returned unchanged with the world untouched. *)
Theorem document_fallback_runs_todo_intent (msg a : string) (w : World) :
  document_trigger (JsString.toLowerCase msg) = true ->
  match_ document_pattern msg = None ->
  processAICommands msg a w =
    (r <- todo_intent msg (JsString.toLowerCase msg) ;;
     match r with
     | Some reply => ret reply
     | None => ret a
     end) w
  /\ notepad (snd (processAICommands msg a w)) = notepad w
  /\ (todo_trigger (JsString.toLowerCase msg) = false
      \/ or_else (match_ todo_pattern msg) (match_ remind_pattern msg) = None ->
      processAICommands msg a w = (Returned a, w)).
Proof.
  intros _ Hno. split; [|split].
  - apply processAICommands_without_document. by right.
  - rewrite processAICommands_without_document by (by right).
    unfold bind.
    pose proof (todo_intent_keeps_notepad msg (JsString.toLowerCase msg) w) as Hk.
    by destruct (todo_intent _ _ w) as [[[r|]|err] w'].
  - intros Htodo. apply processAICommands_no_intent; [by right | done].
Qed.

(** C5. For a fixed message and world, two AI replies lead to the same
    world, so to the same Document or TodoItem with the same fields or
    to none; and the two calls end alike, unless no intent matched, in
    which case each returns its own reply verbatim and the world is
    untouched. *)
Theorem reply_does_not_steer (msg a1 a2 : string) (w : World) :
  snd (processAICommands msg a1 w) = snd (processAICommands msg a2 w)
  /\ (fst (processAICommands msg a1 w) = fst (processAICommands msg a2 w)
      \/ (processAICommands msg a1 w = (Returned a1, w)
          /\ processAICommands msg a2 w = (Returned a2, w)))
  /\ ((document_trigger (JsString.toLowerCase msg) = false
       \/ match_ document_pattern msg = None) ->
      (todo_trigger (JsString.toLowerCase msg) = false
       \/ or_else (match_ todo_pattern msg) (match_ remind_pattern msg) = None) ->
      processAICommands msg a1 w = (Returned a1, w)).
Proof.
  split; [|split].
  - unfold processAICommands, bind.
    destruct (document_intent _ _ w) as [[[r|]|err] w1]; try done.
    by destruct (todo_intent _ _ w1) as [[[r|]|err] w2].
  - unfold processAICommands, document_intent, todo_intent.
    destruct (document_trigger _).
    + destruct (match_ document_pattern msg) as [cap|].
      * left. unfold bind.
        by destruct (group1_trim cap w) as [[t|err] w1];
          [destruct (createDocument t "" w1) as [[d|err] w2]|].
      * destruct (todo_trigger _); [|by right].
        destruct (or_else _ _) as [cap|]; [|by right].
        left. unfold bind. simpl.
        by destruct (group1_trim cap w) as [[t|err] w1];
          [destruct (createTodo t _ w1) as [[d|err] w2]|].
    + destruct (todo_trigger _); [|by right].
      destruct (or_else _ _) as [cap|]; [|by right].
      left. unfold bind. simpl.
      by destruct (group1_trim cap w) as [[t|err] w1];
        [destruct (createTodo t _ w1) as [[d|err] w2]|].
  - apply processAICommands_no_intent.
Qed.

End Extractor.

Section TodoIntent.
Import RegExp ExcelStorage App.
Context `{Platform}.
Local Open Scope js_scope.


(** The first pattern also stops at an apostrophe inside an unquoted
    text, which the second pattern keeps. *)
Lemma apostrophe_cuts_todo_text :
  let w := world_of (fresh ∅) 1700000000000 in
  fst (@processAICommands Browser.platform "add todo buy Bob's gift" "Sure." w)
    = Returned (todo_reply "buy Bob" medium)
  /\ fst (@processAICommands Browser.platform "remind me to buy Bob's gift" "Sure." w)
     = Returned (todo_reply "buy Bob's gift" medium).
Proof. vm_compute. split; reflexivity. Qed.

(** The turn when the todo intent fires with the capture [c]. *)
Lemma todo_intent_run (msg a c : string) (w : World) :
  document_trigger (JsString.toLowerCase msg) = false
  \/ match_ document_pattern msg = None ->
  todo_trigger (JsString.toLowerCase msg) = true ->
  or_else (match_ todo_pattern msg) (match_ remind_pattern msg) = Some (Some c) ->
  let priority := infer_priority (JsString.toLowerCase msg) in
  processAICommands msg a w =
    (storage (saveTodo {| todo_id := toString (clock w);
                          todo_content := JsString.trim c;
                          todo_status := pending;
                          todo_priority := priority;
                          todo_createdAt := Some (clock w);
                          todo_updatedAt := Some (clock w) |}) ;;;
     ret (todo_reply (JsString.trim c) priority)) w.
Proof.
  intros Hdoc Htrig Hmatch priority.
  rewrite processAICommands_without_document by done.
  unfold todo_intent. rewrite Htrig, Hmatch.
  cbv beta iota zeta delta [bind group1_trim ret createTodo Date_now storage zoom].
  fold priority.
  by destruct (saveTodo _ (storageService w)) as [[[]|err] e'].
Qed.



End TodoIntent.

(** ** The properties at work in the browser *)

Section Runs.
Import RegExp ExcelStorage App.

Lemma browser_storage_lawful : @lawful_storage Browser.platform.
Proof. intros k v ls ls' Hset. injection Hset as <-. reflexivity. Defined.

(** The round trip of an edited note over the stocked store. *)
Lemma saveDocument_then_getDocument_witness :
  is_Some (@persisted Browser.platform stocked_env)
  /\ @iso_faithful Browser.platform (doc_createdAt edited_note)
  /\ @iso_faithful Browser.platform (doc_updatedAt edited_note)
  /\ exists e',
       @saveDocument Browser.platform edited_note stocked_env = (Returned tt, e')
       /\ @getDocument Browser.platform (doc_id edited_note) e'
          = (Returned (Some edited_note), e').
Proof.
  assert (Hp : is_Some (@persisted Browser.platform stocked_env))
    by (eexists; vm_compute; reflexivity).
  assert (Hc : @iso_faithful Browser.platform (doc_createdAt edited_note))
    by (eexists; split; [reflexivity | vm_compute; reflexivity]).
  assert (Hu : @iso_faithful Browser.platform (doc_updatedAt edited_note))
    by (eexists; split; [reflexivity | vm_compute; reflexivity]).
  split; [exact Hp|]. split; [exact Hc|]. split; [exact Hu|].
  apply (@saveDocument_then_getDocument Browser.platform stocked_env edited_note
           Hp Hc Hu).
  - split; vm_compute; reflexivity.
  - vm_compute. reflexivity.
Defined.

Lemma read_of_corrupt_blob_throws_witness :
  let w := world_of corrupt_env 1700000000000 in
  @getAllDocuments Browser.platform corrupt_env = (Thrown SyntaxError, corrupt_env)
  /\ fst (@loadDocuments Browser.platform w) = Returned tt.
Proof.
  destruct (@read_of_corrupt_blob_throws Browser.platform
              (world_of corrupt_env 1700000000000) "{not json" "1" "plan"
              eq_refl eq_refl eq_refl) as (_ & Hall & _ & _ & Hload).
  split; [exact Hall|]. simpl. rewrite Hload. reflexivity.
Defined.


Lemma document_fallback_runs_todo_intent_witness :
  let w := world_of (fresh ∅) 1700000000000 in
  let msg := "remind me to create document" in
  document_trigger (JsString.toLowerCase msg) = true
  /\ match_ document_pattern msg = None
  /\ notepad (snd (@processAICommands Browser.platform msg "Sure." w)) = notepad w.
Proof.
  split; [reflexivity|]. split; [reflexivity|].
  apply (@document_fallback_runs_todo_intent Browser.platform
           "remind me to create document" "Sure."
           (world_of (fresh ∅) 1700000000000) eq_refl eq_refl).
Defined.


Lemma document_and_todo_operations_frame_witness :
  is_Some (@blob Browser.platform stocked_env)
  /\ todos <$> @blob Browser.platform
                 (snd (@saveDocument Browser.platform edited_note stocked_env))
     = todos <$> @blob Browser.platform stocked_env
  /\ todos <$> @blob Browser.platform
                 (snd (@deleteDocument Browser.platform "1700000000123" stocked_env))
     = todos <$> @blob Browser.platform stocked_env
  /\ documents <$> @blob Browser.platform
                     (snd (@saveTodo Browser.platform dentist_called stocked_env))
     = documents <$> @blob Browser.platform stocked_env
  /\ documents <$> @blob Browser.platform
                     (snd (@deleteTodo Browser.platform "1700000000500" stocked_env))
     = documents <$> @blob Browser.platform stocked_env
  /\ todos <$> @blob Browser.platform
                 (snd (@deleteTodo Browser.platform "1700000000500" stocked_env))
     = Some [].
Proof.
  assert (Hb : is_Some (@blob Browser.platform stocked_env))
    by (eexists; vm_compute; reflexivity).
  destruct (@document_and_todo_operations_frame Browser.platform stocked_env
              edited_note dentist_called "1700000000123" "1700000000500"
              browser_storage_lawful) as [Hframe _];
    [split; vm_compute; reflexivity ..|].
  destruct (Hframe Hb) as (Hsd & Hdd & Hst & Hdt).
  split; [exact Hb|]. split; [exact Hsd|]. split; [exact Hdd|].
  split; [exact Hst|]. split; [exact Hdt|]. vm_compute. reflexivity.
Defined.

End Runs.

(** * Further properties *)

(** ** The reducer: what it keeps, how its actions compose *)

Section ReducerInvariants.
Import Notepad NotepadInv.

Lemma update_keeps_ids (now : Z) (id title content : string) (l : list Document) :
  map doc_id
    (map (fun doc =>
            if String.eqb (doc_id doc) id
            then {| doc_id := doc_id doc; doc_title := title; doc_content := content;
                    doc_createdAt := doc_createdAt doc; doc_updatedAt := Some now;
                    doc_tags := doc_tags doc |}
            else doc) l) = map doc_id l.
Proof.
  induction l as [|x l IH]; simpl; [done|].
  rewrite IH. by destruct (String.eqb (doc_id x) id).
Qed.

Lemma filter_ids_sublist (p : Document -> bool) (l : list Document) :
  sublist (map doc_id (List.filter p l)) (map doc_id l).
Proof. apply (fmap_sublist doc_id), filter_keeps_order. Qed.

(** X1. The reducer keeps the ids of the collection distinct, for every
    action, provided a document added brings an id not yet in use and a
    collection set wholesale has distinct ids: the reducer itself never
    checks either. *)
Theorem reducer_keeps_ids_distinct
    (now : Z) (state : NotepadState) (action : NotepadAction) :
  NoDup (ids state) ->
  brings_distinct_ids state action ->
  NoDup (ids (notepadReducer now state action)).
Proof.
  unfold ids. intros Hnd Hact. destruct action; simpl in *; try done.
  - rewrite map_app. simpl. apply NoDup_app. split; [done|].
    split; [|apply NoDup_singleton].
    intros x Hx Hin. apply list_elem_of_singleton in Hin as ->.
    apply Hact. by apply list_elem_of_In.
  - by rewrite update_keeps_ids.
  - exact (sublist_NoDup _ _ Hnd (filter_ids_sublist _ _)).
Qed.

(** X2. The reducer never leaves the active id pointing at a document
    that is gone: if the active id named a document of the collection, it
    still does after every action, provided an id selected is one of the
    collection and a collection set wholesale holds the active id. *)
Theorem reducer_keeps_active_in_collection
    (now : Z) (state : NotepadState) (action : NotepadAction) :
  active_in_collection state ->
  brings_active_id state action ->
  active_in_collection (notepadReducer now state action).
Proof.
  unfold active_in_collection, ids. intros Hinv Hact.
  destruct action as [l|doc|id content title|id|[a'|]| |q]; simpl in *; try done.
  - intros a Ha. rewrite map_app. apply in_or_app. left. by apply Hinv.
  - intros a Ha. rewrite update_keeps_ids. by apply Hinv.
  - intros a. destruct (active_is (activeDocumentId state) id) eqn:E; [done|].
    intros Ha. specialize (Hinv a Ha).
    apply in_map_iff in Hinv as (d & Hid & Hd).
    apply in_map_iff. exists d. split; [done|].
    apply List.filter_In. split; [done|].
    apply negb_true_iff, String.eqb_neq. intros Heq.
    assert (active_is (activeDocumentId state) id = true) as Hact'
      by (apply active_is_spec; congruence).
    congruence.
  - by intros a [= <-].
Qed.

Lemma filter_skips_fresh (id : string) (l : list Document) :
  ~ In id (map doc_id l) ->
  List.filter (fun doc => negb (String.eqb (doc_id doc) id)) l = l.
Proof.
  induction l as [|x l IH]; simpl; [done|]. intros Hno.
  destruct (String.eqb_spec (doc_id x) id) as [Heq|Hne]; simpl.
  - exfalso. apply Hno. by left.
  - rewrite IH; [done|]. intros Hin. apply Hno. by right.
Qed.

(** X3. Two UPDATE_DOCUMENT actions on the same id compose to the last
    one: title, content and updatedAt of the first are overwritten. *)
Theorem update_document_last_wins
    (now1 now2 : Z) (state : NotepadState) (id t1 c1 t2 c2 : string) :
  notepadReducer now2 (notepadReducer now1 state (UPDATE_DOCUMENT id c1 t1))
                 (UPDATE_DOCUMENT id c2 t2)
  = notepadReducer now2 state (UPDATE_DOCUMENT id c2 t2).
Proof.
  simpl. f_equal. rewrite map_map. apply map_ext. intros d.
  destruct (String.eqb (doc_id d) id) eqn:E; simpl; by rewrite E.
Qed.

(** X4. ADD_DOCUMENT followed by DELETE_DOCUMENT of the id added gives
    back the collection as it was, when that id was not in use; and the
    active id is the one before, unless it was that id, then null. *)
Theorem add_then_delete_restores
    (now1 now2 : Z) (state : NotepadState) (doc : Document) :
  ~ In (doc_id doc) (ids state) ->
  let state' :=
    notepadReducer now2 (notepadReducer now1 state (ADD_DOCUMENT doc))
                   (DELETE_DOCUMENT (doc_id doc)) in
  documents state' = documents state
  /\ (activeDocumentId state <> Some (doc_id doc) -> state' = state)
  /\ (activeDocumentId state = Some (doc_id doc) -> activeDocumentId state' = None).
Proof.
  unfold ids. intros Hfresh. simpl.
  assert (Hdocs :
    List.filter (fun d => negb (String.eqb (doc_id d) (doc_id doc)))
                (documents state ++ [doc]) = documents state).
  { rewrite List.filter_app. simpl. rewrite String.eqb_refl. simpl.
    rewrite app_nil_r. by apply filter_skips_fresh. }
  rewrite Hdocs. split; [done|]. split.
  - intros Hne. destruct (active_is _ _) eqn:E.
    + apply active_is_spec in E. contradiction.
    + by destruct state.
  - intros Heq. apply active_is_spec in Heq. by rewrite Heq.
Qed.

End ReducerInvariants.

(** ** The adapter: order, deletion, repeated saves, failures *)

Section AdapterOperations.
Import ExcelStorage.
Context `{Platform}.

(** What the reads return once the record set held is known. *)
Lemma getAllDocuments_run (e : Env) (d : StoreData) :
  persisted e = Some d ->
  getAllDocuments e =
    (Returned (map document_of_row (documents d)),
     {| this_data := d; localStorage := localStorage e |}).
Proof.
  intros Hd. unfold getAllDocuments, bind. by rewrite (loadData_persisted _ _ Hd).
Qed.

Lemma getDocument_run (e : Env) (d : StoreData) (id : string) :
  persisted e = Some d ->
  getDocument id e =
    (Returned (document_of_row <$>
                 List.find (fun doc => String.eqb (row_id doc) id) (documents d)),
     {| this_data := d; localStorage := localStorage e |}).
Proof.
  intros Hd. unfold getDocument, bind. rewrite (loadData_persisted _ _ Hd).
  by destruct (List.find _ _).
Qed.

Lemma getAllTodos_run (e : Env) (d : StoreData) :
  persisted e = Some d ->
  getAllTodos e =
    (Returned (map todo_of_row (todos d)),
     {| this_data := d; localStorage := localStorage e |}).
Proof.
  intros Hd. unfold getAllTodos, bind. by rewrite (loadData_persisted _ _ Hd).
Qed.

(** A write the storage takes. *)
Lemma written_accepted (d : StoreData) (ls : gmap string string) :
  accepts d ls ->
  written d ls =
    (Returned tt, {| this_data := d;
                     localStorage := <[STORAGE_KEY := JSON_stringify d]> ls |}).
Proof. intros Hacc. unfold written. by rewrite Hacc. Qed.

(** The document a faithful date format reads back from the row written
    for it. *)
Lemma document_of_written_row (doc : Document) (c u : Z) :
  doc_createdAt doc = Some c -> doc_updatedAt doc = Some u ->
  Date_parse (toISOString c) = Some c -> Date_parse (toISOString u) = Some u ->
  document_of_row
    {| row_id := doc_id doc; row_title := doc_title doc;
       row_content := doc_content doc; row_tags := doc_tags doc;
       row_createdAt := toISOString c; row_updatedAt := toISOString u |} = doc.
Proof.
  intros Hc Hu Hci Hui. unfold document_of_row. simpl. rewrite Hci, Hui.
  destruct doc; simpl in *; by subst.
Qed.

(** X5. After a save that the storage takes, getAllDocuments returns the
    documents it returned before with the saved one put in place of the
    first document of the same id, at that position, or else added at
    the end: the order of insertion is kept and nothing else moves. *)
Theorem saveDocument_replaces_in_place_or_appends
    (e : Env) (doc : Document) (d : StoreData) :
  persisted e = Some d ->
  iso_faithful (doc_createdAt doc) ->
  iso_faithful (doc_updatedAt doc) ->
  json_faithful (this_data (snd (saveDocument doc e))) ->
  accepts (this_data (snd (saveDocument doc e))) (localStorage e) ->
  let before := map document_of_row (documents d) in
  fst (getAllDocuments e) = Returned before
  /\ fst (getAllDocuments (snd (saveDocument doc e))) =
       Returned
         match JsArray.find_index
                 (fun r => String.eqb (row_id r) (doc_id doc)) (documents d) with
         | Some i => <[i := doc]> before
         | None => (before ++ [doc])%list
         end.
Proof.
  intros Hd (c & Hc & Hci) (u & Hu & Hui).
  rewrite (saveDocument_run e doc d c u Hd Hc Hu), written_data.
  intros Hjson Hacc before.
  split; [by rewrite (getAllDocuments_run _ _ Hd)|].
  rewrite (written_accepted _ _ Hacc). simpl.
  rewrite (getAllDocuments_run _ (with_document doc c u d))
    by (by apply persisted_written).
  simpl. f_equal. unfold JsArray.findIndex, JsArray.set_at, JsArray.push.
  destruct (JsArray.find_index _ (documents d)) as [i|].
  - replace (0 <=? Z.of_nat i)%Z with true by (symmetry; apply Z.leb_le; lia).
    rewrite Nat2Z.id.
    change (map document_of_row ?l) with (document_of_row <$> l).
    rewrite list_fmap_insert. f_equal. by apply document_of_written_row.
  - simpl. rewrite map_app. simpl. f_equal. f_equal.
    by apply document_of_written_row.
Qed.

Lemma find_after_delete (id id' : string) (l : list DocRow) :
  List.find (fun doc => String.eqb (row_id doc) id')
            (List.filter (fun doc => negb (String.eqb (row_id doc) id)) l)
  = if String.eqb id' id then None
    else List.find (fun doc => String.eqb (row_id doc) id') l.
Proof.
  induction l as [|x l IH]; simpl; [by destruct (String.eqb id' id)|].
  destruct (String.eqb_spec (row_id x) id) as [Hx|Hx]; simpl.
  - rewrite IH. destruct (String.eqb_spec id' id) as [->|Hne]; [done|].
    destruct (String.eqb_spec (row_id x) id') as [Hx'|_]; [congruence|done].
  - destruct (String.eqb_spec (row_id x) id') as [Hx'|Hx'].
    + destruct (String.eqb_spec id' id) as [->|_]; [congruence|done].
    + exact IH.
Qed.

(** X6. After a deleteDocument(id) that the storage takes, getDocument(id)
    finds nothing, whether or not the id was stored, and every other id
    is read as it was before. *)
Theorem deleteDocument_then_getDocument (e : Env) (id id' : string) :
  is_Some (persisted e) ->
  json_faithful (this_data (snd (deleteDocument id e))) ->
  accepts (this_data (snd (deleteDocument id e))) (localStorage e) ->
  let e' := snd (deleteDocument id e) in
  fst (deleteDocument id e) = Returned tt
  /\ fst (getDocument id e') = Returned None
  /\ (id' <> id -> fst (getDocument id' e') = fst (getDocument id' e)).
Proof.
  intros [d Hd]. rewrite (deleteDocument_run e id d Hd), written_data.
  set (d' := {| documents := _; todos := todos d |}).
  intros Hjson Hacc. rewrite (written_accepted _ _ Hacc). simpl.
  split; [done|].
  pose proof (persisted_written d' d' (localStorage e) Hjson) as Hp.
  split.
  - rewrite (getDocument_run _ _ id Hp). simpl.
    by rewrite find_after_delete, String.eqb_refl.
  - intros Hne. rewrite (getDocument_run _ _ id' Hp), (getDocument_run _ _ id' Hd).
    simpl. rewrite find_after_delete.
    by apply String.eqb_neq in Hne as ->.
Qed.

End AdapterOperations.

Section ArrayUpsert.
Context {A : Type} (p : A -> bool).

(** [find] returns the element at the index [findIndex] returns. *)
Lemma find_index_find (l : list A) :
  List.find p l = JsArray.find_index p l ≫= (l !!.).
Proof.
  induction l as [|x l IH]; simpl; [done|].
  destruct (p x); [done|]. rewrite IH.
  by destruct (JsArray.find_index p l).
Qed.

(** Writing the same element a second time changes nothing. *)
Lemma upsert_twice (l : list A) (y : A) :
  p y = true ->
  let l' := if (0 <=? JsArray.findIndex p l)%Z
            then JsArray.set_at (JsArray.findIndex p l) y l
            else JsArray.push y l in
  (if (0 <=? JsArray.findIndex p l')%Z
   then JsArray.set_at (JsArray.findIndex p l') y l'
   else JsArray.push y l') = l'.
Proof.
  intros Hy l'. pose proof (find_after_upsert p l y Hy) as Hfind.
  fold l' in Hfind. rewrite find_index_find in Hfind.
  unfold JsArray.findIndex, JsArray.set_at.
  destruct (JsArray.find_index p l') as [i|]; [|done]. simpl in Hfind.
  replace (0 <=? Z.of_nat i)%Z with true by (symmetry; apply Z.leb_le; lia).
  rewrite Nat2Z.id. by apply list_insert_id.
Qed.

Lemma find_index_none (l : list A) :
  (forall x, In x l -> p x = false) -> JsArray.find_index p l = None.
Proof.
  induction l as [|x l IH]; intros Hno; simpl; [done|].
  rewrite (Hno x) by (by left). rewrite IH; [done|].
  intros y Hy. apply Hno. by right.
Qed.

Lemma filter_all (l : list A) :
  (forall x, In x l -> p x = true) -> List.filter p l = l.
Proof.
  induction l as [|x l IH]; intros Hall; simpl; [done|].
  rewrite (Hall x) by (by left). rewrite IH; [done|].
  intros y Hy. apply Hall. by right.
Qed.

End ArrayUpsert.

Section AdapterRepeats.
Import ExcelStorage.
Context `{Platform}.

Lemma with_document_twice (doc : Document) (c u : Z) (d : StoreData) :
  with_document doc c u (with_document doc c u d) = with_document doc c u d.
Proof.
  unfold with_document. cbn [documents todos]. f_equal.
  apply (upsert_twice (fun r => String.eqb (row_id r) (doc_id doc))).
  simpl. apply String.eqb_refl.
Qed.

(** X7. Saving the same document a second time changes nothing: after a
    save the storage took, a repeated saveDocument of that document
    returns and leaves the cache and the blob exactly as they are, so the
    collection does not grow. *)
Theorem saveDocument_again_changes_nothing (e : Env) (doc : Document) :
  is_Some (persisted e) ->
  is_Some (doc_createdAt doc) ->
  is_Some (doc_updatedAt doc) ->
  let e1 := snd (saveDocument doc e) in
  json_faithful (this_data e1) ->
  accepts (this_data e1) (localStorage e) ->
  accepts (this_data e1) (localStorage e1) ->
  saveDocument doc e = (Returned tt, e1)
  /\ saveDocument doc e1 = (Returned tt, e1).
Proof.
  intros [d Hd] [c Hc] [u Hu]. simpl.
  rewrite (saveDocument_run e doc d c u Hd Hc Hu), written_data.
  intros Hjson Hacc. rewrite (written_accepted _ _ Hacc). simpl.
  intros Hacc1. split; [done|].
  rewrite (saveDocument_run _ doc (with_document doc c u d) c u)
    by (by apply persisted_written || done).
  rewrite with_document_twice. simpl.
  rewrite (written_accepted _ _ Hacc1). by rewrite insert_insert_eq.
Qed.

(** X8. A stored record whose createdAt or updatedAt text the Date
    constructor cannot read comes back from getDocument as a document
    with an invalid date, and that document can not be saved again: on
    any readable store saveDocument throws the RangeError of toISOString
    and writes nothing. *)
Theorem unreadable_date_blocks_saving
    (e : Env) (d : StoreData) (id : string) (r : DocRow) :
  persisted e = Some d ->
  List.find (fun doc => String.eqb (row_id doc) id) (documents d) = Some r ->
  Date_parse (row_createdAt r) = None \/ Date_parse (row_updatedAt r) = None ->
  exists doc,
    fst (getDocument id e) = Returned (Some doc)
    /\ doc_title doc = row_title r /\ doc_content doc = row_content r
    /\ forall e0, is_Some (persisted e0) ->
         fst (saveDocument doc e0) = Thrown RangeError
         /\ localStorage (snd (saveDocument doc e0)) = localStorage e0.
Proof.
  intros Hd Hfind Hbad. exists (document_of_row r).
  rewrite (getDocument_run _ _ id Hd), Hfind. simpl.
  split; [done|]. split; [done|]. split; [done|].
  intros e0 [d0 Hd0]. unfold saveDocument, bind.
  rewrite (loadData_persisted _ _ Hd0). simpl.
  destruct Hbad as [-> | Hu]; [done|].
  destruct (Date_parse (row_createdAt r)); simpl; by rewrite ?Hu.
Qed.

(** X9. A save whose write throws is lost or not according to what the
    storage holds: with no blob stored the adapter goes on reading its
    cache, so getDocument returns the document that was never written;
    with a blob stored every read is what it was before the save. *)
Theorem failed_save_is_read_from_cache_only
    (e : Env) (doc : Document) (err : JsError) :
  is_Some (persisted e) ->
  iso_faithful (doc_createdAt doc) ->
  iso_faithful (doc_updatedAt doc) ->
  setItem STORAGE_KEY (JSON_stringify (this_data (snd (saveDocument doc e))))
          (localStorage e) = Thrown err ->
  let e' := snd (saveDocument doc e) in
  fst (saveDocument doc e) = Thrown err
  /\ localStorage e' = localStorage e
  /\ (localStorage e !! STORAGE_KEY = None ->
      fst (getDocument (doc_id doc) e') = Returned (Some doc))
  /\ (forall stored id,
        localStorage e !! STORAGE_KEY = Some stored ->
        JsString.truthy stored = true ->
        fst (getDocument id e') = fst (getDocument id e)).
Proof.
  intros [d Hd] (c & Hc & Hci) (u & Hu & Hui).
  rewrite (saveDocument_run e doc d c u Hd Hc Hu), written_data.
  intros Hset. unfold written. rewrite Hset. simpl.
  split; [done|]. split; [done|]. split.
  - intros Hnone.
    rewrite (getDocument_run _ (with_document doc c u d)).
    + cbn [fst]. unfold with_document. cbn [documents].
      rewrite find_after_upsert by (simpl; apply String.eqb_refl).
      simpl. f_equal. f_equal. by apply document_of_written_row.
    + rewrite persisted_unfold. simpl. by rewrite Hnone.
  - intros stored id Hstored Htruthy.
    assert (Hp : persisted {| this_data := with_document doc c u d;
                              localStorage := localStorage e |} = Some d).
    { rewrite persisted_unfold in Hd |- *. simpl.
      by rewrite Hstored, Htruthy in Hd |- *. }
    by rewrite (getDocument_run _ d id Hp), (getDocument_run _ d id Hd).
Qed.

(** X10. Deleting an id that is not stored is not an error: on a store
    that takes the write deleteDocument returns and the record set the
    adapter reads afterwards is the one it read before, todos included. *)
Theorem deleteDocument_absent_is_noop (e : Env) (d : StoreData) (id : string) :
  persisted e = Some d ->
  (forall r, In r (documents d) -> row_id r <> id) ->
  json_faithful d ->
  accepts d (localStorage e) ->
  exists e',
    deleteDocument id e = (Returned tt, e')
    /\ this_data e' = d
    /\ persisted e' = Some d.
Proof.
  intros Hd Habsent Hjson Hacc.
  rewrite (deleteDocument_run e id d Hd).
  rewrite filter_all.
  - replace {| documents := documents d; todos := todos d |} with d
      by (by destruct d).
    rewrite (written_accepted _ _ Hacc). eexists. split; [done|].
    split; [done|]. by apply persisted_written.
  - intros r Hr. apply negb_true_iff, String.eqb_neq. by apply Habsent.
Qed.

End AdapterRepeats.

(** ** Searching and the todo reads *)

Section StringFacts.

Lemma lower_char_idem (c : ascii) :
  JsString.lower_char (JsString.lower_char c) = JsString.lower_char c.
Proof.
  destruct c as [b0 b1 b2 b3 b4 b5 b6 b7].
  destruct b0, b1, b2, b3, b4, b5, b6, b7; reflexivity.
Qed.

Lemma toLowerCase_idem (s : string) :
  JsString.toLowerCase (JsString.toLowerCase s) = JsString.toLowerCase s.
Proof.
  induction s as [|c s IH]; simpl; [done|]. by rewrite lower_char_idem, IH.
Qed.

Lemma includes_empty (s : string) : JsString.includes s "" = true.
Proof. by destruct s. Qed.

End StringFacts.

Section Search.
Import ExcelStorage.
Context `{Platform}.

(** X11. searchDocuments with the empty query is getAllDocuments; the
    case of the query does not matter; and whenever getAllDocuments
    returns, searchDocuments returns a selection of those documents, in
    their order, that holds every document whose title contains the
    query with the case of both ignored. *)
Theorem searchDocuments_selects (e : Env) (query : string) :
  searchDocuments "" e = getAllDocuments e
  /\ searchDocuments (JsString.toLowerCase query) e = searchDocuments query e
  /\ forall all e',
       getAllDocuments e = (Returned all, e') ->
       exists found,
         searchDocuments query e = (Returned found, e')
         /\ sublist found all
         /\ forall doc,
              In doc all ->
              JsString.includes (JsString.toLowerCase (doc_title doc))
                                (JsString.toLowerCase query) = true ->
              In doc found.
Proof.
  unfold searchDocuments, bind. split; [|split].
  - destruct (getAllDocuments e) as [[all|err] e']; [|done].
    unfold ret. f_equal. f_equal. apply filter_all.
    intros doc _. simpl. by rewrite includes_empty.
  - by rewrite toLowerCase_idem.
  - intros all e' ->. eexists. split; [reflexivity|].
    split; [apply filter_keeps_order|].
    intros doc Hin Htitle. apply List.filter_In. split; [done|].
    by rewrite Htitle.
Qed.

(** X12. After a saveTodo that the storage takes, getAllTodos returns
    the todos it returned before with the saved one put in place of the
    first todo of the same id, or else added at the end. *)
Theorem saveTodo_then_getAllTodos (e : Env) (todo : TodoItem) (d : StoreData) :
  persisted e = Some d ->
  iso_faithful (todo_createdAt todo) ->
  iso_faithful (todo_updatedAt todo) ->
  json_faithful (this_data (snd (saveTodo todo e))) ->
  accepts (this_data (snd (saveTodo todo e))) (localStorage e) ->
  let before := map todo_of_row (todos d) in
  fst (getAllTodos e) = Returned before
  /\ fst (getAllTodos (snd (saveTodo todo e))) =
       Returned
         match JsArray.find_index
                 (fun r => String.eqb (trow_id r) (todo_id todo)) (todos d) with
         | Some i => <[i := todo]> before
         | None => (before ++ [todo])%list
         end.
Proof.
  intros Hd (c & Hc & Hci) (u & Hu & Hui).
  rewrite (saveTodo_run e todo d c u Hd Hc Hu), written_data.
  intros Hjson Hacc before.
  split; [by rewrite (getAllTodos_run _ _ Hd)|].
  rewrite (written_accepted _ _ Hacc). simpl.
  rewrite (getAllTodos_run _ (with_todo todo c u d))
    by (by apply persisted_written).
  assert (Hrow : todo_of_row (row_of_todo todo c u) = todo).
  { unfold todo_of_row, row_of_todo. simpl. rewrite Hci, Hui.
    destruct todo; simpl in *; by subst. }
  simpl. f_equal. unfold JsArray.findIndex, JsArray.set_at, JsArray.push.
  destruct (JsArray.find_index _ (todos d)) as [i|].
  - replace (0 <=? Z.of_nat i)%Z with true by (symmetry; apply Z.leb_le; lia).
    rewrite Nat2Z.id.
    change (map todo_of_row ?l) with (todo_of_row <$> l).
    rewrite list_fmap_insert. by rewrite Hrow.
  - simpl. rewrite map_app. simpl. by rewrite Hrow.
Qed.

End Search.

(** ** The components: reducer and store together *)

Section ComponentFacts.
Import ExcelStorage App Views.
Context `{Platform}.
Local Open Scope js_scope.

(** X13. createDocument of the chat dispatches ADD_DOCUMENT before it
    saves: when saveDocument throws, createDocument throws the same error
    with nothing logged, and the collection already holds the document
    that was not stored. *)
Theorem createDocument_dispatches_before_saving
    (title content : string) (w : World) (err : JsError) :
  let newDocument :=
    {| doc_id := toString (clock w); doc_title := title; doc_content := content;
       doc_createdAt := Some (clock w); doc_updatedAt := Some (clock w);
       doc_tags := [] |} in
  fst (saveDocument newDocument (storageService w)) = Thrown err ->
  fst (createDocument title content w) = Thrown err
  /\ Notepad.documents (notepad (snd (createDocument title content w)))
     = (Notepad.documents (notepad w) ++ [newDocument])%list
  /\ console (snd (createDocument title content w)) = console w.
Proof.
  intros newDocument Hthrown.
  cbv beta iota zeta delta [createDocument bind ret Date_now dispatch storage zoom].
  cbn [storageService set_notepad]. fold newDocument.
  destruct (saveDocument newDocument (storageService w)) as [[[]|err'] e'];
    simpl in *; [discriminate|].
  by injection Hthrown as ->.
Qed.

(** X14. The sidebar changes the collection only when the store
    followed: handleCreateDocument and handleDeleteDocument always
    return; when the adapter returned, the document is added and active,
    or removed; when it threw, the reducer state is untouched and the
    error is logged. *)
Theorem sidebar_handlers_all_or_nothing (w : World) (id : string) :
  let newDoc :=
    {| doc_id := toString (clock w); doc_title := "Untitled Document";
       doc_content := ""; doc_createdAt := Some (clock w);
       doc_updatedAt := Some (clock w); doc_tags := [] |} in
  let created := handleCreateDocument w in
  let deleted := handleDeleteDocument id w in
  fst created = Returned tt
  /\ fst deleted = Returned tt
  /\ (fst (saveDocument newDoc (storageService w)) = Returned tt ->
      Notepad.documents (notepad (snd created))
        = (Notepad.documents (notepad w) ++ [newDoc])%list
      /\ Notepad.activeDocumentId (notepad (snd created)) = Some (doc_id newDoc)
      /\ console (snd created) = console w)
  /\ (forall err,
        fst (saveDocument newDoc (storageService w)) = Thrown err ->
        notepad (snd created) = notepad w
        /\ console (snd created)
           = (console w ++ [("Failed to create document:", err)])%list)
  /\ (fst (deleteDocument id (storageService w)) = Returned tt ->
      notepad (snd deleted)
        = Notepad.notepadReducer (clock w) (notepad w) (Notepad.DELETE_DOCUMENT id)
      /\ console (snd deleted) = console w)
  /\ (forall err,
        fst (deleteDocument id (storageService w)) = Thrown err ->
        notepad (snd deleted) = notepad w
        /\ console (snd deleted)
           = (console w ++ [("Failed to delete document:", err)])%list).
Proof.
  intros newDoc created deleted. subst created deleted.
  cbv beta iota zeta delta
    [handleCreateDocument handleDeleteDocument try_catch bind ret Date_now
     dispatch storage zoom console_error modify].
  cbn [storageService set_notepad clock notepad]. fold newDoc.
  destruct (saveDocument newDoc (storageService w)) as [[[]|e1] s1];
    destruct (deleteDocument id (storageService w)) as [[[]|e2] s2];
    simpl; repeat split; try done; intros; simplify_eq; done.
Qed.

(** X15. The initial load on a store that can be read: loadDocuments
    returns, logs nothing, and the collection is what getAllDocuments
    returns; an active id that is set stays, and when none was set the
    first document loaded becomes active, so that the active id then
    names a document of the collection. *)
Theorem loadDocuments_sets_collection (w : World) (d : StoreData) :
  persisted (storageService w) = Some d ->
  let stored := map document_of_row (documents d) in
  let w' := snd (loadDocuments w) in
  fst (loadDocuments w) = Returned tt
  /\ Notepad.documents (notepad w') = stored
  /\ console w' = console w
  /\ (falsy_id (Notepad.activeDocumentId (notepad w)) = false ->
      Notepad.activeDocumentId (notepad w') = Notepad.activeDocumentId (notepad w))
  /\ (falsy_id (Notepad.activeDocumentId (notepad w)) = true ->
      Notepad.activeDocumentId (notepad w')
      = match stored with
        | first :: _ => Some (doc_id first)
        | [] => Notepad.activeDocumentId (notepad w)
        end)
  /\ (Notepad.activeDocumentId (notepad w) = None ->
      NotepadInv.active_in_collection (notepad w')).
Proof.
  intros Hd stored w'. subst w'.
  cbv beta iota zeta delta [loadDocuments try_catch bind ret storage zoom].
  rewrite (getAllDocuments_run _ _ Hd). fold stored.
  cbv beta iota zeta delta [dispatch]. cbn [fst snd].
  destruct stored as [|first rest] eqn:Hstored; simpl.
  - repeat split; try done. intros Hnone a. simpl. by rewrite Hnone.
  - destruct (falsy_id (Notepad.activeDocumentId (notepad w))) eqn:Hf; simpl.
    + repeat split; try done.
      intros _ a [= <-]. unfold NotepadInv.ids. simpl. by left.
    + repeat split; try done. intros Hnone. by rewrite Hnone in Hf.
Qed.

End ComponentFacts.

Section ListFacts.
Context {A B : Type}.

Lemma find_map (p : B -> bool) (f : A -> B) (q : A -> bool) (l : list A) :
  (forall x, p (f x) = q x) ->
  List.find p (map f l) = f <$> List.find q l.
Proof.
  intros Hpq. induction l as [|x l IH]; simpl; [done|].
  rewrite Hpq. by destruct (q x).
Qed.

Lemma filter_map (p : B -> bool) (f : A -> B) (q : A -> bool) (l : list A) :
  (forall x, p (f x) = q x) ->
  List.filter p (map f l) = map f (List.filter q l).
Proof.
  intros Hpq. induction l as [|x l IH]; simpl; [done|].
  rewrite Hpq, IH. by destruct (q x).
Qed.

Lemma filter_within_filter (p q : A -> bool) (l : list A) :
  (forall x, p x = true -> q x = true) ->
  sublist (List.filter p l) (List.filter q l).
Proof.
  intros Hpq. induction l as [|x l IH]; simpl; [done|].
  destruct (p x) eqn:Hp.
  - rewrite (Hpq x Hp). by apply sublist_skip.
  - destruct (q x); [by apply sublist_cons | done].
Qed.

End ListFacts.

Section EditorAndSidebar.
Import ExcelStorage App Views.
Context `{Platform}.

(** X16. A save of the editor that the storage takes reaches the reducer
    and the store alike: afterwards the active document of the state and
    the document getDocument returns for its id both carry the title and
    the content of the form, with the id, the tags and the creation date
    of the document that was active. *)
Theorem editor_save_reaches_reducer_and_store
    (w : World) (title content : string) (a : Document) :
  activeDocument (notepad w) = Some a ->
  let updatedDoc :=
    {| doc_id := doc_id a; doc_title := title; doc_content := content;
       doc_createdAt := doc_createdAt a; doc_updatedAt := Some (clock w);
       doc_tags := doc_tags a |} in
  is_Some (persisted (storageService w)) ->
  iso_faithful (doc_createdAt a) ->
  iso_faithful (Some (clock w)) ->
  json_faithful (this_data (snd (saveDocument updatedDoc (storageService w)))) ->
  accepts (this_data (snd (saveDocument updatedDoc (storageService w))))
          (localStorage (storageService w)) ->
  let w' := snd (saveActiveDocument title content w) in
  fst (saveActiveDocument title content w) = Returned tt
  /\ console w' = console w
  /\ (exists shown stored,
        activeDocument (notepad w') = Some shown
        /\ fst (getDocument (doc_id a) (storageService w')) = Returned (Some stored)
        /\ doc_id shown = doc_id a /\ doc_id stored = doc_id a
        /\ doc_title shown = title /\ doc_title stored = title
        /\ doc_content shown = content /\ doc_content stored = content
        /\ doc_tags shown = doc_tags a /\ doc_tags stored = doc_tags a
        /\ doc_createdAt shown = doc_createdAt a
        /\ doc_createdAt stored = doc_createdAt a).
Proof.
  intros Hactive updatedDoc [d Hd] (c & Hc & Hci) (u & Hu & Hui).
  rewrite (saveDocument_run _ updatedDoc d c u Hd Hc Hu), written_data.
  intros Hjson Hacc w'. subst w'.
  unfold saveActiveDocument. rewrite Hactive.
  cbv beta iota zeta delta [handleSave try_catch bind ret Date_now storage zoom].
  fold updatedDoc.
  rewrite (saveDocument_run _ updatedDoc d c u Hd Hc Hu),
          (written_accepted _ _ Hacc).
  cbv beta iota zeta delta [dispatch]. cbn [fst snd].
  split; [done|]. split; [done|].
  exists updatedDoc, updatedDoc. split; [|split].
  - unfold activeDocument. simpl.
    assert (Hid : Notepad.active_is (Notepad.activeDocumentId (notepad w))
                                    (doc_id a) = true).
    { unfold activeDocument in Hactive. by apply List.find_some in Hactive as [_ ?]. }
    rewrite (find_map _ _
               (fun doc => Notepad.active_is (Notepad.activeDocumentId (notepad w))
                                             (doc_id doc))).
    + unfold activeDocument in Hactive. rewrite Hactive. simpl.
      by rewrite String.eqb_refl.
    + intros x. by destruct (String.eqb (doc_id x) (doc_id a)).
  - cbn [storageService set_notepad set_storage].
    rewrite (getDocument_run _ (with_document updatedDoc c u d))
      by (by apply persisted_written).
    unfold with_document. cbn [documents fst].
    rewrite find_after_upsert by (simpl; apply String.eqb_refl).
    simpl. f_equal. f_equal.
    by apply (document_of_written_row updatedDoc c u).
  - done.
Qed.

(** X17. The sidebar's filter shows the whole collection for the empty
    term and otherwise a selection of it in its order; and when the
    collection is the one stored, every document the sidebar shows for a
    term is among those the adapter's search returns for that term, in
    the same order (the search also looks into the tags). *)
Theorem sidebar_filter_within_search (w : World) (term : string) (d : StoreData) :
  persisted (storageService w) = Some d ->
  Notepad.documents (notepad w) = map document_of_row (documents d) ->
  filteredDocuments (notepad w) "" = Notepad.documents (notepad w)
  /\ sublist (filteredDocuments (notepad w) term) (Notepad.documents (notepad w))
  /\ exists found,
       fst (searchDocuments term (storageService w)) = Returned found
       /\ sublist (filteredDocuments (notepad w) term) found.
Proof.
  intros Hd Hsame. unfold filteredDocuments. split; [|split].
  - apply filter_all. intros doc _. simpl. by rewrite includes_empty.
  - apply filter_keeps_order.
  - unfold searchDocuments, bind. rewrite (getAllDocuments_run _ _ Hd).
    eexists. split; [reflexivity|]. rewrite Hsame.
    apply filter_within_filter. intros doc Hdoc.
    apply orb_true_iff in Hdoc as [-> | ->]; [done|].
    by rewrite orb_true_r.
Qed.

End EditorAndSidebar.

(** ** The todo list: the list shown and the list stored *)

Section KeyedLists.
Context {A : Type} (key : A -> string).

Lemma replace_absent (id : string) (y : A) (l : list A) :
  ~ In id (map key l) ->
  map (fun x => if String.eqb (key x) id then y else x) l = l.
Proof.
  induction l as [|x l IH]; simpl; [done|]. intros Hno.
  destruct (String.eqb_spec (key x) id) as [Heq|_].
  - exfalso. apply Hno. by left.
  - rewrite IH; [done|]. intros Hin. apply Hno. by right.
Qed.

(** With distinct keys, replacing every element of a key is replacing
    the first. *)
Lemma replace_all_is_insert (id : string) (y : A) (l : list A) (i : nat) :
  NoDup (map key l) ->
  JsArray.find_index (fun x => String.eqb (key x) id) l = Some i ->
  map (fun x => if String.eqb (key x) id then y else x) l = <[i:=y]> l.
Proof.
  revert i. induction l as [|x l IH]; intros i Hnd Hi; simpl in *; [done|].
  apply NoDup_cons in Hnd as [Hx Hnd].
  destruct (String.eqb_spec (key x) id) as [Heq|Hne].
  - injection Hi as <-. simpl. f_equal. apply replace_absent.
    rewrite <- Heq. by rewrite <- list_elem_of_In.
  - destruct (JsArray.find_index _ l) as [j|] eqn:Hj; [|done].
    injection Hi as <-. simpl. f_equal. by apply IH.
Qed.

End KeyedLists.

Section FindIndexMap.
Context {A B : Type}.

Lemma find_index_map (p : B -> bool) (f : A -> B) (q : A -> bool) (l : list A) :
  (forall x, p (f x) = q x) ->
  JsArray.find_index p (map f l) = JsArray.find_index q l.
Proof.
  intros Hpq. induction l as [|x l IH]; simpl; [done|].
  rewrite Hpq, IH. by destruct (q x).
Qed.

End FindIndexMap.

Section TodoListFacts.
Import ExcelStorage App.
Context `{Platform}.

Lemma in_sync_inv (s : TodoList.State) :
  TodoList.in_sync s ->
  exists d, persisted (storageService (TodoList.app s)) = Some d
            /\ TodoList.todos s = map todo_of_row (todos d).
Proof.
  unfold TodoList.in_sync, getAllTodos, bind. intros Hsync.
  destruct (loadData_inv (storageService (TodoList.app s))) as [[Hl _]|(d & Hl & Hp)];
    rewrite Hl in Hsync; simpl in Hsync; [done|].
  exists d. split; [done|]. by injection Hsync.
Qed.

(** The todos read after the record set built by a save was written. *)
Lemma todos_with_todo (todo : TodoItem) (c u : Z) (d : StoreData) :
  todo_createdAt todo = Some c -> todo_updatedAt todo = Some u ->
  Date_parse (toISOString c) = Some c -> Date_parse (toISOString u) = Some u ->
  map todo_of_row (todos (with_todo todo c u d)) =
    match JsArray.find_index
            (fun t => String.eqb (todo_id t) (todo_id todo))
            (map todo_of_row (todos d)) with
    | Some i => <[i := todo]> (map todo_of_row (todos d))
    | None => (map todo_of_row (todos d) ++ [todo])%list
    end.
Proof.
  intros Hc Hu Hci Hui.
  assert (Hrow : todo_of_row (row_of_todo todo c u) = todo).
  { unfold todo_of_row, row_of_todo. simpl. rewrite Hci, Hui.
    destruct todo; simpl in *; by subst. }
  rewrite (find_index_map _ todo_of_row
             (fun r => String.eqb (trow_id r) (todo_id todo))) by done.
  unfold with_todo. cbn [todos].
  unfold JsArray.findIndex, JsArray.set_at, JsArray.push.
  destruct (JsArray.find_index _ (todos d)) as [i|].
  - replace (0 <=? Z.of_nat i)%Z with true by (symmetry; apply Z.leb_le; lia).
    rewrite Nat2Z.id.
    change (map todo_of_row ?l) with (todo_of_row <$> l).
    rewrite list_fmap_insert. by rewrite Hrow.
  - simpl. rewrite map_app. simpl. by rewrite Hrow.
Qed.

(** The state of the component after a save the storage took. *)
Lemma saveTodo_accepted (e : Env) (todo : TodoItem) (d : StoreData) (c u : Z) :
  persisted e = Some d ->
  todo_createdAt todo = Some c -> todo_updatedAt todo = Some u ->
  json_faithful (this_data (snd (saveTodo todo e))) ->
  accepts (this_data (snd (saveTodo todo e))) (localStorage e) ->
  exists e', saveTodo todo e = (Returned tt, e')
             /\ persisted e' = Some (with_todo todo c u d).
Proof.
  intros Hd Hc Hu. rewrite (saveTodo_run e todo d c u Hd Hc Hu), written_data.
  intros Hjson Hacc. rewrite (written_accepted _ _ Hacc).
  eexists. split; [done|]. by apply persisted_written.
Qed.

(** X18. addTodo keeps the list shown equal to the list stored: from a
    list in sync, a text that is not blank and an id (the clock reading)
    that no todo shown has, a save the storage takes leaves the todo,
    with the trimmed text, pending and at the selected priority, at the
    end of both lists, and the input emptied. *)
Theorem addTodo_keeps_list_in_sync (s : TodoList.State) :
  TodoList.in_sync s ->
  JsString.truthy (JsString.trim (TodoList.newTodo s)) = true ->
  let todo :=
    {| todo_id := toString (clock (TodoList.app s));
       todo_content := JsString.trim (TodoList.newTodo s);
       todo_status := pending;
       todo_priority := TodoList.selectedPriority s;
       todo_createdAt := Some (clock (TodoList.app s));
       todo_updatedAt := Some (clock (TodoList.app s)) |} in
  (forall t, In t (TodoList.todos s) -> todo_id t <> todo_id todo) ->
  iso_faithful (Some (clock (TodoList.app s))) ->
  json_faithful (this_data (snd (saveTodo todo (storageService (TodoList.app s))))) ->
  accepts (this_data (snd (saveTodo todo (storageService (TodoList.app s)))))
          (localStorage (storageService (TodoList.app s))) ->
  let s' := snd (TodoList.addTodo s) in
  fst (TodoList.addTodo s) = Returned tt
  /\ TodoList.todos s' = (TodoList.todos s ++ [todo])%list
  /\ TodoList.newTodo s' = ""
  /\ TodoList.in_sync s'.
Proof.
  intros Hsync Htext todo Hfresh (c & [= <-] & Hiso) Hjson Hacc s'. subst s'.
  destruct (in_sync_inv s Hsync) as (d & Hd & Hview).
  destruct (saveTodo_accepted _ todo d _ _ Hd eq_refl eq_refl Hjson Hacc)
    as (e' & Hsave & Hp').
  cbv beta iota zeta delta
    [TodoList.addTodo TodoList.current try_catch bind ret TodoList.in_app
     Date_now storage zoom].
  rewrite Htext. fold todo. cbn [TodoList.app storageService]. rewrite Hsave.
  cbv beta iota zeta delta [TodoList.setTodos TodoList.setNewTodo modify]. cbn.
  split; [done|]. split; [done|]. split; [done|].
  unfold TodoList.in_sync. cbn [TodoList.app TodoList.todos storageService set_storage].
  rewrite (getAllTodos_run _ _ Hp'). cbn [fst]. f_equal.
  rewrite (todos_with_todo todo _ _ d eq_refl eq_refl Hiso Hiso), <- Hview.
  rewrite find_index_none; [done|].
  intros t Ht. apply String.eqb_neq. by apply Hfresh.
Qed.

(** X19. updateStatus keeps the list shown equal to the list stored when
    the ids shown are distinct: for an id that is shown, a save the
    storage takes leaves, in both lists and at the same place, the todo
    with the new status; its content, priority and creation date stay. *)
Theorem updateStatus_keeps_list_in_sync
    (s : TodoList.State) (id : string) (status : TodoStatus)
    (updatedTodo : TodoItem) :
  TodoList.in_sync s ->
  NoDup (map todo_id (TodoList.todos s)) ->
  List.find (fun todo => String.eqb (todo_id todo) id) (TodoList.todos s)
    = Some updatedTodo ->
  let newTodo :=
    {| todo_id := todo_id updatedTodo;
       todo_content := todo_content updatedTodo;
       todo_status := status;
       todo_priority := todo_priority updatedTodo;
       todo_createdAt := todo_createdAt updatedTodo;
       todo_updatedAt := Some (clock (TodoList.app s)) |} in
  iso_faithful (todo_createdAt updatedTodo) ->
  iso_faithful (Some (clock (TodoList.app s))) ->
  json_faithful
    (this_data (snd (saveTodo newTodo (storageService (TodoList.app s))))) ->
  accepts (this_data (snd (saveTodo newTodo (storageService (TodoList.app s)))))
          (localStorage (storageService (TodoList.app s))) ->
  let s' := snd (TodoList.updateStatus id status s) in
  fst (TodoList.updateStatus id status s) = Returned tt
  /\ TodoList.in_sync s'
  /\ List.find (fun todo => String.eqb (todo_id todo) id) (TodoList.todos s')
     = Some newTodo
  /\ length (TodoList.todos s') = length (TodoList.todos s).
Proof.
  intros Hsync Hnd Hfind newTodo (c & Hc & Hci) (u & [= <-] & Hui) Hjson Hacc s'.
  subst s'.
  destruct (in_sync_inv s Hsync) as (d & Hd & Hview).
  destruct (saveTodo_accepted _ newTodo d c _ Hd Hc eq_refl Hjson Hacc)
    as (e' & Hsave & Hp').
  assert (Hid : todo_id updatedTodo = id).
  { apply List.find_some in Hfind as [_ Heq]. by apply String.eqb_eq. }
  pose proof Hfind as Hindex. rewrite find_index_find in Hindex.
  destruct (JsArray.find_index _ (TodoList.todos s)) as [i|] eqn:Hi; [|done].
  assert (Hmap :
    map (fun todo => if String.eqb (todo_id todo) id then newTodo else todo)
        (TodoList.todos s) = <[i := newTodo]> (TodoList.todos s))
    by (by apply replace_all_is_insert).
  cbv beta iota zeta delta
    [TodoList.updateStatus TodoList.current try_catch bind ret TodoList.in_app
     Date_now storage zoom updateTodo].
  rewrite Hfind. fold newTodo. cbn [TodoList.app storageService]. rewrite Hsave.
  cbv beta iota zeta delta [TodoList.setTodos modify]. cbn.
  rewrite Hmap. split; [done|]. split; [|split].
  - unfold TodoList.in_sync. cbn [TodoList.app TodoList.todos storageService set_storage].
    rewrite (getAllTodos_run _ _ Hp'). cbn [fst]. f_equal.
    rewrite (todos_with_todo newTodo c _ d Hc eq_refl Hci Hui), <- Hview.
    cbn [todo_id newTodo]. rewrite Hid. by rewrite Hi.
  - rewrite <- Hmap.
    rewrite (find_map _ _ (fun todo => String.eqb (todo_id todo) id)).
    + rewrite Hfind. simpl. by rewrite Hid, String.eqb_refl.
    + intros x. destruct (String.eqb (todo_id x) id) eqn:Hx; [|done].
      simpl. by rewrite Hid, String.eqb_refl.
  - by rewrite length_insert.
Qed.

(** X20. loadTodos brings the list shown in sync with a store that can
    be read, and deleteTodo keeps it in sync when the storage takes the
    write: afterwards no todo of that id is shown. *)
Theorem loadTodos_and_deleteTodo_sync (s : TodoList.State) (id : string) :
  is_Some (persisted (storageService (TodoList.app s))) ->
  json_faithful
    (this_data (snd (deleteTodo id (storageService (TodoList.app s))))) ->
  accepts (this_data (snd (deleteTodo id (storageService (TodoList.app s)))))
          (localStorage (storageService (TodoList.app s))) ->
  fst (TodoList.loadTodos s) = Returned tt
  /\ TodoList.in_sync (snd (TodoList.loadTodos s))
  /\ fst (TodoList.deleteTodo id s) = Returned tt
  /\ (forall t, In t (TodoList.todos (snd (TodoList.deleteTodo id s))) ->
        todo_id t <> id)
  /\ (TodoList.in_sync s -> TodoList.in_sync (snd (TodoList.deleteTodo id s))).
Proof.
  intros [d Hd]. rewrite (deleteTodo_run _ id d Hd), written_data.
  set (d' := {| documents := documents d; todos := _ |}).
  intros Hjson Hacc.
  assert (Hload : TodoList.loadTodos s =
            (Returned tt,
             {| TodoList.todos := map todo_of_row (todos d);
                TodoList.newTodo := TodoList.newTodo s;
                TodoList.selectedPriority := TodoList.selectedPriority s;
                TodoList.app :=
                  set_storage {| this_data := d;
                                 localStorage :=
                                   localStorage (storageService (TodoList.app s)) |}
                              (TodoList.app s) |})).
  { cbv beta iota zeta delta
      [TodoList.loadTodos try_catch bind TodoList.in_app storage zoom].
    by rewrite (getAllTodos_run _ _ Hd). }
  assert (Hdel : TodoList.deleteTodo id s =
            (Returned tt,
             {| TodoList.todos :=
                  List.filter (fun todo => negb (String.eqb (todo_id todo) id))
                              (TodoList.todos s);
                TodoList.newTodo := TodoList.newTodo s;
                TodoList.selectedPriority := TodoList.selectedPriority s;
                TodoList.app :=
                  set_storage
                    {| this_data := d';
                       localStorage :=
                         <[STORAGE_KEY := JSON_stringify d']>
                           (localStorage (storageService (TodoList.app s))) |}
                    (TodoList.app s) |})).
  { cbv beta iota zeta delta
      [TodoList.deleteTodo TodoList.current try_catch bind TodoList.in_app
       storage zoom].
    rewrite (deleteTodo_run _ id d Hd). fold d'.
    by rewrite (written_accepted _ _ Hacc). }
  rewrite Hload, Hdel. cbn [fst snd].
  split; [done|]. split; [|split; [done|split]].
  - unfold TodoList.in_sync. cbn [TodoList.app TodoList.todos storageService set_storage].
    by rewrite (getAllTodos_run _ d) by (by apply persisted_loaded).
  - cbn [TodoList.todos]. intros t Ht. apply List.filter_In in Ht as [_ Hne].
    by apply negb_true_iff, String.eqb_neq in Hne.
  - intros Hsync. destruct (in_sync_inv s Hsync) as (d0 & Hd0 & Hview).
    assert (d0 = d) as -> by congruence.
    unfold TodoList.in_sync. cbn [TodoList.app TodoList.todos storageService set_storage].
    rewrite (getAllTodos_run _ d') by (by apply persisted_written).
    cbn [fst]. f_equal. subst d'. cbn [todos]. rewrite Hview.
    symmetry. by apply filter_map.
Qed.

End TodoListFacts.

(** ** The command extractor: documents, and what a turn leaves alone *)

Section TrimFacts.
Import RegExp Phrases.

Lemma all_chars_trimStart (p : ascii -> bool) (s : string) :
  all_chars p s = true -> all_chars p (JsString.trimStart s) = true.
Proof.
  induction s as [|c s IH]; simpl; [done|]. intros Hall.
  apply andb_true_iff in Hall as [Hc Hs].
  destruct (JsString.is_space c); [by apply IH|]. simpl. by rewrite Hc, Hs.
Qed.

Lemma all_chars_trimEnd (p : ascii -> bool) (s : string) :
  all_chars p s = true -> all_chars p (JsString.trimEnd s) = true.
Proof.
  induction s as [|c s IH]; simpl; [done|]. intros Hall.
  apply andb_true_iff in Hall as [Hc Hs]. specialize (IH Hs).
  destruct (JsString.trimEnd s) as [|c' t].
  - destruct (JsString.is_space c); simpl; [done | by rewrite Hc].
  - simpl in *. by rewrite Hc, IH.
Qed.

Lemma all_chars_trim (p : ascii -> bool) (s : string) :
  all_chars p s = true -> all_chars p (JsString.trim s) = true.
Proof. intros Hall. by apply all_chars_trimEnd, all_chars_trimStart. Qed.

Lemma trimEnd_idem (s : string) :
  JsString.trimEnd (JsString.trimEnd s) = JsString.trimEnd s.
Proof.
  induction s as [|c s IH]; simpl; [done|].
  destruct (JsString.trimEnd s) as [|c' t] eqn:Ht.
  - destruct (JsString.is_space c) eqn:Hc; simpl; [done | by rewrite Hc].
  - simpl in *. by rewrite IH.
Qed.

Lemma trimStart_opens_clean (s : string) : opens_clean (JsString.trimStart s).
Proof.
  induction s as [|c s IH]; simpl; [done|].
  by destruct (JsString.is_space c) eqn:Hc.
Qed.

Lemma trimEnd_opens_clean (s : string) :
  opens_clean s -> opens_clean (JsString.trimEnd s).
Proof.
  destruct s as [|c s]; simpl; [done|]. intros Hc.
  destruct (JsString.trimEnd s); [by rewrite Hc | done].
Qed.

Lemma trimEnd_closes_clean (s : string) : closes_clean (JsString.trimEnd s).
Proof.
  induction s as [|c s IH]; simpl; [done|].
  destruct (JsString.trimEnd s) as [|c' t] eqn:Ht.
  - by destruct (JsString.is_space c) eqn:Hc.
  - exact IH.
Qed.

Lemma trimStart_clean (s : string) : opens_clean s -> JsString.trimStart s = s.
Proof. destruct s as [|c s]; simpl; [done|]. by intros ->. Qed.

Lemma trim_idem (s : string) : JsString.trim (JsString.trim s) = JsString.trim s.
Proof.
  unfold JsString.trim.
  rewrite (trimStart_clean (JsString.trimEnd _))
    by apply trimEnd_opens_clean, trimStart_opens_clean.
  apply trimEnd_idem.
Qed.

End TrimFacts.

Section DocumentIntent.
Import RegExp ExcelStorage App Phrases.
Context `{Platform}.
Local Open Scope js_scope.

Lemma document_pattern_shape (m : string) (cap : option string) :
  Matches document_pattern m None cap ->
  exists verb sp1 noun sp2 connector sp3 q c q',
    m = verb ++ sp1 ++ noun ++ sp2 ++ connector ++ sp3 ++ q ++ c ++ q'
    /\ cap = Some c
    /\ (JsString.toLowerCase verb = "create"
        \/ JsString.toLowerCase verb = "new"
        \/ JsString.toLowerCase verb = "add")
    /\ sp1 <> "" /\ all_chars ws sp1 = true
    /\ JsString.toLowerCase noun = "document"
    /\ sp2 <> "" /\ all_chars ws sp2 = true
    /\ (connector = ""
        \/ JsString.toLowerCase connector = "titled"
        \/ JsString.toLowerCase connector = "called"
        \/ JsString.toLowerCase connector = "named")
    /\ all_chars ws sp3 = true
    /\ (q = "" \/ q = dquote \/ q = "'")
    /\ c <> "" /\ all_chars not_quote_nl c = true.
Proof.
  unfold document_pattern. intros Hm.
  repeat match goal with
         | H : Matches (Seq _ _) _ _ _ |- _ => inversion H; subst; clear H
         | H : Matches (Alt _ _) _ _ _ |- _ => inversion H; subst; clear H
         | H : Matches (Opt _) _ _ _ |- _ => inversion H; subst; clear H
         | H : Matches (Group _) _ _ _ |- _ => inversion H; subst; clear H
         | H : Matches (Lit _) _ _ _ |- _ => inversion H; subst; clear H
         | H : Matches (Class _) _ _ _ |- _ => inversion H; subst; clear H
         | H : Matches (Plus _) _ _ _ |- _ => inversion H; subst; clear H
         | H : Matches (Star _) _ _ _ |- _ => inversion H; subst; clear H
         end;
    (eexists _, _, _, _, _, _, _, _, _;
     split; [reflexivity|]; split; [reflexivity|];
     repeat match goal with
            | H : is_quote _ = true |- _ => apply is_quote_inv in H
            end;
     intuition eauto).
Qed.

(** The turn when the document intent fires with the capture [c]. *)
Lemma document_intent_run (msg a c : string) (w : World) :
  document_trigger (JsString.toLowerCase msg) = true ->
  match_ document_pattern msg = Some (Some c) ->
  let newDocument :=
    {| doc_id := toString (clock w); doc_title := JsString.trim c;
       doc_content := ""; doc_createdAt := Some (clock w);
       doc_updatedAt := Some (clock w); doc_tags := [] |} in
  processAICommands msg a w =
    (dispatch (Notepad.ADD_DOCUMENT newDocument) ;;;
     storage (saveDocument newDocument) ;;;
     ret (document_reply (JsString.trim c))) w.
Proof.
  intros Htrig Hmatch newDocument.
  unfold processAICommands, document_intent. rewrite Htrig, Hmatch.
  cbv beta iota zeta delta
    [bind group1_trim ret createDocument Date_now dispatch storage zoom].
  fold newDocument. cbn [storageService set_notepad].
  by destruct (saveDocument newDocument (storageService w)) as [[[]|err] e'].
Qed.

(** X21. When the message holds a document trigger phrase and the title
    pattern matches, the extractor adds to the collection and saves one
    Document, empty and without tags, with id and dates from the clock,
    and answers with the confirmation. Its title is the trimmed capture:
    it stands in the message after the word document, an optional
    titled, called or named and an optional quote, holds no quote
    character and no line feed, and has no white space at either end.
    So create document titled Project Plan gives the title Project
    Plan. *)
Theorem document_intent_creates_document (a : string) (w : World) :
  let document_of := fun title =>
    {| doc_id := toString (clock w); doc_title := title; doc_content := "";
       doc_createdAt := Some (clock w); doc_updatedAt := Some (clock w);
       doc_tags := [] |} in
  (forall msg titleMatch,
      document_trigger (JsString.toLowerCase msg) = true ->
      match_ document_pattern msg = Some titleMatch ->
      exists c,
        titleMatch = Some c
        /\ follows_document_phrase msg c
        /\ all_chars not_quote_nl (JsString.trim c) = true
        /\ trimmed (JsString.trim c)
        /\ processAICommands msg a w =
             (dispatch (Notepad.ADD_DOCUMENT (document_of (JsString.trim c))) ;;;
              storage (saveDocument (document_of (JsString.trim c))) ;;;
              ret (document_reply (JsString.trim c))) w)
  /\ processAICommands "create document titled Project Plan" a w =
       (dispatch (Notepad.ADD_DOCUMENT (document_of "Project Plan")) ;;;
        storage (saveDocument (document_of "Project Plan")) ;;;
        ret (document_reply "Project Plan")) w.
Proof.
  intros document_of. split.
  - intros msg titleMatch Htrig Hmatch.
    destruct (match_sound _ _ _ Hmatch) as (pre & m & post & -> & Hm).
    destruct (document_pattern_shape _ _ Hm)
      as (verb & sp1 & noun & sp2 & connector & sp3 & q & c & q' & -> & ->
          & Hverb & Hsp1 & Hws1 & Hnoun & Hsp2 & Hws2 & Hconn & Hws3 & Hq
          & Hc & Hclean).
    exists c. split; [done|]. split; [|split; [|split]].
    + exists pre, verb, sp1, noun, sp2, connector, sp3, q, (q' ++ post).
      split; [by rewrite !str_app_assoc | tauto].
    + by apply all_chars_trim.
    + apply trim_idem.
    + by apply document_intent_run.
  - rewrite (document_intent_run _ a "Project Plan" w);
      [reflexivity | reflexivity | reflexivity].
Qed.

End DocumentIntent.

Section TurnFacts.
Import RegExp ExcelStorage App Phrases.
Context `{Platform}.
Local Open Scope js_scope.

Lemma all_chars_weaken (p q : ascii -> bool) (s : string) :
  (forall c, p c = true -> q c = true) ->
  all_chars p s = true -> all_chars q s = true.
Proof.
  intros Hpq. induction s as [|c s IH]; simpl; [done|]. intros Hall.
  apply andb_true_iff in Hall as [Hc Hs]. by rewrite (Hpq c Hc), IH.
Qed.

(** X22. The content of the TodoItem the extractor saves has no white
    space at either end and no line feed, and no quote character either
    when the create, add or new todo pattern is the one that matched:
    whenever the document intent produces nothing and the todo intent
    fires, processAICommands passes to saveTodo a todo with such a
    content, and names that content in its reply. *)
Theorem todo_content_is_clean (msg a : string) (w : World) :
  let lower := JsString.toLowerCase msg in
  document_trigger lower = false \/ match_ document_pattern msg = None ->
  todo_trigger lower = true ->
  or_else (match_ todo_pattern msg) (match_ remind_pattern msg) <> None ->
  exists content,
    processAICommands msg a w =
      (storage (saveTodo {| todo_id := toString (clock w);
                            todo_content := content;
                            todo_status := pending;
                            todo_priority := infer_priority lower;
                            todo_createdAt := Some (clock w);
                            todo_updatedAt := Some (clock w) |}) ;;;
       ret (todo_reply content (infer_priority lower))) w
    /\ opens_clean content /\ closes_clean content
    /\ all_chars not_nl content = true
    /\ (match_ todo_pattern msg <> None ->
        all_chars not_quote_nl content = true).
Proof.
  intros lower Hdoc Htrig Hfires.
  destruct (or_else _ _) as [todoMatch|] eqn:Hmatch; [|done].
  destruct (todo_match_shape _ _ Hmatch) as (c & -> & Hnl & Hquote).
  exists (JsString.trim c). split; [by apply todo_intent_run|].
  split; [apply trimEnd_opens_clean, trimStart_opens_clean|].
  split; [apply trimEnd_closes_clean|].
  split; [by apply all_chars_trim|].
  intros Ht. by apply all_chars_trim, Hquote.
Qed.



End TurnFacts.

(** ** The chat history beside the notepad store *)

Section ChatHistoryFacts.
Import ExcelStorage App.
Context `{Platform} `{ChatHistory.Codec}.

Lemma keys_differ : ChatHistory.CHAT_HISTORY_KEY <> STORAGE_KEY.
Proof. discriminate. Qed.

(** The adapter reads the same record set from two states that agree on
    [this.data] and on the blob under its key. *)
Lemma persisted_agree (e1 e2 : Env) :
  this_data e1 = this_data e2 ->
  localStorage e1 !! STORAGE_KEY = localStorage e2 !! STORAGE_KEY ->
  persisted e1 = persisted e2.
Proof. intros Hd Hl. rewrite !persisted_unfold. by rewrite Hd, Hl. Qed.

Lemma written_keeps_chat_key (d : StoreData) (ls : gmap string string) :
  lawful_storage ->
  localStorage (snd (written d ls)) !! ChatHistory.CHAT_HISTORY_KEY
  = ls !! ChatHistory.CHAT_HISTORY_KEY.
Proof.
  intros Hlaw. unfold written.
  destruct (setItem _ _ _) as [ls'|err] eqn:Hset; simpl; [|done].
  apply Hlaw in Hset as ->. apply lookup_insert_ne. apply not_eq_sym, keys_differ.
Qed.

Lemma saveDocument_keeps_chat_key (e : Env) (doc : Document) :
  lawful_storage ->
  localStorage (snd (saveDocument doc e)) !! ChatHistory.CHAT_HISTORY_KEY
  = localStorage e !! ChatHistory.CHAT_HISTORY_KEY.
Proof.
  intros Hlaw. destruct (persisted e) as [d|] eqn:Hd.
  - destruct (doc_createdAt doc) as [c|] eqn:Hc;
      [destruct (doc_updatedAt doc) as [u|] eqn:Hu|].
    + rewrite (saveDocument_run e doc d c u Hd Hc Hu).
      by apply written_keeps_chat_key.
    + unfold saveDocument, bind. by rewrite (loadData_persisted _ _ Hd), Hc, Hu.
    + unfold saveDocument, bind. by rewrite (loadData_persisted _ _ Hd), Hc.
  - unfold saveDocument, bind. by rewrite (loadData_corrupt _ Hd).
Qed.

Lemma saveTodo_keeps_chat_key (e : Env) (todo : TodoItem) :
  lawful_storage ->
  localStorage (snd (saveTodo todo e)) !! ChatHistory.CHAT_HISTORY_KEY
  = localStorage e !! ChatHistory.CHAT_HISTORY_KEY.
Proof.
  intros Hlaw. destruct (persisted e) as [d|] eqn:Hd.
  - destruct (todo_createdAt todo) as [c|] eqn:Hc;
      [destruct (todo_updatedAt todo) as [u|] eqn:Hu|].
    + rewrite (saveTodo_run e todo d c u Hd Hc Hu).
      by apply written_keeps_chat_key.
    + unfold saveTodo, bind. by rewrite (loadData_persisted _ _ Hd), Hc, Hu.
    + unfold saveTodo, bind. by rewrite (loadData_persisted _ _ Hd), Hc.
  - unfold saveTodo, bind. by rewrite (loadData_corrupt _ Hd).
Qed.

Lemma deletes_keep_chat_key (e : Env) (id : string) :
  lawful_storage ->
  localStorage (snd (deleteDocument id e)) !! ChatHistory.CHAT_HISTORY_KEY
  = localStorage e !! ChatHistory.CHAT_HISTORY_KEY
  /\ localStorage (snd (deleteTodo id e)) !! ChatHistory.CHAT_HISTORY_KEY
     = localStorage e !! ChatHistory.CHAT_HISTORY_KEY.
Proof.
  intros Hlaw. destruct (persisted e) as [d|] eqn:Hd.
  - rewrite (deleteDocument_run e id d Hd), (deleteTodo_run e id d Hd).
    split; by apply written_keeps_chat_key.
  - unfold deleteDocument, deleteTodo, bind. by rewrite (loadData_corrupt _ Hd).
Qed.

(** X24. The chat history and the notepad store share localStorage
    without touching each other, on a storage whose writes store what
    they are given: loading, saving and clearing the chat history leave
    the record set the adapter reads as it was, and the four writes of
    the adapter leave the entry of the chat history as it was. *)
Theorem chat_history_and_notes_are_independent
    (s : ChatHistory.State) (e : Env) (doc : Document) (todo : TodoItem)
    (id : string) :
  lawful_storage ->
  (persisted (storageService (ChatHistory.app (snd (ChatHistory.loadHistory s))))
   = persisted (storageService (ChatHistory.app s))
   /\ persisted (storageService (ChatHistory.app (snd (ChatHistory.saveHistory s))))
      = persisted (storageService (ChatHistory.app s))
   /\ persisted (storageService (ChatHistory.app (snd (ChatHistory.clearChatHistory s))))
      = persisted (storageService (ChatHistory.app s)))
  /\ (localStorage (snd (saveDocument doc e)) !! ChatHistory.CHAT_HISTORY_KEY
      = localStorage e !! ChatHistory.CHAT_HISTORY_KEY
      /\ localStorage (snd (deleteDocument id e)) !! ChatHistory.CHAT_HISTORY_KEY
         = localStorage e !! ChatHistory.CHAT_HISTORY_KEY
      /\ localStorage (snd (saveTodo todo e)) !! ChatHistory.CHAT_HISTORY_KEY
         = localStorage e !! ChatHistory.CHAT_HISTORY_KEY
      /\ localStorage (snd (deleteTodo id e)) !! ChatHistory.CHAT_HISTORY_KEY
         = localStorage e !! ChatHistory.CHAT_HISTORY_KEY).
Proof.
  intros Hlaw. split; [split; [|split]|].
  - unfold ChatHistory.loadHistory.
    destruct (ChatHistory.storage_of s !! _) as [saved|]; [|done].
    destruct (JsString.truthy saved); [|done].
    by destruct (ChatHistory.parse_history saved).
  - unfold ChatHistory.saveHistory.
    destruct (0 <? length (ChatHistory.messages s))%nat; [|done].
    destruct (setItem _ _ _) as [ls|err] eqn:Hset; [|done].
    apply Hlaw in Hset as ->. apply persisted_agree; [done|]. simpl.
    apply lookup_insert_ne, keys_differ.
  - apply persisted_agree; [done|]. simpl.
    apply lookup_delete_ne, keys_differ.
  - split; [by apply saveDocument_keeps_chat_key|].
    split; [by apply deletes_keep_chat_key|].
    split; [by apply saveTodo_keeps_chat_key | by apply deletes_keep_chat_key].
Qed.

(** X25. A cleared chat history stays cleared: after clearChatHistory
    the messages are empty and the entry is gone from localStorage, the
    effect that saves the history writes nothing for the empty list, and
    the effect that loads it on the next mount finds nothing; none of the
    three throws. *)
Theorem clearChatHistory_is_durable (s : ChatHistory.State) :
  let s1 := snd (ChatHistory.clearChatHistory s) in
  let s2 := snd (ChatHistory.saveHistory s1) in
  let s3 := snd (ChatHistory.loadHistory s2) in
  fst (ChatHistory.clearChatHistory s) = Returned tt
  /\ fst (ChatHistory.saveHistory s1) = Returned tt
  /\ fst (ChatHistory.loadHistory s2) = Returned tt
  /\ s2 = s1 /\ s3 = s1
  /\ ChatHistory.messages s3 = []
  /\ ChatHistory.storage_of s3 !! ChatHistory.CHAT_HISTORY_KEY = None
  /\ forall k, k <> ChatHistory.CHAT_HISTORY_KEY ->
       ChatHistory.storage_of s3 !! k = ChatHistory.storage_of s !! k.
Proof.
  intros s1 s2 s3.
  assert (Hgone : ChatHistory.storage_of s1 !! ChatHistory.CHAT_HISTORY_KEY = None)
    by apply lookup_delete_eq.
  assert (H2 : ChatHistory.saveHistory s1 = (Returned tt, s1)) by done.
  assert (H3 : ChatHistory.loadHistory s1 = (Returned tt, s1))
    by (unfold ChatHistory.loadHistory; by rewrite Hgone).
  subst s3 s2. rewrite H2. cbn [snd]. rewrite H3. cbn [fst snd].
  repeat split; try done.
  intros k Hk. subst s1. cbn. by apply lookup_delete_ne.
Qed.

Lemma includes_app_r (a b needle : string) :
  JsString.includes b needle = true ->
  JsString.includes (a ++ b) needle = true.
Proof.
  intros Hb. induction a as [|c a IH]; [done|].
  rewrite str_app_cons. simpl. rewrite IH. apply orb_true_r.
Qed.

(** X26. The chat classifies an error by the texts its message contains,
    in a fixed order, so the body of a failed response can decide the
    text shown: whatever the status, a body that contains Failed to
    fetch gives the network text; a response of status 401 gives the
    authentication text otherwise; and a response of status 429 gives
    the rate limit text only if its body does not contain 401, which
    gives the authentication text. *)
Theorem errorContent_of_api_errors (status : Z) (errorText : string) :
  (JsString.includes errorText "Failed to fetch" = true ->
   ChatHistory.errorContent (ChatHistory.api_error status errorText)
   = "Network error: Unable to connect to AI service. Please check your internet connection.")
  /\ (JsString.includes errorText "Failed to fetch" = false ->
      ChatHistory.errorContent (ChatHistory.api_error 401 errorText)
      = "Authentication error: Invalid API key."
      /\ ChatHistory.errorContent (ChatHistory.api_error 429 errorText)
         = (if JsString.includes errorText "401"
            then "Authentication error: Invalid API key."
            else "Rate limit exceeded. Please try again later.")).
Proof.
  split.
  - intros Hbody. unfold ChatHistory.errorContent, ChatHistory.api_error.
    rewrite <- !str_app_assoc. by rewrite (includes_app_r _ _ _ Hbody).
  - intros Hbody.
    assert (H401 : ChatHistory.errorContent (ChatHistory.api_error 401 errorText)
              = if JsString.includes errorText "Failed to fetch"
                then "Network error: Unable to connect to AI service. Please check your internet connection."
                else "Authentication error: Invalid API key.")
      by (vm_compute; reflexivity).
    assert (H429 : ChatHistory.errorContent (ChatHistory.api_error 429 errorText)
              = if JsString.includes errorText "Failed to fetch"
                then "Network error: Unable to connect to AI service. Please check your internet connection."
                else if JsString.includes errorText "401"
                then "Authentication error: Invalid API key."
                else "Rate limit exceeded. Please try again later.")
      by (vm_compute; reflexivity).
    rewrite H401, H429, Hbody. done.
Qed.

End ChatHistoryFacts.

(** ** Saving N documents *)

Section BatchFacts.
Import ExcelStorage Batch.
Context `{Platform}.

Lemma with_document_fresh (doc : Document) (c u : Z) (d : StoreData) :
  doc_createdAt doc = Some c -> doc_updatedAt doc = Some u ->
  ~ In (doc_id doc) (map row_id (documents d)) ->
  with_document doc c u d = extended d [doc].
Proof.
  intros Hc Hu Hfresh. unfold with_document, extended, row_of_document. simpl.
  rewrite Hc, Hu. simpl. f_equal.
  unfold JsArray.findIndex. rewrite find_index_none; [done|].
  intros r Hr. apply String.eqb_neq. intros Heq. apply Hfresh.
  rewrite <- Heq. by apply in_map.
Qed.

Lemma extended_cons (d : StoreData) (doc : Document) (docs : list Document) :
  extended (extended d [doc]) docs = extended d (doc :: docs).
Proof. unfold extended. simpl. by rewrite <- app_assoc. Qed.

Lemma extended_nil (d : StoreData) : extended d [] = d.
Proof. unfold extended. simpl. rewrite app_nil_r. by destruct d. Qed.

(** The saves one after the other, on a storage that takes every write
    and a codec faithful on each record set on the way. *)
Lemma saveAll_run (docs : list Document) :
  forall (e : Env) (d : StoreData),
    persisted e = Some d ->
    NoDup (map row_id (documents d) ++ map doc_id docs) ->
    (forall doc, In doc docs ->
       iso_faithful (doc_createdAt doc) /\ iso_faithful (doc_updatedAt doc)) ->
    (forall k, json_faithful (extended d (take k docs))) ->
    (forall d' ls, accepts d' ls) ->
    exists e', saveAll docs e = (Returned tt, e')
               /\ persisted e' = Some (extended d docs).
Proof.
  induction docs as [|doc rest IH]; intros e d Hd Hnd Hiso Hjson Hacc.
  - exists e. split; [done|]. by rewrite extended_nil.
  - destruct (Hiso doc (or_introl eq_refl)) as [(c & Hc & _) (u & Hu & _)].
    assert (Hfresh : ~ In (doc_id doc) (map row_id (documents d))).
    { intros Hin. apply NoDup_app in Hnd as (_ & Hdisj & _).
      apply (Hdisj (doc_id doc)); [by apply list_elem_of_In|].
      apply list_elem_of_In. by left. }
    simpl. unfold bind.
    rewrite (saveDocument_run e doc d c u Hd Hc Hu),
            (with_document_fresh doc c u d Hc Hu Hfresh),
            (written_accepted _ _ (Hacc _ _)).
    destruct (IH {| this_data := extended d [doc];
                    localStorage :=
                      <[STORAGE_KEY := JSON_stringify (extended d [doc])]>
                        (localStorage e) |} (extended d [doc]))
      as (e' & Hrun & Hp').
    + apply persisted_written. apply (Hjson 1%nat).
    + unfold extended. cbn [documents]. rewrite map_app. simpl.
      rewrite <- app_assoc. exact Hnd.
    + intros doc' Hin. apply Hiso. by right.
    + intros k. rewrite extended_cons. apply (Hjson (S k)).
    + done.
    + exists e'. split; [done|]. by rewrite <- extended_cons.
Qed.

Lemma document_of_row_of_document (doc : Document) :
  iso_faithful (doc_createdAt doc) -> iso_faithful (doc_updatedAt doc) ->
  document_of_row (row_of_document doc) = doc.
Proof.
  intros (c & Hc & Hci) (u & Hu & Hui).
  unfold document_of_row, row_of_document. simpl. rewrite Hc, Hu. simpl.
  rewrite Hci, Hui. destruct doc; simpl in *; by subst.
Qed.

Lemma find_in_distinct {A} (key : A -> string) (l : list A) (x : A) :
  NoDup (map key l) -> In x l ->
  List.find (fun y => String.eqb (key y) (key x)) l = Some x.
Proof.
  induction l as [|y l IH]; simpl; [done|]. intros Hnd Hin.
  apply NoDup_cons in Hnd as [Hy Hnd].
  destruct (String.eqb_spec (key y) (key x)) as [Heq|Hne].
  - destruct Hin as [->|Hin]; [done|]. exfalso. apply Hy.
    rewrite Heq. apply list_elem_of_In. by apply in_map.
  - destruct Hin as [->|Hin]; [done|]. by apply IH.
Qed.

(** X27. After N documents with distinct ids, none of them stored yet,
    are saved one after the other to a store that can be read, on a
    storage that takes every write, getAllDocuments returns the
    documents it returned before followed by exactly those N, in the
    order of the saves, and getDocument finds each of them by its id. *)
Theorem saveAll_then_reads (docs : list Document) (e : Env) (d : StoreData) :
  persisted e = Some d ->
  NoDup (map row_id (documents d) ++ map doc_id docs) ->
  (forall doc, In doc docs ->
     iso_faithful (doc_createdAt doc) /\ iso_faithful (doc_updatedAt doc)) ->
  (forall k, json_faithful (extended d (take k docs))) ->
  (forall d' ls, accepts d' ls) ->
  let e' := snd (saveAll docs e) in
  fst (saveAll docs e) = Returned tt
  /\ fst (getAllDocuments e')
     = Returned (map document_of_row (documents d) ++ docs)%list
  /\ forall doc, In doc docs ->
       fst (getDocument (doc_id doc) e') = Returned (Some doc).
Proof.
  intros Hd Hnd Hiso Hjson Hacc.
  destruct (saveAll_run docs e d Hd Hnd Hiso Hjson Hacc) as (e' & Hrun & Hp').
  rewrite Hrun. cbn [fst snd]. split; [done|]. split.
  - rewrite (getAllDocuments_run _ _ Hp'). cbn [fst]. f_equal.
    unfold extended. cbn [documents]. rewrite map_app, map_map. f_equal.
    rewrite <- (map_id docs) at 2. apply map_ext_in.
    intros doc Hin. apply document_of_row_of_document; by apply Hiso.
  - intros doc Hin. rewrite (getDocument_run _ _ _ Hp'). cbn [fst].
    unfold extended. cbn [documents].
    assert (Hfind :
      List.find (fun r => String.eqb (row_id r) (row_id (row_of_document doc)))
                (documents d ++ map row_of_document docs)
      = Some (row_of_document doc)).
    { apply find_in_distinct.
      - rewrite map_app, map_map. exact Hnd.
      - apply in_or_app. right. by apply in_map. }
    cbn [row_id row_of_document] in Hfind. rewrite Hfind. simpl.
    f_equal. f_equal. apply document_of_row_of_document; by apply Hiso.
Qed.

End BatchFacts.

Section Selecting.
Import App Views.

Lemma find_pointwise {A} (p q : A -> bool) (l : list A) :
  (forall x, p x = q x) -> List.find p l = List.find q l.
Proof.
  intros Hpq. induction l as [|x l IH]; simpl; [done|].
  by rewrite Hpq, IH.
Qed.

(** X28. Selecting a document the sidebar lists makes it the one the
    editor works on: after handleSelectDocument of its id, the active
    document of the editor is a document of that id, and it is that very
    document when the ids of the collection are distinct. *)
Theorem selecting_a_listed_document_activates_it
    (w : World) (term : string) (doc : Document) :
  In doc (filteredDocuments (notepad w) term) ->
  let w' := snd (handleSelectDocument (doc_id doc) w) in
  exists shown,
    activeDocument (notepad w') = Some shown
    /\ doc_id shown = doc_id doc
    /\ (NoDup (NotepadInv.ids (notepad w)) -> shown = doc)
    /\ Notepad.documents (notepad w') = Notepad.documents (notepad w).
Proof.
  intros Hin w'. subst w'.
  apply List.filter_In in Hin as [Hin _].
  unfold handleSelectDocument, dispatch, activeDocument. simpl.
  destruct (List.find (fun d => String.eqb (doc_id doc) (doc_id d))
                      (Notepad.documents (notepad w))) as [shown|] eqn:Hfind.
  - exists shown. split; [done|].
    pose proof (List.find_some _ _ Hfind) as [_ Heq]. apply String.eqb_eq in Heq.
    split; [done|]. split; [|done].
    intros Hnd.
    pose proof (find_in_distinct doc_id _ doc Hnd Hin) as Hdoc.
    assert (Hsame :
      List.find (fun d => String.eqb (doc_id doc) (doc_id d))
                (Notepad.documents (notepad w))
      = List.find (fun y => String.eqb (doc_id y) (doc_id doc))
                  (Notepad.documents (notepad w))).
    { apply find_pointwise. intros x. apply String.eqb_sym. }
    congruence.
  - exfalso. apply (List.find_none _ _ Hfind) in Hin.
    by rewrite String.eqb_refl in Hin.
Qed.

End Selecting.

(** ** The further properties at work in the browser *)

Section FurtherRuns.
Import RegExp ExcelStorage App Views Batch.

Ltac run := vm_compute; reflexivity.
Ltac faithful := split; vm_compute; reflexivity.
Ltac iso := eexists; split; [reflexivity | vm_compute; reflexivity].
Ltac readable := eexists; vm_compute; reflexivity.

Ltac distinct := apply (bool_decide_unpack _); vm_compute; exact I.

Lemma reducer_keeps_ids_distinct_witness :
  NoDup (NotepadInv.ids two_notes)
  /\ NotepadInv.brings_distinct_ids two_notes (Notepad.ADD_DOCUMENT third_note)
  /\ NoDup (NotepadInv.ids
              (Notepad.notepadReducer 1700001000000 two_notes
                 (Notepad.ADD_DOCUMENT third_note))).
Proof.
  assert (Hnd : NoDup (NotepadInv.ids two_notes)) by distinct.
  assert (Hact : NotepadInv.brings_distinct_ids two_notes
                   (Notepad.ADD_DOCUMENT third_note))
    by (intros [Heq|[Heq|[]]]; discriminate Heq).
  split; [exact Hnd|]. split; [exact Hact|].
  exact (reducer_keeps_ids_distinct 1700001000000 two_notes
           (Notepad.ADD_DOCUMENT third_note) Hnd Hact).
Defined.

Lemma reducer_keeps_active_in_collection_witness :
  NotepadInv.active_in_collection two_notes
  /\ NotepadInv.active_in_collection
       (Notepad.notepadReducer 1700001000000 two_notes
          (Notepad.DELETE_DOCUMENT "1700000500000")).
Proof.
  assert (Hinv : NotepadInv.active_in_collection two_notes)
    by (intros a [= <-]; left; reflexivity).
  split; [exact Hinv|].
  exact (reducer_keeps_active_in_collection 1700001000000 two_notes
           (Notepad.DELETE_DOCUMENT "1700000500000") Hinv I).
Defined.

Lemma add_then_delete_restores_witness :
  Notepad.notepadReducer 1700001000001
    (Notepad.notepadReducer 1700001000000 two_notes (Notepad.ADD_DOCUMENT third_note))
    (Notepad.DELETE_DOCUMENT (doc_id third_note)) = two_notes.
Proof.
  assert (Hfresh : ~ In (doc_id third_note) (NotepadInv.ids two_notes))
    by (intros [Heq|[Heq|[]]]; discriminate Heq).
  destruct (add_then_delete_restores 1700001000000 1700001000001 two_notes
              third_note Hfresh) as (_ & Hsame & _).
  apply Hsame. discriminate.
Defined.

Lemma saveDocument_replaces_in_place_or_appends_witness :
  fst (@getAllDocuments Browser.platform
         (snd (@saveDocument Browser.platform edited_note stocked_env)))
    = Returned [edited_note]
  /\ fst (@getAllDocuments Browser.platform
            (snd (@saveDocument Browser.platform third_note stocked_env)))
     = Returned [quoted_note; third_note].
Proof.
  assert (Hd : is_Some (@persisted Browser.platform stocked_env)) by readable.
  destruct Hd as [d Hd].
  destruct (@saveDocument_replaces_in_place_or_appends Browser.platform
              stocked_env edited_note d Hd ltac:(iso) ltac:(iso)
              ltac:(faithful) ltac:(run)) as [_ Hreplace].
  destruct (@saveDocument_replaces_in_place_or_appends Browser.platform
              stocked_env third_note d Hd ltac:(iso) ltac:(iso)
              ltac:(faithful) ltac:(run)) as [_ Happend].
  split.
  - rewrite Hreplace. vm_compute in Hd. injection Hd as <-. run.
  - rewrite Happend. vm_compute in Hd. injection Hd as <-. run.
Defined.

Lemma deleteDocument_then_getDocument_witness :
  fst (@getDocument Browser.platform "1700000000123"
         (snd (@deleteDocument Browser.platform "1700000000123" stocked_env)))
    = Returned None.
Proof.
  destruct (@deleteDocument_then_getDocument Browser.platform stocked_env
              "1700000000123" "7" ltac:(readable) ltac:(faithful) ltac:(run))
    as (_ & Hnone & _).
  exact Hnone.
Defined.

Lemma saveDocument_again_changes_nothing_witness :
  let e1 := snd (@saveDocument Browser.platform edited_note stocked_env) in
  @saveDocument Browser.platform edited_note e1 = (Returned tt, e1).
Proof.
  destruct (@saveDocument_again_changes_nothing Browser.platform stocked_env
              edited_note ltac:(readable) ltac:(eexists; reflexivity)
              ltac:(eexists; reflexivity) ltac:(faithful) ltac:(run) ltac:(run))
    as [_ Hagain].
  exact Hagain.
Defined.

Lemma unreadable_date_blocks_saving_witness :
  exists doc,
    fst (@getDocument Browser.platform "7" undated_env) = Returned (Some doc)
    /\ fst (@saveDocument Browser.platform doc stocked_env) = Thrown RangeError.
Proof.
  destruct (@unreadable_date_blocks_saving Browser.platform undated_env
              undated_data "7" _ ltac:(run) eq_refl ltac:(left; run))
    as (doc & Hget & _ & _ & Hsave).
  exists doc. split; [exact Hget|].
  apply (Hsave stocked_env). readable.
Defined.

Lemma failed_save_is_read_from_cache_only_witness :
  let e' := snd (@saveDocument Browser.full_storage quoted_note (fresh ∅)) in
  localStorage e' !! STORAGE_KEY = None
  /\ fst (@getDocument Browser.full_storage (doc_id quoted_note) e')
     = Returned (Some quoted_note).
Proof.
  destruct (@failed_save_is_read_from_cache_only Browser.full_storage
              (fresh ∅) quoted_note (DOMException "QuotaExceededError")
              ltac:(readable) ltac:(iso) ltac:(iso) eq_refl)
    as (_ & Hsame & Hcache & _).
  split; [by rewrite Hsame | by apply Hcache].
Defined.

Lemma deleteDocument_absent_is_noop_witness :
  exists e',
    @deleteDocument Browser.platform "none" stocked_env = (Returned tt, e')
    /\ @persisted Browser.platform e' = @persisted Browser.platform stocked_env.
Proof.
  assert (Hd : is_Some (@persisted Browser.platform stocked_env)) by readable.
  destruct Hd as [d Hd].
  assert (Habsent : forall r, In r (documents d) -> row_id r <> "none").
  { vm_compute in Hd. injection Hd as <-. intros r [<-|[]]. discriminate. }
  assert (Hjson : @json_faithful Browser.platform d).
  { vm_compute in Hd. injection Hd as <-. faithful. }
  destruct (@deleteDocument_absent_is_noop Browser.platform stocked_env d "none"
              Hd Habsent Hjson ltac:(reflexivity)) as (e' & Hdel & _ & Hp).
  exists e'. split; [exact Hdel|]. by rewrite Hp, Hd.
Defined.

Lemma saveTodo_then_getAllTodos_witness :
  fst (@getAllTodos Browser.platform
         (snd (@saveTodo Browser.platform dentist_called stocked_env)))
    = Returned [dentist_called].
Proof.
  assert (Hd : is_Some (@persisted Browser.platform stocked_env)) by readable.
  destruct Hd as [d Hd].
  destruct (@saveTodo_then_getAllTodos Browser.platform stocked_env
              dentist_called d Hd ltac:(iso) ltac:(iso)
              ltac:(faithful) ltac:(run)) as [_ Hsaved].
  rewrite Hsaved. vm_compute in Hd. injection Hd as <-. run.
Defined.

Lemma createDocument_dispatches_before_saving_witness :
  let w := world_of (fresh ∅) 1700001000000 in
  let r := @createDocument Browser.full_storage "Plan" "" w in
  fst r = Thrown (DOMException "QuotaExceededError")
  /\ length (Notepad.documents (notepad (snd r))) = 1%nat.
Proof.
  pose proof (@createDocument_dispatches_before_saving Browser.full_storage
                "Plan" "" (world_of (fresh ∅) 1700001000000)
                (DOMException "QuotaExceededError")) as Hw.
  destruct Hw as (Hthrown & Hdocs & _); [run|].
  split; [exact Hthrown|]. simpl. by rewrite Hdocs.
Defined.

Lemma loadDocuments_sets_collection_witness :
  Notepad.documents (notepad loaded_world) = [quoted_note]
  /\ Notepad.activeDocumentId (notepad loaded_world) = Some "1700000000123".
Proof.
  assert (Hd : is_Some (@persisted Browser.platform stocked_env)) by readable.
  destruct Hd as [d Hd].
  destruct (@loadDocuments_sets_collection Browser.platform
              (world_of stocked_env 1700001000000) d Hd)
    as (_ & Hdocs & _ & _ & Hactive & _).
  vm_compute in Hd. injection Hd as <-. unfold loaded_world. split.
  - rewrite Hdocs. run.
  - rewrite (Hactive eq_refl). run.
Defined.

Lemma editor_save_reaches_reducer_and_store_witness :
  fst (@saveActiveDocument Browser.platform "Plan B" "rewritten" loaded_world)
    = Returned tt.
Proof.
  destruct (@editor_save_reaches_reducer_and_store Browser.platform loaded_world
              "Plan B" "rewritten" quoted_note ltac:(run) ltac:(readable)
              ltac:(iso) ltac:(iso) ltac:(faithful) ltac:(run))
    as (Hreturned & _).
  exact Hreturned.
Defined.

Lemma sidebar_filter_within_search_witness :
  exists found,
    fst (@searchDocuments Browser.platform "PLAN" (storageService loaded_world))
      = Returned found
    /\ sublist (filteredDocuments (notepad loaded_world) "PLAN") found.
Proof.
  assert (Hd : is_Some (@persisted Browser.platform (storageService loaded_world)))
    by readable.
  destruct Hd as [d Hd].
  assert (Hsame : Notepad.documents (notepad loaded_world)
                  = map (@document_of_row Browser.platform) (documents d)).
  { vm_compute in Hd. injection Hd as <-. run. }
  destruct (@sidebar_filter_within_search Browser.platform loaded_world "PLAN" d
              Hd Hsame) as (_ & _ & Hfound).
  exact Hfound.
Defined.

Lemma selecting_a_listed_document_activates_it_witness :
  exists shown,
    activeDocument
      (notepad (snd (handleSelectDocument (doc_id quoted_note) loaded_world)))
      = Some shown
    /\ doc_id shown = doc_id quoted_note.
Proof.
  destruct (selecting_a_listed_document_activates_it loaded_world "plan"
              quoted_note ltac:(vm_compute; left; reflexivity))
    as (shown & Hshown & Hid & _).
  exists shown. split; [exact Hshown | exact Hid].
Defined.

Lemma addTodo_keeps_list_in_sync_witness :
  let s' := snd (@TodoList.addTodo Browser.platform todo_list_ready) in
  map todo_content (TodoList.todos s') = ["call the dentist"; "buy milk"]
  /\ @TodoList.in_sync Browser.platform s'.
Proof.
  pose proof (@addTodo_keeps_list_in_sync Browser.platform todo_list_ready) as Hw.
  destruct Hw as (_ & Htodos & _ & Hsync).
  - run.
  - run.
  - intros t Ht. vm_compute in Ht. destruct Ht as [<-|[]]. vm_compute. discriminate.
  - iso.
  - faithful.
  - run.
  - split; [|exact Hsync]. simpl. rewrite Htodos. run.
Defined.
Lemma updateStatus_keeps_list_in_sync_witness :
  let s' := snd (@TodoList.updateStatus Browser.platform "1700000000500"
                   in_progress todo_list_ready) in
  map todo_status (TodoList.todos s') = [in_progress]
  /\ @TodoList.in_sync Browser.platform s'.
Proof.
  pose proof (@updateStatus_keeps_list_in_sync Browser.platform todo_list_ready
                "1700000000500" in_progress call_dentist) as Hw.
  destruct Hw as (_ & Hsync & _ & _).
  - run.
  - distinct.
  - run.
  - iso.
  - iso.
  - faithful.
  - run.
  - split; [run | exact Hsync].
Defined.

Lemma loadTodos_and_deleteTodo_sync_witness :
  let s := TodoList.initial (world_of stocked_env 1700001000000) in
  @TodoList.in_sync Browser.platform (snd (@TodoList.loadTodos Browser.platform s))
  /\ TodoList.todos
       (snd (@TodoList.deleteTodo Browser.platform "1700000000500" todo_list_ready))
     = [].
Proof.
  pose proof (@loadTodos_and_deleteTodo_sync Browser.platform
                (TodoList.initial (world_of stocked_env 1700001000000))
                "1700000000500") as Hw.
  destruct Hw as (_ & Hsync & _); [readable | faithful | run |].
  split; [exact Hsync | run].
Defined.

Lemma todo_content_is_clean_witness :
  let msg := "create todo   water the plants  " in
  let w := world_of (fresh ∅) 1700000000000 in
  exists content,
    fst (@processAICommands Browser.platform msg "Sure." w)
      = Returned (todo_reply content medium)
    /\ Phrases.opens_clean content /\ Phrases.closes_clean content.
Proof.
  destruct (@todo_content_is_clean Browser.platform
              "create todo   water the plants  " "Sure."
              (world_of (fresh ∅) 1700000000000))
    as (content & Hrun & Hopen & Hclose & _);
    [by left | reflexivity | discriminate |].
  exists content. split; [|exact (conj Hopen Hclose)].
  simpl. rewrite Hrun. reflexivity.
Defined.


Lemma chat_history_and_notes_are_independent_witness :
  @persisted Browser.platform
    (storageService
       (ChatHistory.app
          (snd (@ChatHistory.saveHistory Browser.platform lines_codec chatting))))
  = @persisted Browser.platform stocked_env
  /\ ChatHistory.storage_of
       (snd (@ChatHistory.saveHistory Browser.platform lines_codec chatting))
       !! ChatHistory.CHAT_HISTORY_KEY
     = Some "remind me to call the dentist".
Proof.
  destruct (@chat_history_and_notes_are_independent Browser.platform lines_codec
              chatting stocked_env edited_note dentist_called "1700000000123"
              browser_storage_lawful) as [(_ & Hsave & _) _].
  split; [exact Hsave | run].
Defined.

Lemma saveAll_then_reads_witness :
  let e' := snd (@saveAll Browser.platform [untitled_note; third_note] stocked_env) in
  fst (@getAllDocuments Browser.platform e')
    = Returned [quoted_note; untitled_note; third_note]
  /\ fst (@getDocument Browser.platform (doc_id third_note) e')
     = Returned (Some third_note).
Proof.
  assert (Hd : is_Some (@persisted Browser.platform stocked_env)) by readable.
  destruct Hd as [d Hd].
  pose proof (@saveAll_then_reads Browser.platform [untitled_note; third_note]
                stocked_env d Hd) as Hw.
  vm_compute in Hd. injection Hd as <-.
  destruct Hw as (_ & Hall & Heach).
  - distinct.
  - intros doc [<-|[<-|[]]]; split; iso.
  - intros [|[|[|k]]]; faithful.
  - intros d' ls. reflexivity.
  - split; [rewrite Hall; run|]. apply Heach. right. by left.
Defined.

End FurtherRuns.
